(** * sparc-me: the [Dataset] class of [sparc_me/core/dataset.py]

    A shallow embedding of the dataset manager: version normalisation,
    the table mutation engine ([set_field], [append], [update_by_json]),
    the manifest synchroniser ([_modify_manifest]) and the folder life
    cycle ([_add_sample_data], [delete_subject], [delete_sample],
    [delete_data], the count recompute).

    Conventions of the embedding:
    - a Python [str] is a Rocq [string] (byte strings; [lower] is the
      ASCII case map);
    - the pandas and [os]/[shutil]/[pathlib] calls the source makes are
      modelled in the modules [pd] and [fs] below, as far as the source
      uses them;
    - an exception is an [exn]; a method is a function from the state of
      the program (object fields, object heap, file tree, console) to an
      [outcome] that carries the state reached, also when it raises:
      nothing is rolled back. *)

From Stdlib Require Import ZArith Ascii String.
From stdpp Require Import base option list strings pretty gmap fin_maps.

Set Warnings "-register-all".

(** ** Python strings *)

Module pystr.

(** [s.startswith(p)] *)
Fixpoint startswith (p s : string) : bool :=
  match p, s with
  | EmptyString, _ => true
  | String a p', String b s' => if decide (a = b) then startswith p' s' else false
  | String _ _, EmptyString => false
  end.

(** [sub in s] *)
Fixpoint contains (sub s : string) : bool :=
  startswith sub s ||
  match s with
  | EmptyString => false
  | String _ s' => contains sub s'
  end.

(** The scan of [s.replace(old, new)] for a non-empty [old]: left to
    right, occurrences do not overlap. [skip] counts the characters of
    a matched occurrence still to be dropped. *)
Fixpoint replace_go (old new : string) (skip : nat) (s : string) : string :=
  match s with
  | EmptyString => EmptyString
  | String c s' =>
      match skip with
      | S k => replace_go old new k s'
      | O =>
          if startswith old s
          then new +:+ replace_go old new (String.length old - 1) s'
          else String c (replace_go old new 0 s')
      end
  end.

(** With an empty [old], Python puts [new] before every character and
    at the end. *)
Fixpoint intersperse (new s : string) : string :=
  match s with
  | EmptyString => new
  | String c s' => new +:+ String c (intersperse new s')
  end.

(** [s.replace(old, new)] *)
Definition replace (s old new : string) : string :=
  match old with
  | EmptyString => intersperse new s
  | String _ _ => replace_go old new 0 s
  end.

Definition lower_char (c : ascii) : ascii :=
  let n := N_of_ascii c in
  if ((65 <=? n) && (n <=? 90))%N then ascii_of_N (n + 32) else c.

(** [s.lower()] on the letters of ASCII; a letter outside ASCII is left
    as it is, where Python lowers it as well. *)
Fixpoint lower (s : string) : string :=
  match s with
  | EmptyString => EmptyString
  | String c s' => String (lower_char c) (lower s')
  end.

(** [s[1:]] *)
Definition tail (s : string) : string :=
  match s with
  | EmptyString => EmptyString
  | String _ s' => s'
  end.

Definition is_upper (c : ascii) : bool :=
  let n := N_of_ascii c in ((65 <=? n) && (n <=? 90))%N.

(** Every character of [s] satisfies [P]. *)
Fixpoint all_chars (P : ascii -> bool) (s : string) : bool :=
  match s with
  | EmptyString => true
  | String c s' => P c && all_chars P s'
  end.

(** The character-wise image of a string. *)
Fixpoint map_chars (f : ascii -> ascii) (s : string) : string :=
  match s with
  | EmptyString => EmptyString
  | String c s' => String (f c) (map_chars f s')
  end.

End pystr.

(** ** Python values and exceptions *)

(** The Python objects that flow through the methods: JSON-like values.
    Numbers are the integers; floats are outside the embedding. *)
Inductive pyval :=
| PNone
| PBool (b : bool)
| PInt (z : Z)
| PStr (s : string)
| PList (l : list pyval)
| PDict (d : list (string * pyval)).

(** The exceptions the methods and the library calls raise. A
    [ValueError] carries its message: the source tells its failures
    apart by message only. *)
Inductive exn :=
| ValueError (msg : string)
| TypeError (msg : string)
| KeyError (key : string)
| IndexError
| AttributeError
| FileNotFoundError
| FileExistsError
| NotADirectoryError
| IsADirectoryError
| SameFileError
| OSError.

Module py.

(** Neither a list nor a dict. *)
Definition is_scalar (v : pyval) : bool :=
  match v with
  | PList _ | PDict _ => false
  | _ => true
  end.

(** The integer an [int] instance stands for; [bool] is a subclass of
    [int] in Python. *)
Definition as_int (v : pyval) : option Z :=
  match v with
  | PInt z => Some z
  | PBool b => Some (Z.b2z b)
  | _ => None
  end.

(** [a == b] on scalars. *)
Definition eqb (a b : pyval) : bool :=
  match a, b with
  | PStr s, PStr t => bool_decide (s = t)
  | PNone, PNone => true
  | _, _ =>
      match as_int a, as_int b with
      | Some x, Some y => bool_decide (x = y)
      | _, _ => false
      end
  end.

(** [sep.join(ws)] *)
Fixpoint join (sep : string) (ws : list string) : string :=
  match ws with
  | [] => ""
  | [w] => w
  | w :: ws' => w +:+ sep +:+ join sep ws'
  end.

(** [repr(v)]; the escape sequences and the choice of quote of a
    string's [repr] are not modelled: a string is put between single
    quotes as it is. *)
Fixpoint repr (v : pyval) : string :=
  match v with
  | PNone => "None"
  | PBool true => "True"
  | PBool false => "False"
  | PInt z => pretty z
  | PStr s => "'" +:+ s +:+ "'"
  | PList l => "[" +:+ join ", " (map repr l) +:+ "]"
  | PDict d =>
      "{" +:+ join ", " (map (fun kv => "'" +:+ fst kv +:+ "': " +:+ repr (snd kv)) d) +:+ "}"
  end.

(** [str(v)] *)
Definition str (v : pyval) : string :=
  match v with
  | PStr s => s
  | _ => repr v
  end.

(** [str(type(v))] *)
Definition type_str (v : pyval) : string :=
  match v with
  | PNone => "<class 'NoneType'>"
  | PBool _ => "<class 'bool'>"
  | PInt _ => "<class 'int'>"
  | PStr _ => "<class 'str'>"
  | PList _ => "<class 'list'>"
  | PDict _ => "<class 'dict'>"
  end.

(** A [dict] with string keys, in insertion order. *)
Fixpoint dict_get (d : list (string * pyval)) (k : string) : option pyval :=
  match d with
  | [] => None
  | (k', v) :: d' => if decide (k' = k) then Some v else dict_get d' k
  end.

End py.

(** ** pandas, as far as the source uses it *)

Module pd.

(** A frame: the column labels in order, and the rows in order, each
    with its index label and its cells. A cell that is absent from the
    row's map is a missing value (NaN). *)
Record DataFrame := mkDF {
  columns : list string;
  body : list (Z * gmap string pyval)
}.

(** [df.index] *)
Definition index (df : DataFrame) : list Z := (body df).*1.

(** [pd.DataFrame(columns=cols)] *)
Definition empty (cols : list string) : DataFrame := mkDF cols [].

Definition add_column (c : string) (cols : list string) : list string :=
  if decide (c ∈ cols) then cols else cols ++ [c].

(** What a cell holds after [v] is stored in it: [None] is a missing
    value. *)
Definition as_cell (v : pyval) : option pyval :=
  match v with
  | PNone => None
  | _ => Some v
  end.

Definition set_in_row (c : string) (v : pyval) (r : gmap string pyval)
  : gmap string pyval :=
  match as_cell v with
  | None => delete c r
  | Some x => <[c:=x]> r
  end.

(** The first row labelled [label]. *)
Fixpoint row_of (b : list (Z * gmap string pyval)) (label : Z)
  : option (gmap string pyval) :=
  match b with
  | [] => None
  | (l, r) :: b' => if decide (l = label) then Some r else row_of b' label
  end.

(** The cell at ([label], [c]) when the row exists: [None] inside is a
    missing value. *)
Definition cell (df : DataFrame) (label : Z) (c : string) : option (option pyval) :=
  r ← row_of (body df) label; Some (r !! c).

(** [cell == v], element of the mask [df[c] == v]: a missing value
    equals nothing. *)
Definition cell_eqb (c : option pyval) (v : pyval) : bool :=
  match c with
  | None => false
  | Some a => py.eqb a v
  end.

(** [df[c] == v]; [df[c]] raises [KeyError] for an unknown column. *)
Definition eq_mask (df : DataFrame) (c : string) (v : pyval) : exn + list bool :=
  if decide (c ∈ columns df)
  then inr ((fun lr => cell_eqb (lr.2 !! c) v) <$> body df)
  else inl (KeyError c).

(** [mask.any()] *)
Definition any (mask : list bool) : bool := existsb id mask.

(** [df.index[mask].tolist()] *)
Definition index_where (df : DataFrame) (mask : list bool) : list Z :=
  (filter (fun lm => lm.2 = true) (zip (index df) mask)).*1.

Definition setitem_iterable_msg : string :=
  "Must have equal len keys and value when setting with an iterable".

(** [df.loc[label, c] = v] for a scalar [label]: every row with that
    label gets the cell; a label that is not in the index enlarges the
    frame by a row of that label, a column that is not there is added;
    the object is changed in place. A list or a dict as [v] is taken
    for an iterable of cell values and, one cell being addressed,
    refused; what pandas makes of a list of exactly one value differs
    between its versions, and no theorem below stores one.

    The frames of the model carry no dtypes and their labels are
    integers without a bound. pandas holds the labels of an integer
    index in 64 bits and cannot add a label outside them; it converts
    a value to the dtype of its column where it can (an [int] stored in
    a column of floats becomes a float); and it refuses a list for a
    column of numbers only, a column of Python objects takes the list
    as one cell. The refusal is modelled for every column. *)
Definition assign (df : DataFrame) (label : Z) (c : string) (v : pyval) : DataFrame :=
  mkDF (add_column c (columns df))
    (if decide (label ∈ index df)
     then (fun lr => if decide (lr.1 = label)
                     then (lr.1, set_in_row c v lr.2) else lr) <$> body df
     else body df ++ [(label, set_in_row c v ∅)]).

Definition loc_set (df : DataFrame) (label : Z) (c : string) (v : pyval)
  : exn + DataFrame :=
  if py.is_scalar v then inr (assign df label c v)
  else inl (ValueError setitem_iterable_msg).

(** [df.loc[mask, c] = v] for a boolean mask. *)
Definition loc_set_mask (df : DataFrame) (mask : list bool) (c : string) (v : pyval)
  : DataFrame :=
  mkDF (add_column c (columns df))
    ((fun lrm => if lrm.2 : bool then (lrm.1.1, set_in_row c v lrm.1.2) else lrm.1)
       <$> zip (body df) mask).

(** The cells [r] with the items of [row] stored one after the
    other. *)
Definition update_cells (row : list (string * pyval)) (r : gmap string pyval)
  : gmap string pyval :=
  foldl (fun r kv => set_in_row kv.1 kv.2 r) r row.

(** The cells of the one row of [pd.DataFrame([row])]. *)
Definition row_cells (row : list (string * pyval)) : gmap string pyval :=
  update_cells row ∅.

(** Rows relabelled 0, 1, 2, ... ([ignore_index=True], and what a
    reader gives to a table it reads). *)
Definition relabel (rows : list (gmap string pyval)) : list (Z * gmap string pyval) :=
  imap (fun i r => (Z.of_nat i, r)) rows.

(** [pd.concat([df, pd.DataFrame([row])], axis=0, ignore_index=True)]:
    the columns of [df], then the keys of [row] that are new, in their
    order; the rows of [df], then the new one; a fresh frame. *)
Definition concat_row (df : DataFrame) (row : list (string * pyval)) : DataFrame :=
  mkDF (foldl (fun cols k => add_column k cols) (columns df) row.*1)
    (relabel ((body df).*2 ++ [row_cells row])).

(** [df.drop(...)] of the rows selected by [mask]. *)
Definition drop_mask (df : DataFrame) (mask : list bool) : DataFrame :=
  mkDF (columns df) (filter (fun lrm => lrm.2 = false) (zip (body df) mask)).*1.

(** The values of column [c], as a list of cells. *)
Definition column_cells (df : DataFrame) (c : string) : list (option pyval) :=
  (fun lr => lr.2 !! c) <$> body df.

(** A row has a value in one of the columns [cols]. *)
Definition has_value (cols : list string) (r : gmap string pyval) : bool :=
  existsb (fun c => bool_decide (is_Some (r !! c))) cols.

(** [df.dropna(how="all")]: the rows with no value in any column go;
    the rows that stay keep their labels. *)
Definition dropna_all (df : DataFrame) : DataFrame :=
  mkDF (columns df) (filter (fun lr => has_value (columns df) lr.2 = true) (body df)).

(** [df.dropna(subset=[c])]: the rows with no value in column [c] go;
    a column that is not there is a [KeyError]. *)
Definition dropna_subset (df : DataFrame) (c : string) : exn + DataFrame :=
  if decide (c ∈ columns df)
  then inr (mkDF (columns df) (filter (fun lr => is_Some (lr.2 !! c)) (body df)))
  else inl (KeyError c).

(** [df.loc[:, keep]] for a choice of columns: the other columns go
    with their cells. *)
Definition select_columns (keep : string -> bool) (df : DataFrame) : DataFrame :=
  mkDF (filter (fun c => keep c = true) (columns df))
    ((fun lr => (lr.1, filter (fun kv => keep kv.1 = true) lr.2)) <$> body df).

(** [df[c] = None]: column [c], new or not, holds no value in any
    row. *)
Definition set_column_none (df : DataFrame) (c : string) : DataFrame :=
  mkDF (add_column c (columns df)) ((fun lr => (lr.1, delete c lr.2)) <$> body df).

End pd.

(** ** Paths: [os.path] and [pathlib] on POSIX *)

Module ospath.

(** [s.split(sep)] for a one-character separator. *)
Fixpoint split (sep : ascii) (s : string) : list string :=
  match s with
  | EmptyString => [EmptyString]
  | String c s' =>
      if decide (c = sep) then EmptyString :: split sep s'
      else match split sep s' with
           | [] => [String c EmptyString]
           | w :: ws => String c w :: ws
           end
  end.

Fixpoint last_char (s : string) : option ascii :=
  match s with
  | EmptyString => None
  | String c EmptyString => Some c
  | String _ s' => last_char s'
  end.

(** [os.path.join(a, b)] *)
Definition join (a b : string) : string :=
  if pystr.startswith "/" b then b
  else if decide (a = "" ∨ last_char a = Some "/"%char) then a +:+ b
  else a +:+ "/" +:+ b.

(** [os.path.basename(p)] *)
Definition basename (p : string) : string := List.last (split "/" p) "".

(** The parts of a pure POSIX path after its root: empty segments and
    "." are dropped, ".." is kept. *)
Definition parts (p : string) : list string :=
  filter (fun w => w ≠ "" ∧ w ≠ ".") (split "/" p).

(** The root of a pure POSIX path: exactly two leading slashes are
    kept, any other number of them is one. *)
Definition anchor (p : string) : string :=
  if pystr.startswith "///" p then "/"
  else if pystr.startswith "//" p then "//"
  else if pystr.startswith "/" p then "/"
  else "".

(** [str(Path(p))], which is also [Path(p).as_posix()]: a [Path] is
    kept as its normal text. *)
Definition Path (p : string) : string :=
  let s := anchor p +:+ py.join "/" (parts p) in
  if decide (s = "") then "." else s.

(** [Path(p) / name] *)
Definition joinpath (p name : string) : string := Path (join p name).

(** [Path(p).name] *)
Definition name (p : string) : string := List.last (parts p) "".

(** [Path(p).parent] *)
Definition parent (p : string) : string :=
  let s := anchor p +:+ py.join "/" (removelast (parts p)) in
  if decide (s = "") then "." else s.

Fixpoint span_dots (s : string) : string * string :=
  match s with
  | String "." s' => let '(d, r) := span_dots s' in (String "."%char d, r)
  | _ => (EmptyString, s)
  end.

(** The text from the last dot of [s] on, when [s] has a dot, and what
    is before it. *)
Fixpoint rsplit_dot (s : string) : option (string * string) :=
  match s with
  | EmptyString => None
  | String c s' =>
      match rsplit_dot s' with
      | Some (a, b) => Some (String c a, b)
      | None => if decide (c = "."%char) then Some (EmptyString, s) else None
      end
  end.

(** The directory part of [p] with its last slash, and the rest. *)
Fixpoint rsplit_sep (p : string) : string * string :=
  match p with
  | EmptyString => (EmptyString, EmptyString)
  | String c p' =>
      let '(d, b) := rsplit_sep p' in
      if pystr.contains "/" (String c p')
      then (String c d, b) else (EmptyString, String c p')
  end.

(** [os.path.splitext(p)]: the extension starts at the last dot of the
    last path segment; leading dots of that segment do not count. *)
Definition splitext (p : string) : string * string :=
  let '(dir, base) := rsplit_sep p in
  let '(dots, rest) := span_dots base in
  match rsplit_dot rest with
  | Some (stem, ext) => (dir +:+ dots +:+ stem, ext)
  | None => (p, EmptyString)
  end.

(** A name an entry of a directory can have. *)
Definition is_name (w : string) : bool :=
  bool_decide (w ≠ "" ∧ w ≠ "." ∧ w ≠ "..") && negb (pystr.contains "/" w).

(** The names from the root of the file tree to the file that the
    operating system reaches under [p]: ".." steps back. A relative
    path is read from the root (the working directory is the root);
    links are not modelled. *)
Definition resolve (p : string) : list string :=
  foldl (fun acc w => if decide (w = "..") then removelast acc else acc ++ [w])
    [] (parts p).

(** Where [Path.suffix] and [Path.stem] cut the name: at its last dot,
    when that dot is neither the first nor the last character. *)
Definition cut_suffix (name : string) : option (string * string) :=
  match rsplit_dot name with
  | Some (a, b) => if decide (a ≠ "" ∧ b ≠ ".") then Some (a, b) else None
  | None => None
  end.

(** [Path(p).suffix] *)
Definition suffix (p : string) : string :=
  match cut_suffix (name p) with
  | Some (_, b) => b
  | None => ""
  end.

(** [Path(p).stem] *)
Definition stem (p : string) : string :=
  match cut_suffix (name p) with
  | Some (a, _) => a
  | None => name p
  end.

End ospath.

(** ** The file tree *)

Module fs.

(** What a file holds: a table (a spreadsheet, a delimited text or a
    JSON table, read alike) or anything else. *)
Inductive content :=
| Sheet (cols : list string) (rows : list (gmap string pyval))
| Blob (data : string).

(** A directory lists its entries in the order [os.listdir] gives. *)
Inductive node :=
| File (c : content)
| Dir (entries : list (string * node)).

Fixpoint assoc (k : string) (es : list (string * node)) : option node :=
  match es with
  | [] => None
  | (k', n) :: es' => if decide (k' = k) then Some n else assoc k es'
  end.

Fixpoint lookup (p : list string) (n : node) : option node :=
  match p with
  | [] => Some n
  | c :: p' =>
      match n with
      | Dir es => match assoc c es with
                  | Some ch => lookup p' ch
                  | None => None
                  end
      | File _ => None
      end
  end.

Fixpoint replace_entry (k : string) (n : node) (es : list (string * node))
  : list (string * node) :=
  match es with
  | [] => [(k, n)]
  | (k', n') :: es' =>
      if decide (k' = k) then (k, n) :: es' else (k', n') :: replace_entry k n es'
  end.

(** Entry [k] of a directory set to [o]: replaced where it stands, put
    last when it is new, taken out when [o] is [None]. *)
Definition set_entry (k : string) (o : option node) (es : list (string * node))
  : list (string * node) :=
  match o with
  | Some n => replace_entry k n es
  | None => filter (fun e => e.1 ≠ k) es
  end.

(** The tree with the entry at [p] set to [o]; [None] when [p] is the
    root or its parent is not a directory of the tree. *)
Fixpoint put (p : list string) (o : option node) (n : node) : option node :=
  match p with
  | [] => None
  | c :: p' =>
      match n with
      | File _ => None
      | Dir es =>
          match p' with
          | [] => Some (Dir (set_entry c o es))
          | _ :: _ =>
              match assoc c es with
              | Some ch =>
                  match put p' o ch with
                  | Some ch' => Some (Dir (set_entry c (Some ch') es))
                  | None => None
                  end
              | None => None
              end
          end
      end
  end.



Definition is_dir_node (o : option node) : bool :=
  match o with Some (Dir _) => true | _ => false end.

Definition is_file_node (o : option node) : bool :=
  match o with Some (File _) => true | _ => false end.

(** [os.path.exists], [os.path.isdir], [os.path.isfile] and the
    [Path] methods of the same meaning. *)
Definition exists_ (root : node) (p : string) : bool :=
  bool_decide (is_Some (lookup (ospath.resolve p) root)).
Definition isdir (root : node) (p : string) : bool :=
  is_dir_node (lookup (ospath.resolve p) root).
Definition isfile (root : node) (p : string) : bool :=
  is_file_node (lookup (ospath.resolve p) root).

(** What [os.listdir] answers for what is found at a path. *)
Definition listing (o : option node) : exn + list string :=
  match o with
  | Some (Dir es) => inr es.*1
  | Some (File _) => inl NotADirectoryError
  | None => inl FileNotFoundError
  end.

(** [os.listdir(p)] *)
Definition listdir (root : node) (p : string) : exn + list string :=
  listing (lookup (ospath.resolve p) root).

Definition remove (root : node) (p : string) : exn + node :=
  match put (ospath.resolve p) None root with
  | Some root' => inr root'
  | None => inl OSError
  end.

(** [Path(p).unlink()] *)
Definition unlink (root : node) (p : string) : exn + node :=
  match lookup (ospath.resolve p) root with
  | Some (File _) => remove root p
  | Some (Dir _) => inl IsADirectoryError
  | None => inl FileNotFoundError
  end.

(** [shutil.rmtree(p)] *)
Definition rmtree (root : node) (p : string) : exn + node :=
  match lookup (ospath.resolve p) root with
  | Some (Dir _) => remove root p
  | Some (File _) => inl NotADirectoryError
  | None => inl FileNotFoundError
  end.

(** [Path(p).rmdir()]: only an empty directory goes. *)
Definition rmdir (root : node) (p : string) : exn + node :=
  match lookup (ospath.resolve p) root with
  | Some (Dir []) => remove root p
  | Some (Dir (_ :: _)) => inl OSError
  | Some (File _) => inl NotADirectoryError
  | None => inl FileNotFoundError
  end.


(** The bytes of the file at [p]. *)
Definition read (root : node) (p : string) : exn + content :=
  match lookup (ospath.resolve p) root with
  | Some (File c) => inr c
  | Some (Dir _) => inl IsADirectoryError
  | None => inl FileNotFoundError
  end.

(** A file written at [p], new or over the file that is there; its
    directory must be there. *)
Definition write (root : node) (p : string) (c : content) : exn + node :=
  match lookup (ospath.resolve p) root with
  | Some (Dir _) => inl IsADirectoryError
  | _ =>
      match put (ospath.resolve p) (Some (File c)) root with
      | Some root' => inr root'
      | None => inl FileNotFoundError
      end
  end.

(** A file can be written at [p]: the folder of [p] is a directory of
    the tree and [p] itself is not one. *)
Definition writable (root : node) (p : string) : bool :=
  negb (is_dir_node (lookup (ospath.resolve p) root))
  && is_dir_node (lookup (removelast (ospath.resolve p)) root)
  && bool_decide (ospath.resolve p ≠ []).

(** [shutil.copy2(src, dst)]: into [dst] when it is a directory, under
    the source's base name. *)
Definition copy2 (root : node) (src dst : string) : exn + node :=
  match read root src with
  | inl e => inl e
  | inr c =>
      let target := if isdir root dst then ospath.join dst (ospath.basename src) else dst in
      if decide (ospath.resolve src = ospath.resolve target) then inl SameFileError
      else write root target c
  end.

(** [shutil.move(src, dst)] within one file system: a rename, into
    [dst] when it is a directory. *)
Definition move (root : node) (src dst : string) : exn + node :=
  match lookup (ospath.resolve src) root with
  | None => inl FileNotFoundError
  | Some n =>
      let into := isdir root dst in
      let real_dst := if into then ospath.join dst (ospath.name src) else dst in
      if into && exists_ root real_dst then inl OSError
      else
        match n, lookup (ospath.resolve real_dst) root with
        | Dir _, Some (File _) => inl NotADirectoryError
        | File _, Some (Dir _) => inl IsADirectoryError
        | Dir _, Some (Dir (_ :: _)) => inl OSError
        | _, _ =>
            match put (ospath.resolve src) None root with
            | None => inl OSError
            | Some root1 =>
                match put (ospath.resolve real_dst) (Some n) root1 with
                | Some root2 => inr root2
                | None => inl FileNotFoundError
                end
            end
        end
  end.


End fs.

(** ** The state of the program *)

(** A subject object of the collaborator class [Subject]. *)
Record Subject := mkSubject { subject_id : string }.

(** A metadata editor, an object of the collaborator class [Metadata]:
    the document's name, the frame object its [data] attribute points
    to, and the dataset path it was built with. *)
Record Metadata := mkMetadata {
  metadata_file : string;
  data : nat;
  metadata_path : string
}.

(** An entry of [Dataset._dataset]: a dict with "path" and "metadata"
    for a spreadsheet, a bare path for anything else. *)
Inductive Entry :=
| Tabular (path : string) (metadata : nat)
| Opaque (path : string).

(** What a call leaves behind outside the objects and the file tree. *)
Inductive event :=
| Printed (msg : string)
| Wrote (path : string).

Record State := mkState {
  (* the fields of the [Dataset] object *)
  _version : string;
  _dataset_path : string;
  _dataset : gmap string Entry;
  _metadata : gmap string Metadata;
  _subjects : gmap string Subject;
  _subject_id_field : option string;
  _sample_id_field : option string;
  (* the frame objects, by address *)
  heap : gmap nat pd.DataFrame;
  (* the file tree *)
  disk : fs.node;
  (* the clock: the text of the UTC time at each reading *)
  clock : nat -> string;
  ticks : nat;
  (* printed lines and table files written, oldest first *)
  trace : list event
}.

Definition with_dataset (f : gmap string Entry -> gmap string Entry) (s : State) : State :=
  mkState (_version s) (_dataset_path s) (f (_dataset s)) (_metadata s) (_subjects s)
    (_subject_id_field s) (_sample_id_field s) (heap s) (disk s) (clock s) (ticks s) (trace s).

Definition with_metadata (f : gmap string Metadata -> gmap string Metadata) (s : State) : State :=
  mkState (_version s) (_dataset_path s) (_dataset s) (f (_metadata s)) (_subjects s)
    (_subject_id_field s) (_sample_id_field s) (heap s) (disk s) (clock s) (ticks s) (trace s).

Definition with_heap (f : gmap nat pd.DataFrame -> gmap nat pd.DataFrame) (s : State) : State :=
  mkState (_version s) (_dataset_path s) (_dataset s) (_metadata s) (_subjects s)
    (_subject_id_field s) (_sample_id_field s) (f (heap s)) (disk s) (clock s) (ticks s) (trace s).

Definition with_disk (d : fs.node) (s : State) : State :=
  mkState (_version s) (_dataset_path s) (_dataset s) (_metadata s) (_subjects s)
    (_subject_id_field s) (_sample_id_field s) (heap s) d (clock s) (ticks s) (trace s).

Definition with_tick (s : State) : State :=
  mkState (_version s) (_dataset_path s) (_dataset s) (_metadata s) (_subjects s)
    (_subject_id_field s) (_sample_id_field s) (heap s) (disk s) (clock s) (S (ticks s)) (trace s).

Definition with_event (e : event) (s : State) : State :=
  mkState (_version s) (_dataset_path s) (_dataset s) (_metadata s) (_subjects s)
    (_subject_id_field s) (_sample_id_field s) (heap s) (disk s) (clock s) (ticks s)
    (trace s ++ [e]).

(** How a call ends: with a value or with an exception, and in either
    case in the state it reached. *)
Inductive outcome (A : Type) :=
| Ret (a : A) (s : State)
| Raise (e : exn) (s : State).
Arguments Ret {A} a s.
Arguments Raise {A} e s.

Definition state_of {A} (o : outcome A) : State :=
  match o with Ret _ s | Raise _ s => s end.

Definition M (A : Type) : Type := State -> outcome A.

Definition ret {A} (a : A) : M A := fun s => Ret a s.
Definition raise {A} (e : exn) : M A := fun s => Raise e s.
Definition bind {A B} (m : M A) (k : A -> M B) : M B :=
  fun s => match m s with
           | Ret a s' => k a s'
           | Raise e s' => Raise e s'
           end.

Notation "x <- m ;; k" := (bind m (fun x => k))
  (at level 100, m at next level, k at level 200, right associativity,
   format "'[v' x  <-  m  ;;  '/' k ']'").
Notation "m ;;; k" := (bind m (fun _ => k))
  (at level 100, k at level 200, right associativity,
   format "'[v' m  ;;;  '/' k ']'").

Definition get : M State := fun s => Ret s s.
Definition modify (f : State -> State) : M unit := fun s => Ret tt (f s).

(** A library call that returns or raises. *)
Definition lift {A} (r : exn + A) : M A :=
  match r with
  | inr a => ret a
  | inl e => raise e
  end.

(** [try: m except ValueError: raise ValueError(msg)] *)
Definition reraise_ValueError {A} (m : M A) (msg : string) : M A :=
  fun s => match m s with
           | Raise (ValueError _) s' => Raise (ValueError msg) s'
           | o => o
           end.

(** [for x in xs: body(x)] *)
Fixpoint for_each {X} (xs : list X) (body : X -> M unit) : M unit :=
  match xs with
  | [] => ret tt
  | x :: xs' => body x ;;; for_each xs' body
  end.


(** [datetime.now(timezone.utc).strftime("%Y-%m-%d %H:%M:%S")] *)
Definition utc_now : M string :=
  fun s => Ret (clock s (ticks s)) (with_tick s).

(** *** Frame objects *)

(** A new frame object. *)
Definition alloc (df : pd.DataFrame) : M nat :=
  fun s => let r := fresh (dom (heap s)) in Ret r (with_heap <[r:=df]> s).

(** The frame at an address. *)
Definition deref (r : nat) : M pd.DataFrame :=
  fun s => match heap s !! r with
           | Some df => Ret df s
           | None => Raise AttributeError s
           end.

(** The frame at an address changed in place. *)
Definition store (r : nat) (df : pd.DataFrame) : M unit :=
  modify (with_heap <[r:=df]>).

(** [frame.loc[label, c] = v] on the object at [r]. *)
Definition loc_assign (r : nat) (label : Z) (c : string) (v : pyval) : M unit :=
  df <- deref r ;;
  df' <- lift (pd.loc_set df label c v) ;;
  store r df'.

(** *** Files *)

Definition os_exists (p : string) : M bool := fun s => Ret (fs.exists_ (disk s) p) s.
Definition os_isdir (p : string) : M bool := fun s => Ret (fs.isdir (disk s) p) s.
Definition os_isfile (p : string) : M bool := fun s => Ret (fs.isfile (disk s) p) s.
Definition os_listdir (p : string) : M (list string) := fun s => lift (fs.listdir (disk s) p) s.

(** A call that changes the file tree. *)
Definition on_disk (f : fs.node -> exn + fs.node) : M unit :=
  fun s => match f (disk s) with
           | inr d => Ret tt (with_disk d s)
           | inl e => Raise e s
           end.

(** A reader of pandas on the file at [p]: the table of the file, its
    rows labelled from 0. The three readers the source calls differ in
    the file format only, which the file tree does not record.

    The file tree keeps a table file as the table it holds:
    [read_table] returns that table as it is, and [to_excel] below
    puts the table it is given. pandas itself does not read every cell
    back as it was written: an empty text comes back as a missing
    value, and a delimited text gives numbers for the texts that look
    like numbers. So the table of a file is what was written to it, or
    what a reader returns for it, and the two differ in such cells. No
    theorem below rests on the cells that a call reads back from a
    file written before; where one speaks of such a call, what it says
    of the call holds for whatever table is read. *)
Definition read_table (p : string) : M pd.DataFrame :=
  fun s => match fs.read (disk s) p with
           | inr (fs.Sheet cols rows) => Ret (pd.mkDF cols (pd.relabel rows)) s
           | inr (fs.Blob _) => Raise (ValueError "Excel file format cannot be determined") s
           | inl e => Raise e s
           end.

(** [pd.read_excel(p)] *)
Definition read_excel (p : string) : M pd.DataFrame := read_table p.
(** [pd.read_csv(p)] *)
Definition read_csv (p : string) : M pd.DataFrame := read_table p.
(** [pd.read_json(p, orient="index")] *)
Definition read_json (p : string) : M pd.DataFrame := read_table p.

(** [df.to_excel(p, index=False)] *)
Definition to_excel (df : pd.DataFrame) (p : string) : M unit :=
  on_disk (fun d => fs.write d p (fs.Sheet (pd.columns df) (pd.body df).*2)) ;;;
  modify (with_event (Wrote (ospath.Path p))).

(** ** Collaborators: [sparc_me.core.utils] and [sparc_me.core.metadata] *)

Module utils.

(** Modelled from the spec: [utils.check_row_exist] is imported by
    dataset.py and is not among the source files. The spec (4.4,
    append) has the engine look up "an existing row whose uniqueColumn
    value equals row[uniqueColumn]", and the caller takes -1 for "no
    such row" and any other answer for the label of the row. More than
    one match is a failure (7, AmbiguousRow), which the caller expects
    as a [ValueError]. A column that is not in the table has no row
    with the value. *)
Definition check_row_exist (df : pd.DataFrame) (unique_column : string)
    (unique_value : pyval) : exn + Z :=
  match pd.eq_mask df unique_column unique_value with
  | inl _ => inr (-1)%Z
  | inr mask =>
      match pd.index_where df mask with
      | [] => inr (-1)%Z
      | [i] => inr i
      | _ :: _ :: _ => inl (ValueError "More than one row with the unique value")
      end
  end.

(** Modelled from the spec: [utils.get_sub_folder_paths_in_folder] is
    imported by dataset.py and is not among the source files. The spec
    (4.6, count recompute) counts "immediate subdirectories" of a
    folder: the paths of the entries of the folder that are
    directories, in listing order. *)
Definition get_sub_folder_paths_in_folder (folder : string) : M (list string) :=
  names <- os_listdir folder ;;
  s <- get ;;
  ret (filter (fun p => fs.isdir (disk s) p = true)
         ((fun n => ospath.joinpath (ospath.Path folder) n) <$> names)).

End utils.

Module editor.

(** The column that identifies a row of a document: the file name for
    the manifest, the version's subject and sample identifier columns
    for subjects and samples (spec 3, version-specific schema). *)
Definition key_column (name : string) (s : State) : option string :=
  if decide (name = "manifest") then Some "filename"
  else if decide (name = "subjects") then _subject_id_field s
  else if decide (name = "samples") then _sample_id_field s
  else None.

(** Modelled from the spec: [Metadata.remove_row] is a method of the
    collaborator class, not among the source files. The spec (4.6)
    removes "the corresponding row" of the subjects and samples tables
    "by folder name" and the manifest row "matched by path relative to
    dataset root": the rows whose identifying cell equals the key go,
    in the editor's own table. *)
Definition remove_row (m : Metadata) (key : string) : M unit :=
  s <- get ;;
  match key_column (metadata_file m) s with
  | None => ret tt
  | Some c =>
      df <- deref (data m) ;;
      mask <- lift (pd.eq_mask df c (PStr key)) ;;
      store (data m) (pd.drop_mask df mask)
  end.

(** Modelled from the spec: [Metadata.set_values] is a method of the
    collaborator class, not among the source files. The spec (4.6,
    count recompute) writes the value "into the description table's
    rows named exactly" the element: the "Value" cell of every row
    whose element name is the element. *)
Definition set_values (m : Metadata) (element : string) (values : pyval) : M unit :=
  df <- deref (data m) ;;
  mask <- lift (pd.eq_mask df "Metadata element" (PStr element)) ;;
  store (data m) (pd.loc_set_mask df mask "Value" values).

(** The file of the editor's document. *)
Definition file_path (m : Metadata) : string :=
  ospath.joinpath (ospath.Path (metadata_path m)) (metadata_file m +:+ ".xlsx").

(** Modelled from the spec: [Metadata.save] is a method of the
    collaborator class, not among the source files. The spec (4.6, 6)
    has it persist the editor's table: the table is written to the
    document's file under the dataset path the editor was built
    with. *)
Definition save (m : Metadata) : M unit :=
  df <- deref (data m) ;;
  to_excel df (file_path m).

End editor.

(** ** The [Dataset] methods *)

Definition not_loaded_msg : string :=
  "Dataset not defined. Please load the dataset in advance.".

(** [if not self._dataset: raise ValueError(msg)] *)
Definition require_loaded : M unit :=
  s <- get ;;
  if decide (_dataset s = ∅) then raise (ValueError not_loaded_msg) else ret tt.

(** [self._dataset.get(metadata_file).get("metadata")]: [dict.get]
    gives [None] for a missing key and a path has no [get]. *)
Definition entry_metadata (metadata_file : string) : M nat :=
  s <- get ;;
  match _dataset s !! metadata_file with
  | Some (Tabular _ r) => ret r
  | Some (Opaque _) | None => raise AttributeError
  end.

(** [self._dataset[metadata_file]["metadata"] = frame] *)
Definition set_entry_metadata (metadata_file : string) (r : nat) : M unit :=
  s <- get ;;
  match _dataset s !! metadata_file with
  | Some (Tabular p _) => modify (with_dataset <[metadata_file := Tabular p r]>)
  | Some (Opaque _) => raise (TypeError "'PosixPath' object does not support item assignment")
  | None => raise (KeyError metadata_file)
  end.

(** [self._metadata[name]] *)
Definition the_editor (name : string) : M Metadata :=
  s <- get ;;
  match _metadata s !! name with
  | Some m => ret m
  | None => raise (KeyError name)
  end.

(** [editor.data = frame] for the editor registered as [name]. *)
Definition set_editor_data (name : string) (r : nat) : M unit :=
  modify (with_metadata (fun ms =>
    match ms !! name with
    | Some m => <[name := mkMetadata (metadata_file m) r (metadata_path m)]> ms
    | None => ms
    end)).

(** [Dataset.set_field] *)
Definition set_field (metadata_file : string) (row_index : pyval) (header : string)
    (value : pyval) : M unit :=
  require_loaded ;;;
  metadata <- entry_metadata metadata_file ;;
  match py.as_int row_index with
  | None => raise (ValueError "row_index should be 'int'.")
  | Some row_index =>
      reraise_ValueError
        (let row_index := (row_index - 2)%Z in
         loc_assign metadata row_index header value)
        "Value error. row does not exists." ;;;
      set_entry_metadata metadata_file metadata
  end.

Section mutation_engine.

(** [utils.validate_metadata_file] is imported by dataset.py and is not
    among the source files; the spec does not describe it. The methods
    that call it take it as it comes. *)
Variable validate_metadata_file : string -> string -> exn + string.

(** [Dataset.get_metadata] *)
Definition get_metadata (metadata_file : string) : M (string * Metadata) :=
  require_loaded ;;;
  s <- get ;;
  metadata_file <- lift (validate_metadata_file metadata_file (_version s)) ;;
  m <- the_editor metadata_file ;;
  ret (metadata_file, m).

(** [Dataset.append]. [current_metadata] is the editor object, named
    here by its key in [self._metadata]. *)
Definition append (metadata_file : string) (row : list (string * pyval))
    (check_exist : bool) (unique_column : option string) : M unit :=
  require_loaded ;;;
  current_metadata <- get_metadata metadata_file ;;
  row_index <-
    (if check_exist then
       match unique_column with
       | None =>
           raise (ValueError "Provide which column in metadata_file is unique. Ex: subject_id")
       | Some unique_column =>
           reraise_ValueError
             (match py.dict_get row unique_column with
              | None => raise (KeyError unique_column)
              | Some unique_value =>
                  df <- deref (data current_metadata.2) ;;
                  lift (utils.check_row_exist df unique_column unique_value)
              end)
             "Row values provided does not contain a unique identifier"
       end
     else ret (-1)%Z) ;;
  (if decide (row_index = (-1)%Z) then
     df <- deref (data current_metadata.2) ;;
     r <- alloc (pd.concat_row df row) ;;
     set_editor_data current_metadata.1 r
   else
     for_each row (fun kv => loc_assign (data current_metadata.2) row_index kv.1 kv.2)) ;;;
  m <- the_editor current_metadata.1 ;;
  set_entry_metadata metadata_file (data m).

End mutation_engine.

(** [metadata.index[metadata['Metadata element'] == field].tolist()[0]]
    and [metadata.loc[index, "Value"] = value] *)
Definition assign_element (metadata : nat) (field : string) (value : pyval) : M unit :=
  df <- deref metadata ;;
  mask <- lift (pd.eq_mask df "Metadata element" (PStr field)) ;;
  match pd.index_where df mask with
  | [] => raise IndexError
  | index :: _ => loc_assign metadata index "Value" value
  end.

(** The field and the value one turn of the inner loop of
    [update_by_json] assigns: the test is on the variable [value], which
    holds the outer value at the first turn and the value assigned at
    the turn before afterwards. *)
Definition nested_assignment (value : pyval) (key_1 : string) (value_1 : pyval)
  : string * pyval :=
  match value with
  | PList _ => ("    " +:+ key_1, PStr (py.str value_1))
  | _ => ("    " +:+ key_1, value_1)
  end.

(** [for key_1, value_1 in value.items(): ...], the variable [value]
    threaded through the turns. *)
Fixpoint nested_loop (metadata : nat) (items : list (string * pyval)) (value : pyval)
  : M unit :=
  match items with
  | [] => ret tt
  | (key_1, value_1) :: rest =>
      let '(field, value) := nested_assignment value key_1 value_1 in
      assign_element metadata field value ;;;
      nested_loop metadata rest value
  end.

(** [Dataset.update_by_json], from the document the JSON file parses
    to. *)
Definition update_by_json (metadata_file : string) (data : pyval) : M nat :=
  metadata <- entry_metadata metadata_file ;;
  match data with
  | PDict items =>
      for_each items (fun kv =>
        match kv.2 with
        | PDict d => nested_loop metadata d kv.2
        | PList _ => assign_element metadata kv.1 (PStr (py.str kv.2))
        | _ => assign_element metadata kv.1 kv.2
        end) ;;;
      ret metadata
  | _ => raise AttributeError
  end.

(** [try: m except: raise ValueError(msg)] *)
Definition reraise_any {A} (m : M A) (msg : string) : M A :=
  fun s => match m s with
           | Raise _ s' => Raise (ValueError msg) s'
           | o => o
           end.

(** [Dataset.get_subject]; [dict.get] answers [None] for a key that is
    not there. *)
Definition get_subject (subject_sds_id : pyval) : M (option Subject) :=
  match subject_sds_id with
  | PStr id =>
      reraise_any
        (s <- get ;; ret (_subjects s !! id))
        ("Subject not found with " +:+ id
           +:+ "! Please check your subject_sds_id in subject metadata file")
  | _ =>
      raise (ValueError
               ("Subject not found, please provide a string subject_sds_id!, you subject_sds_id type is "
                  +:+ py.type_str subject_sds_id))
  end.

(** [Dataset._move_single_file] *)
Definition _move_single_file (file_path destination_path fname : string) (copy : bool)
  : M unit :=
  if copy then on_disk (fun d => fs.copy2 d file_path destination_path)
  else on_disk (fun d => fs.move d file_path (ospath.join destination_path fname)).

(** [Dataset._update_dataset_by_df] *)
Definition _update_dataset_by_df (df : nat) (metadata_file : string) : M unit :=
  manifest_metadata <- the_editor metadata_file ;;
  set_editor_data metadata_file df ;;;
  set_entry_metadata metadata_file df.

Definition manifest_columns : list string :=
  ["filename"; "description"; "timestamp"; "file type"].

(** The [filename] of a manifest row: the text of the file's path with
    every occurrence of the folder's text taken out, less its first
    character, as a path. *)
Definition manifest_filename (manifest_folder_path destination_path fname : string)
  : string :=
  ospath.Path
    (pystr.tail (pystr.replace (ospath.join destination_path fname) manifest_folder_path "")).

(** [os.path.splitext(fname)[-1].lower()[1:]] *)
Definition file_type (fname : string) : string :=
  pystr.tail (pystr.lower (ospath.splitext fname).2).

(** The row [_modify_manifest] builds. *)
Definition manifest_row (file_path timestamp description fname : string)
  : list (string * pyval) :=
  [("filename", PStr file_path); ("timestamp", PStr timestamp);
   ("description", PStr description); ("file type", PStr (file_type fname))].

(** The update of the table: the time stamp of the rows that have the
    file name, or one more row. *)
Definition upsert (df : pd.DataFrame) (row : list (string * pyval)) (filename timestamp : string)
  : exn + pd.DataFrame :=
  match pd.eq_mask df "filename" (PStr filename) with
  | inl e => inl e
  | inr exsiting_row =>
      if pd.any exsiting_row
      then inr (pd.loc_set_mask df exsiting_row "timestamp" (PStr timestamp))
      else inr (pd.concat_row df row)
  end.

(** The first part of [_modify_manifest]: the path of the manifest
    file of the folder, its extension and its table. Case 1, a manifest
    file exists: the first file of the folder with "manifest" in its
    name, read by its extension. Case 2, none does: manifest.xlsx is to
    be made, from the table with the four columns and no row. *)
Definition find_manifest (manifest_folder_path : string)
  : M (string * string * pd.DataFrame) :=
  files <- os_listdir manifest_folder_path ;;
  let manifest_file_path := filter (fun f => pystr.contains "manifest" f = true) files in
  match manifest_file_path with
  | f :: _ =>
      let manifest_file_path := ospath.join manifest_folder_path f in
      let extension := pystr.lower (ospath.splitext manifest_file_path).2 in
      if decide (extension = ".xlsx") then
        df <- read_excel manifest_file_path ;;
        ret (manifest_file_path, extension, df)
      else if decide (extension = ".csv") then
        df <- read_csv manifest_file_path ;;
        ret (manifest_file_path, extension, df)
      else if decide (extension = ".json") then
        df <- read_json manifest_file_path ;;
        ret (manifest_file_path, extension, df)
      else
        raise (ValueError ("Unauthorized manifest file extension: " +:+ extension))
  | [] =>
      ret (ospath.join manifest_folder_path "manifest.xlsx", ".xlsx",
           pd.empty manifest_columns)
  end.

(** The last part of [_modify_manifest], "Save editted manifest file":
    a spreadsheet is written; for a delimited text the source calls
    [pd.to_csv], which pandas does not have; for a JSON file it reads
    the file again and writes nothing. *)
Definition save_manifest (df : pd.DataFrame) (manifest_file_path extension : string)
  : M unit :=
  if decide (extension = ".xlsx") then to_excel df manifest_file_path
  else if decide (extension = ".csv") then raise AttributeError
  else if decide (extension = ".json") then (_ <- read_json manifest_file_path ;; ret tt)
  else ret tt.

(** [Dataset._modify_manifest] *)
Definition _modify_manifest (fname manifest_folder_path destination_path description : string)
  : M unit :=
  found <- find_manifest manifest_folder_path ;;
  let '(manifest_file_path, extension, df) := found in
  let file_path := manifest_filename manifest_folder_path destination_path fname in
  timestamp <- utc_now ;;
  let row := manifest_row file_path timestamp description fname in
  df <- lift (upsert df row file_path timestamp) ;;
  r <- alloc df ;;
  _update_dataset_by_df r "manifest" ;;;
  save_manifest df manifest_file_path extension.

(** [Dataset._delete_data] *)
Definition _delete_data (destination_path : string) : M bool :=
  let file_path := ospath.Path destination_path in
  e <- os_exists file_path ;;
  if e : bool then
    f <- os_isfile file_path ;;
    if f : bool then on_disk (fun d => fs.unlink d file_path) ;;; ret true
    else on_disk (fun d => fs.rmtree d file_path) ;;; ret false
  else ret false.

(** The key [delete_data] hands to [remove_row]. *)
Definition deleted_filename (dataset_path destination_path : string) : string :=
  ospath.Path
    (pystr.tail (pystr.replace (ospath.Path destination_path) (ospath.Path dataset_path) "")).

(** [Dataset.delete_data] *)
Definition delete_data (destination_path : string) : M unit :=
  e <- os_exists (ospath.Path destination_path) ;;
  if negb e then raise FileNotFoundError
  else
    delete_flag <- _delete_data destination_path ;;
    if delete_flag : bool then
      s <- get ;;
      let path := deleted_filename (_dataset_path s) destination_path in
      manifest <- the_editor "manifest" ;;
      editor.remove_row manifest path ;;;
      editor.save manifest
    else ret tt.

(** [for sub in subject_folders: if sub.is_dir():
    sample_folders.extend(get_sub_folder_paths_in_folder(sub))] *)
Fixpoint collect_sample_folders (subject_folders sample_folders : list string)
  : M (list string) :=
  match subject_folders with
  | [] => ret sample_folders
  | sub :: rest =>
      d <- os_isdir sub ;;
      if d : bool then
        folders <- utils.get_sub_folder_paths_in_folder sub ;;
        collect_sample_folders rest (sample_folders ++ folders)
      else collect_sample_folders rest sample_folders
  end.

(** [Dataset._update_sub_sam_nums_in_dataset_description] *)
Definition _update_sub_sam_nums_in_dataset_description (primary_folder : string) : M unit :=
  subject_folders <- utils.get_sub_folder_paths_in_folder primary_folder ;;
  sample_folders <- collect_sample_folders subject_folders [] ;;
  dataset_description_metadata <- the_editor "dataset_description" ;;
  editor.set_values dataset_description_metadata "Number of subjects"
    (PInt (Z.of_nat (length subject_folders))) ;;;
  editor.set_values dataset_description_metadata "Number of samples"
    (PInt (Z.of_nat (length sample_folders))) ;;;
  editor.save dataset_description_metadata.

(** [Dataset.delete_sample] *)
Definition delete_sample (destination_path : pyval) (data_type : string) : M unit :=
  match destination_path with
  | PList _ => raise (TypeError "Please provide a path string!")
  | PStr destination_path =>
      let sam_folder := ospath.Path destination_path in
      e <- os_exists sam_folder ;;
      if negb e then raise FileExistsError
      else
        d <- os_isdir sam_folder ;;
        if negb d then
          raise (ValueError ("The " +:+ sam_folder
                   +:+ " path is not a folder, please provide the sample files folder."))
        else
          s <- get ;;
          let primary_folder := ospath.joinpath (_dataset_path s) "primary" in
          items <- os_listdir sam_folder ;;
          for_each items (fun item => delete_data (ospath.joinpath sam_folder item)) ;;;
          on_disk (fun d => fs.rmdir d sam_folder) ;;;
          if decide (data_type = "primary") then
            _update_sub_sam_nums_in_dataset_description primary_folder ;;;
            samples_metadata <- the_editor "samples" ;;
            editor.remove_row samples_metadata (ospath.name sam_folder) ;;;
            editor.save samples_metadata
          else ret tt
  | _ => raise (TypeError "expected str, bytes or os.PathLike object")
  end.

(** [Dataset.delete_subject] *)
Definition delete_subject (destination_path : pyval) (data_type : string) : M unit :=
  match destination_path with
  | PList _ => raise (ValueError "Please provide a path string!")
  | PStr destination_path =>
      let sub_folder := ospath.Path destination_path in
      e <- os_exists sub_folder ;;
      if negb e then raise (ValueError ("The folder " +:+ sub_folder +:+ " is not existing"))
      else
        d <- os_isdir sub_folder ;;
        if negb d then raise (ValueError ("The " +:+ sub_folder +:+ " is not a folder"))
        else
          s <- get ;;
          let primary_folder := ospath.joinpath (_dataset_path s) "primary" in
          items <- os_listdir sub_folder ;;
          for_each items (fun item =>
            let sam_folder := ospath.joinpath sub_folder item in
            d <- os_isdir sam_folder ;;
            if d : bool then delete_sample (PStr sam_folder) data_type else ret tt) ;;;
          on_disk (fun d => fs.rmdir d sub_folder) ;;;
          if decide (data_type = "primary") then
            _update_sub_sam_nums_in_dataset_description primary_folder ;;;
            subjects_metadata <- the_editor "subjects" ;;
            editor.remove_row subjects_metadata (ospath.name sub_folder) ;;;
            editor.save subjects_metadata
          else ret tt
  | _ => raise (TypeError "expected str, bytes or os.PathLike object")
  end.





(** ** Template resolver *)

(** [Dataset._convert_version_format] *)
Definition _convert_version_format (version : string) : string :=
  let version := pystr.replace version "." "_" in
  if negb (pystr.contains "_" version) then version +:+ "_0_0" else version.

(** The spec's wording of the same function: every dot becomes an
    underscore, character by character. *)
Definition dot_to_underscore (c : ascii) : ascii :=
  if decide (c = "."%char) then "_"%char else c.

(** ** A small dataset for the examples *)

Module example.

Definition subjects : pd.DataFrame :=
  pd.mkDF ["subject id"; "age"]
    [(0%Z, {[ "subject id" := PStr "sub-1"; "age" := PStr "30" ]})].

Definition description : pd.DataFrame :=
  pd.mkDF ["Metadata element"; "Value"]
    [(0%Z, {[ "Metadata element" := PStr "Number of subjects" ]});
     (1%Z, {[ "Metadata element" := PStr "Number of samples" ]});
     (2%Z, {[ "Metadata element" := PStr "    x" ]});
     (3%Z, {[ "Metadata element" := PStr "    y" ]})].

(** /ds is the dataset, with the primary tree sub-1: sam-1, sam-2 and
    sub-2: sam-1; /in is a source folder that lists a file, then a
    folder, then a file. *)
Definition tree : fs.node :=
  fs.Dir
    [("ds", fs.Dir
        [("manifest.xlsx", fs.File (fs.Sheet manifest_columns []));
         ("dataset_description.xlsx", fs.File (fs.Blob ""));
         ("primary", fs.Dir
            [("sub-1", fs.Dir [("sam-1", fs.Dir [("f.dat", fs.File (fs.Blob "f"))]);
                               ("sam-2", fs.Dir [])]);
             ("sub-2", fs.Dir [("sam-1", fs.Dir [])])])]);
     ("in", fs.Dir
        [("a.TXT", fs.File (fs.Blob "aaa"));
         ("nested", fs.Dir []);
         ("b.csv", fs.File (fs.Blob "bbb"))])].

Definition state : State :=
  mkState "2_0_0" "/ds"
    {[ "manifest" := Tabular "/ds/manifest.xlsx" 0;
       "subjects" := Tabular "/ds/subjects.xlsx" 1;
       "dataset_description" := Tabular "/ds/dataset_description.xlsx" 2 ]}
    {[ "manifest" := mkMetadata "manifest" 0 "/ds";
       "subjects" := mkMetadata "subjects" 1 "/ds";
       "dataset_description" := mkMetadata "dataset_description" 2 "/ds" ]}
    ∅ (Some "subject id") (Some "sample id")
    {[ 0 := pd.empty manifest_columns; 1 := subjects; 2 := description ]}
    tree (fun n => "2024-01-01 00:00:0" +:+ pretty n) 0 [].


(** /data is a dataset with one file, primary/sub-1/sam-1/data.csv,
    and a manifest that records it. *)
Definition data_record : gmap string pyval :=
  {[ "filename" := PStr "primary/sub-1/sam-1/data.csv";
     "timestamp" := PStr "2024-01-01 00:00:00";
     "description" := PStr "File of subject sub-1 sample sam-1";
     "file type" := PStr "csv" ]}.

Definition data_tree : fs.node :=
  fs.Dir
    [("data", fs.Dir
        [("manifest.xlsx", fs.File (fs.Sheet manifest_columns [data_record]));
         ("primary", fs.Dir
            [("sub-1", fs.Dir
                [("sam-1", fs.Dir [("data.csv", fs.File (fs.Blob "1,2"))])])])])].

Definition data_state : State :=
  mkState "2_0_0" "/data"
    {[ "manifest" := Tabular "/data/manifest.xlsx" 0 ]}
    {[ "manifest" := mkMetadata "manifest" 0 "/data" ]}
    ∅ (Some "subject id") (Some "sample id")
    {[ 0 := pd.mkDF manifest_columns [(0%Z, data_record)] ]}
    data_tree (fun n => "2024-01-02 00:00:0" +:+ pretty n) 0 [].

(** /c is a dataset whose manifest is a delimited text file. *)
Definition csv_tree : fs.node :=
  fs.Dir
    [("c", fs.Dir
        [("manifest.csv", fs.File (fs.Sheet manifest_columns []));
         ("primary", fs.Dir [])])].

Definition csv_state : State :=
  mkState "2_0_0" "/c"
    {[ "manifest" := Tabular "/c/manifest.csv" 0 ]}
    {[ "manifest" := mkMetadata "manifest" 0 "/c" ]}
    ∅ (Some "subject id") (Some "sample id")
    {[ 0 := pd.empty manifest_columns ]}
    csv_tree (fun n => "2024-01-03 00:00:0" +:+ pretty n) 0 [].

(** /j is a dataset whose manifest is a JSON file, with the row of one
    file. *)
Definition json_record : gmap string pyval :=
  {[ "filename" := PStr "primary/readme.txt";
     "timestamp" := PStr "2023-12-31 00:00:00";
     "description" := PStr "notes";
     "file type" := PStr "txt" ]}.

Definition json_tree : fs.node :=
  fs.Dir
    [("j", fs.Dir
        [("manifest.json", fs.File (fs.Sheet manifest_columns [json_record]));
         ("primary", fs.Dir
            [("readme.txt", fs.File (fs.Blob "r"));
             ("a.txt", fs.File (fs.Blob "a"))])])].

Definition json_state : State :=
  mkState "2_0_0" "/j"
    {[ "manifest" := Tabular "/j/manifest.json" 0 ]}
    {[ "manifest" := mkMetadata "manifest" 0 "/j" ]}
    ∅ (Some "subject id") (Some "sample id")
    {[ 0 := pd.mkDF manifest_columns [(0%Z, json_record)] ]}
    json_tree (fun n => "2024-01-04 00:00:0" +:+ pretty n) 0 [].

(** A validator that lets the known document names through. *)
Definition validate (name version : string) : exn + string :=
  if decide (name ∈ ["dataset_description"; "code_description"; "code_parameters";
                     "manifest"; "performances"; "resources"; "samples"; "subjects";
                     "submission"])
  then inr name else inl (ValueError "unknown metadata file").

End example.

(** A decidable proposition settled by evaluation. *)
Ltac by_compute :=
  lazymatch goal with
  | |- ?P => apply (@bool_decide_unpack P _); vm_compute; exact I
  end.

(** ** The manifest upsert *)

(** A row of the manifest after a call that finds the file name in the
    table: the time stamp of the row of that file name is the new
    one. *)
Definition restamp (filename timestamp : string) (lr : Z * gmap string pyval)
  : Z * gmap string pyval :=
  if pd.cell_eqb (lr.2 !! "filename") (PStr filename)
  then (lr.1, <["timestamp" := PStr timestamp]> lr.2)
  else lr.

(** The file names of the rows of a table, and the invariant of the
    manifest: no two rows with one file name. *)
Definition filenames (df : pd.DataFrame) : list pyval :=
  omap (fun lr => lr.2 !! "filename") (pd.body df).
Definition unique_filenames (df : pd.DataFrame) : Prop := NoDup (filenames df).

(** What [find_manifest] finds in the tree [d]: a file of a known
    extension with its table, or nothing and the table to start from. *)
Inductive found_manifest (d : fs.node) (folder : string)
  : string -> string -> pd.DataFrame -> Prop :=
| found_file files f rest cols rows :
    fs.listdir d folder = inr files ->
    filter (fun f => pystr.contains "manifest" f = true) files = f :: rest ->
    pystr.lower (ospath.splitext (ospath.join folder f)).2 ∈ [".xlsx"; ".csv"; ".json"] ->
    fs.read d (ospath.join folder f) = inr (fs.Sheet cols rows) ->
    found_manifest d folder (ospath.join folder f)
      (pystr.lower (ospath.splitext (ospath.join folder f)).2)
      (pd.mkDF cols (pd.relabel rows))
| found_none files :
    fs.listdir d folder = inr files ->
    filter (fun f => pystr.contains "manifest" f = true) files = [] ->
    found_manifest d folder (ospath.join folder "manifest.xlsx") ".xlsx"
      (pd.empty manifest_columns).

(** The editor [m] with its [data] set to the frame at [r]. *)
Definition with_data (m : Metadata) (r : nat) : Metadata :=
  mkMetadata (metadata_file m) r (metadata_path m).

(** The state a call of the synchroniser reaches before it saves: the
    clock read, the new table at a new address, the manifest editor and
    the manifest entry on it. *)
Definition registered (s : State) (m : Metadata) (p0 : string) (df' : pd.DataFrame) : State :=
  let r := fresh (dom (heap s)) in
  with_dataset <["manifest" := Tabular p0 r]>
    (with_metadata <["manifest" := with_data m r]>
       (with_heap <[r := df']> (with_tick s))).

(** ** The counts, in the words of the spec *)

(** The immediate subdirectories of [folder] in the tree [d]. *)
Definition sub_folders (d : fs.node) (folder : string) : list string :=
  match fs.listdir d folder with
  | inr names =>
      filter (fun p => fs.isdir d p = true)
        ((fun n => ospath.joinpath (ospath.Path folder) n) <$> names)
  | inl _ => []
  end.

(** The number of subjects: the immediate subdirectories of the primary
    folder. *)
Definition count_subjects (d : fs.node) (primary_folder : string) : nat :=
  length (sub_folders d primary_folder).

(** The number of samples: the immediate subdirectories of the subject
    folders, summed. *)
Definition count_samples (d : fs.node) (primary_folder : string) : nat :=
  sum_list ((fun sub => length (sub_folders d sub)) <$> sub_folders d primary_folder).

(** A row of the description table after the recompute. *)
Definition count_row (n_sub n_sam : nat) (lr : Z * gmap string pyval)
  : Z * gmap string pyval :=
  if pd.cell_eqb (lr.2 !! "Metadata element") (PStr "Number of subjects")
  then (lr.1, <["Value" := PInt (Z.of_nat n_sub)]> lr.2)
  else if pd.cell_eqb (lr.2 !! "Metadata element") (PStr "Number of samples")
       then (lr.1, <["Value" := PInt (Z.of_nat n_sam)]> lr.2)
       else lr.

(** ** What a call may touch *)

(** The frame object of the manifest editor, and the file of its
    document. *)
Definition manifest_frame (s : State) : option nat :=
  data <$> _metadata s !! "manifest".
Definition manifest_document (s : State) : option string :=
  (fun m => ospath.Path (editor.file_path m)) <$> _metadata s !! "manifest".

(** [s'] differs from [s] in the file tree and in the manifest at most:
    the fields of the dataset object are the same, every frame object
    but the manifest editor's is the same, and the only table file
    written since is the manifest's document. *)
Record manifest_only (s s' : State) : Prop := {
  mo_version : _version s' = _version s;
  mo_dataset_path : _dataset_path s' = _dataset_path s;
  mo_dataset : _dataset s' = _dataset s;
  mo_metadata : _metadata s' = _metadata s;
  mo_subjects : _subjects s' = _subjects s;
  mo_subject_id_field : _subject_id_field s' = _subject_id_field s;
  mo_sample_id_field : _sample_id_field s' = _sample_id_field s;
  mo_heap : forall a, manifest_frame s ≠ Some a -> heap s' !! a = heap s !! a;
  mo_trace : exists evs,
      trace s' = trace s ++ evs
      /\ Forall (fun e => exists doc, manifest_document s = Some doc /\ e = Wrote doc) evs
}.

(** [s'] has the directories of [s]: a path is a directory in the one
    tree when it is one in the other. *)
Definition same_dirs (s s' : State) : Prop :=
  forall q, fs.is_dir_node (fs.lookup q (disk s')) = fs.is_dir_node (fs.lookup q (disk s)).

(** [s'] differs from [s] in the file tree at most. *)
Definition disk_only (s s' : State) : Prop := s' = with_disk (disk s') s.

(** [s'] has the events of [s] and after them writes of table files
    only: nothing was printed in between. *)
Definition wrote_only (s s' : State) : Prop :=
  exists evs, trace s' = trace s ++ evs /\ Forall (fun e => exists p, e = Wrote p) evs.

(** A call that, run from [s], ends in a state that [R] relates to [s],
    however it ends. *)
Definition keeps (R : State -> State -> Prop) {A} (m : M A) (s : State) : Prop :=
  R s (state_of (m s)).

(** Calls that leave the state as it is. *)
Definition reads {A} (m : M A) : Prop :=
  forall s, (exists a, m s = Ret a s) \/ (exists e, m s = Raise e s).

(** ** More methods of [Dataset] *)

Definition with_version (version : string) (s : State) : State :=
  mkState version (_dataset_path s) (_dataset s) (_metadata s) (_subjects s)
    (_subject_id_field s) (_sample_id_field s) (heap s) (disk s) (clock s) (ticks s) (trace s).

Definition with_id_fields (subject_id_field sample_id_field : option string) (s : State)
  : State :=
  mkState (_version s) (_dataset_path s) (_dataset s) (_metadata s) (_subjects s)
    subject_id_field sample_id_field (heap s) (disk s) (clock s) (ticks s) (trace s).

(** [Dataset._set_version_specific_variables] *)
Definition _set_version_specific_variables (version : string) : M unit :=
  if decide (version = "2_0_0") then
    modify (with_id_fields (Some "subject id") (Some "sample id"))
  else if decide (version = "1_2_3") then
    modify (with_id_fields (Some "subject_id") (Some "sample_id"))
  else raise (ValueError ("Unsupported version " +:+ version)).

(** [Dataset.set_version] *)
Definition set_version (version : string) : M unit :=
  let version := _convert_version_format version in
  modify (with_version version) ;;;
  _set_version_specific_variables version.

(** [self._metadata_extensions], which no method changes. *)
Definition metadata_extensions : list string := [".xlsx"].

(** What [_load] keeps of a spreadsheet:
    [metadata.dropna(how="all")] and then
    [metadata.loc[:, ~metadata.columns.str.contains('^Unnamed')]]. *)
Definition cleaned (metadata : pd.DataFrame) : pd.DataFrame :=
  pd.select_columns (fun c => negb (pystr.startswith "Unnamed" c)) (pd.dropna_all metadata).

(** The loop of [_load] over the entries of the directory, [dataset]
    being the dict built so far. *)
Fixpoint load_entries (dir_path : string) (names : list string)
    (dataset : gmap string Entry) : M (gmap string Entry) :=
  match names with
  | [] => ret dataset
  | n :: rest =>
      let path := ospath.joinpath dir_path n in
      if decide (ospath.suffix path ∈ metadata_extensions) then
        metadata <- read_excel path ;;
        r <- alloc (cleaned metadata) ;;
        load_entries dir_path rest (<[ospath.stem path := Tabular path r]> dataset)
      else
        load_entries dir_path rest (<[ospath.name path := Opaque path]> dataset)
  end.

(** [Dataset._load] *)
Definition _load (dir_path : string) : M (gmap string Entry) :=
  let dir_path := ospath.Path dir_path in
  names <- os_listdir dir_path ;;
  load_entries dir_path names ∅.

(** [Dataset.load_metadata] *)
Definition load_metadata (path : string) : M nat :=
  let path := ospath.Path path in
  metadata <- read_excel path ;;
  r <- alloc metadata ;;
  modify (with_dataset <[ospath.stem path := Tabular path r]>) ;;;
  ret r.

(** [Dataset._filter] *)
Definition _filter (metadata : pd.DataFrame) (filename : string) : exn + pd.DataFrame :=
  if pystr.contains "dataset_description" filename
  then pd.dropna_subset metadata "Value"
  else inr metadata.

(** [Dataset.set_field_using_row_name] *)
Definition set_field_using_row_name (metadata_file : string) (row_name : pyval)
    (header : string) (value : pyval) : M unit :=
  require_loaded ;;;
  metadata <- entry_metadata metadata_file ;;
  match row_name with
  | PStr row_name =>
      df <- deref metadata ;;
      match pd.columns df with
      | [] => raise IndexError
      | unique_column :: _ =>
          mask <- lift (pd.eq_mask df unique_column (PStr row_name)) ;;
          match pd.index_where df mask with
          | [] =>
              raise (ValueError ("No row with given unique name, " +:+ row_name
                       +:+ ", was found in the unique column " +:+ unique_column))
          | [matching_index] =>
              let excel_row_index := (matching_index + 2)%Z in
              set_field metadata_file (PInt excel_row_index) header value
          | _ :: _ :: _ =>
              raise (ValueError ("More than one row with given unique name, " +:+ row_name
                       +:+ ", was found in the unique column " +:+ unique_column))
          end
      end
  | _ => raise (ValueError "row_name should be string.")
  end.

(** [self._column_based], which no method changes. *)
Definition column_based : list string := ["dataset_description"; "code_description"].

(** [Dataset.add_element] *)
Definition add_element (metadata_file element : string) : M unit :=
  metadata <- entry_metadata metadata_file ;;
  if decide (metadata_file ∈ column_based) then
    df <- deref metadata ;;
    metadata <- alloc (pd.concat_row df [("Metadata element", PStr element)]) ;;
    set_entry_metadata metadata_file metadata
  else
    df <- deref metadata ;;
    store metadata (pd.set_column_none df element) ;;;
    set_entry_metadata metadata_file metadata.

(** [Dataset.delete_subjects] *)
Definition delete_subjects (destination_paths : pyval) (data_type : string) : M unit :=
  match destination_paths with
  | PList l => for_each l (fun sub_folder => delete_subject sub_folder data_type)
  | _ =>
      raise (ValueError
               "Please provide a list, and put all your deleting sample paths in a list")
  end.

(** [Dataset.delete_samples] *)
Definition delete_samples (destination_paths : pyval) (data_type : string) : M unit :=
  match destination_paths with
  | PList l => for_each l (fun sam_folder => delete_sample sam_folder data_type)
  | _ =>
      raise (TypeError
               ("The " +:+ py.str destination_paths +:+ " type is "
                  +:+ py.type_str destination_paths
                  +:+ ". Please provide a list, and put all your deleting sample paths in a list"))
  end.

(** [Dataset.add_thumbnail] *)
Definition add_thumbnail (source_path : string) (copy overwrite : bool) : M unit :=
  let file_source_path := ospath.Path source_path in
  f <- os_isfile file_source_path ;;
  if negb f then raise (ValueError "source_path should be the thumbnail file's path")
  else
    let filename := ospath.name file_source_path in
    s <- get ;;
    let destination_path :=
      ospath.Path (ospath.join (ospath.join (_dataset_path s) "docs") filename) in
    e <- os_exists destination_path ;;
    (if e : bool then
       if overwrite then _ <- _delete_data destination_path ;; ret tt
       else raise FileExistsError
     else ret tt) ;;;
    _move_single_file source_path destination_path filename copy ;;;
    _modify_manifest filename (_dataset_path s) (ospath.parent destination_path)
      "This is a thumbnail file".


(* ================================================================= *)
(** * Theorems *)

Section version_format.

Lemma replace_char_map (a b : ascii) (s : string) :
  pystr.replace s (String a EmptyString) (String b EmptyString)
  = pystr.map_chars (fun c => if decide (c = a) then b else c) s.
Proof.
  unfold pystr.replace.
  induction s as [|c s IH]; simpl; [done|].
  destruct (decide (a = c)) as [->|Hne].
  - rewrite decide_True by done. simpl. by rewrite IH.
  - rewrite decide_False by congruence. by rewrite IH.
Qed.

Lemma contains_char (a : ascii) (s : string) :
  pystr.contains (String a EmptyString) s
  = negb (pystr.all_chars (fun c => negb (bool_decide (c = a))) s).
Proof.
  induction s as [|c s IH]; simpl; [done|].
  rewrite IH. destruct (decide (a = c)) as [->|Hne].
  - by rewrite bool_decide_eq_true_2.
  - rewrite bool_decide_eq_false_2 by congruence. done.
Qed.

Lemma contains_char_app (a : ascii) (s t : string) :
  pystr.contains (String a EmptyString) (s +:+ t)
  = pystr.contains (String a EmptyString) s || pystr.contains (String a EmptyString) t.
Proof.
  induction s as [|c s IH]; simpl.
  - by destruct t.
  - change (String c s +:+ t) with (String c (s +:+ t)).
    cbn [pystr.contains pystr.startswith]. rewrite IH.
    destruct (decide (a = c)); simpl; [done|]. done.
Qed.

Lemma no_dot_after_map (s : string) :
  pystr.contains "." (pystr.map_chars dot_to_underscore s) = false.
Proof.
  rewrite contains_char. apply negb_false_iff.
  induction s as [|c s IH]; simpl; [done|].
  rewrite IH, andb_true_r. unfold dot_to_underscore.
  destruct (decide (c = "."%char)) as [->|Hne]; [done|].
  by rewrite bool_decide_eq_false_2.
Qed.

Lemma convert_version_format_unfold (v : string) :
  _convert_version_format v
  = let m := pystr.map_chars dot_to_underscore v in
    if pystr.contains "_" m then m else m +:+ "_0_0".
Proof.
  unfold _convert_version_format.
  change "."%string with (String "."%char EmptyString).
  change "_"%string with (String "_"%char EmptyString).
  rewrite replace_char_map. simpl.
  fold dot_to_underscore.
  change (fun c : ascii => if decide (c = "."%char) then "_"%char else c)
    with dot_to_underscore.
  by destruct (pystr.contains _ _).
Qed.

(** C6. [_convert_version_format] is a function of its argument alone:
    it maps every '.' to '_' character by character and, when the
    outcome has no '_', appends "_0_0". The outcome never holds a '.',
    always holds a '_', and "2.0.0", "2_0_0" and "2" all normalise to
    "2_0_0". *)
Theorem convert_version_format_spec :
  (forall v : string,
      let m := pystr.map_chars dot_to_underscore v in
      _convert_version_format v
      = (if pystr.contains "_" m then m else m +:+ "_0_0")
      /\ String.length m = String.length v
      /\ pystr.contains "." (_convert_version_format v) = false
      /\ pystr.contains "_" (_convert_version_format v) = true)
  /\ _convert_version_format "2.0.0" = "2_0_0"
  /\ _convert_version_format "2_0_0" = "2_0_0"
  /\ _convert_version_format "2" = "2_0_0".
Proof.
  split; [|by vm_compute].
  intros v m. rewrite convert_version_format_unfold. fold m. simpl.
  split; [done|]. split.
  { subst m. induction v as [|c v IH]; simpl; [done|]. by rewrite IH. }
  pose proof (no_dot_after_map v) as Hdot. fold m in Hdot.
  change "."%string with (String "."%char EmptyString) in *.
  change "_"%string with (String "_"%char EmptyString) in *.
  destruct (pystr.contains (String "_"%char EmptyString) m) eqn:Hu.
  - by rewrite Hdot, Hu.
  - rewrite !contains_char_app, Hdot, Hu. by vm_compute.
Qed.

End version_format.

(** ** The subject index *)

Section subject_index.

(** C8. For a textual id [get_subject] never raises: it returns what
    [dict.get] finds in the index, which is [None] when the id is not
    there; only an id that is not a string is refused. *)
Theorem get_subject_returns_lookup :
  (forall (s : State) (id : string),
      get_subject (PStr id) s = Ret (_subjects s !! id) s)
  /\ get_subject (PStr "sub-9") example.state = Ret None example.state
  /\ (forall (s : State) (z : Z), exists msg,
         get_subject (PInt z) s = Raise (ValueError msg) s).
Proof.
  split; [done|]. split; [done|].
  intros s z. eexists. reflexivity.
Qed.

End subject_index.

(** ** The row index of [set_field] *)

Section row_index.

(** C3. On a subjects table with the one row labelled 0,
    [set_field] with [row_index = 1] does not raise: the frame grows by
    a row labelled -1 that holds the value. With [row_index = 2] the
    row labelled 0 is changed, and a [row_index] that is not an [int]
    is refused. *)
Theorem set_field_row_index_1_enlarges :
  (exists s',
      set_field "subjects" (PInt 1) "age" (PStr "v") example.state = Ret tt s'
      /\ heap s' !! 1
         = Some (pd.mkDF ["subject id"; "age"]
                   [(0%Z, {[ "subject id" := PStr "sub-1"; "age" := PStr "30" ]});
                    ((-1)%Z, {[ "age" := PStr "v" ]})]))
  /\ (exists s',
      set_field "subjects" (PInt 2) "age" (PStr "v") example.state = Ret tt s'
      /\ heap s' !! 1
         = Some (pd.mkDF ["subject id"; "age"]
                   [(0%Z, {[ "subject id" := PStr "sub-1"; "age" := PStr "v" ]})]))
  /\ set_field "subjects" (PStr "2") "age" (PStr "v") example.state
     = Raise (ValueError "row_index should be 'int'.") example.state.
Proof.
  split; [|split].
  - eexists. split; [vm_compute; reflexivity|]. by vm_compute.
  - eexists. split; [vm_compute; reflexivity|]. by vm_compute.
  - by vm_compute.
Qed.

End row_index.

(** ** [update_by_json] *)

Section json_update.

(** C9. The first key of a nested dict hands its list to the cell
    assignment as it is, not as text: the inner test looks at the outer
    value. On the example table the document {"a": {"x": [1, 2]}} ends
    in the [ValueError] of the cell assignment and the "Value" cell of
    the row "    x" stays empty. After a list, the next sibling's value
    is turned into text, whatever it is. A list at the top level is
    stored as its text. *)
Theorem update_by_json_nested_list_not_text :
  (forall (d : list (string * pyval)) (key_1 : string) (l : list pyval),
      nested_assignment (PDict d) key_1 (PList l) = ("    " +:+ key_1, PList l))
  /\ nested_assignment (PList [PInt 1; PInt 2]) "y" (PInt 5) = ("    y", PStr "5")
  /\ (exists s',
        update_by_json "dataset_description"
          (PDict [("a", PDict [("x", PList [PInt 1; PInt 2])])]) example.state
        = Raise (ValueError pd.setitem_iterable_msg) s'
        /\ (df ← heap s' !! 2; pd.cell df 2 "Value") = Some None)
  /\ (exists s',
        update_by_json "dataset_description"
          (PDict [("    x", PList [PInt 1; PInt 2])]) example.state
        = Ret 2 s'
        /\ (df ← heap s' !! 2; pd.cell df 2 "Value") = Some (Some (PStr "[1, 2]"))).
Proof.
  split; [done|]. split; [done|]. split.
  - eexists. split; [vm_compute; reflexivity|]. by vm_compute.
  - eexists. split; [vm_compute; reflexivity|]. by vm_compute.
Qed.

End json_update.

(** ** Running the methods *)

Section monad_facts.
Lemma bind_Ret {A B} (m : M A) (k : A -> M B) s a s' :
  m s = Ret a s' -> bind m k s = k a s'.
Proof. unfold bind. by intros ->. Qed.

Lemma bind_Raise {A B} (m : M A) (k : A -> M B) s e s' :
  m s = Raise e s' -> bind m k s = Raise e s'.
Proof. unfold bind. by intros ->. Qed.

Lemma require_loaded_ok s : _dataset s ≠ ∅ -> require_loaded s = Ret tt s.
Proof.
  intros H. unfold require_loaded, bind, get.
  by rewrite decide_False.
Qed.


Lemma deref_ok s r df : heap s !! r = Some df -> deref r s = Ret df s.
Proof. unfold deref. by intros ->. Qed.

Lemma the_editor_ok s n m : _metadata s !! n = Some m -> the_editor n s = Ret m s.
Proof. unfold the_editor, bind, get. by intros ->. Qed.

Lemma set_entry_metadata_ok s f p r0 r :
  _dataset s !! f = Some (Tabular p r0) ->
  set_entry_metadata f r s = Ret tt (with_dataset <[f := Tabular p r]> s).
Proof. unfold set_entry_metadata, bind, get. by intros ->. Qed.

Lemma set_editor_data_ok s n m r :
  _metadata s !! n = Some m ->
  set_editor_data n r s
  = Ret tt (with_metadata <[n := mkMetadata (metadata_file m) r (metadata_path m)]> s).
Proof. unfold set_editor_data, modify, with_metadata. by intros ->. Qed.

Lemma with_heap_twice s f g :
  with_heap f (with_heap g s) = with_heap (f ∘ g) s.
Proof. done. Qed.

(** A call that returns, returns in the state it ends in. *)
Lemma returns_state_of (o : outcome unit) :
  match o with Ret _ _ => true | Raise _ _ => false end = true -> o = Ret tt (state_of o).
Proof. by destruct o as [[] s|e s]. Qed.

Lemma bind_unit_Ret (m k : M unit) s s' :
  (m ;;; k) s = Ret tt s' -> exists s1, m s = Ret tt s1 /\ k s1 = Ret tt s'.
Proof.
  unfold bind. destruct (m s) as [[] s1|]; [|done]. intros H. by exists s1.
Qed.
End monad_facts.

(** ** Frames *)

Section frames.
Implicit Types (df : pd.DataFrame) (row : list (string * pyval)) (r : gmap string pyval).

Lemma index_assign_in df label c v :
  label ∈ pd.index df -> pd.index (pd.assign df label c v) = pd.index df.
Proof.
  intros H. unfold pd.assign, pd.index. simpl. rewrite decide_True by done.
  rewrite <- list_fmap_compose. apply list_fmap_ext.
  intros _ [l r] _. simpl. by destruct (decide _).
Qed.



End frames.

Section frames2.
Implicit Types (df : pd.DataFrame).

Lemma index_where_mask df (P : Z * gmap string pyval -> bool) :
  pd.index_where df (P <$> pd.body df) = (filter (fun lr => P lr = true) (pd.body df)).*1.
Proof.
  unfold pd.index_where, pd.index. induction (pd.body df) as [|[l r] b IH]; [done|].
  cbn [fmap list_fmap zip zip_with]. rewrite !filter_cons. simpl.
  destruct (decide (P (l, r) = true)) as [H|H]; [|exact IH].
  rewrite !fmap_cons. by f_equal.
Qed.

End frames2.

(** ** [append] *)

Section append_spec.
Variable validate : string -> string -> exn + string.
Variables (s : State) (f f' p : string) (m : Metadata) (df : pd.DataFrame) (r0 : nat).
Hypothesis Hf : _dataset s !! f = Some (Tabular p r0).
Hypothesis Hval : validate f (_version s) = inr f'.
Hypothesis Hed : _metadata s !! f' = Some m.
Hypothesis Hdf : heap s !! data m = Some df.

Lemma loaded_of_entry : _dataset s ≠ ∅.
Proof using Hf. intros H. by rewrite H in Hf. Qed.

Lemma get_metadata_ok : get_metadata validate f s = Ret (f', m) s.
Proof using Hf Hval Hed.
  unfold get_metadata. rewrite (bind_Ret _ _ _ _ _ (require_loaded_ok _ loaded_of_entry)).
  unfold bind, get, lift, the_editor. rewrite Hval. simpl. unfold bind, get. by rewrite Hed.
Qed.

Lemma append_prefix row ce uc :
  append validate f row ce uc s
  = bind (if ce then
       match uc with
       | None =>
           raise (ValueError "Provide which column in metadata_file is unique. Ex: subject_id")
       | Some unique_column =>
           reraise_ValueError
             (match py.dict_get row unique_column with
              | None => raise (KeyError unique_column)
              | Some unique_value =>
                  df <- deref (data m) ;;
                  lift (utils.check_row_exist df unique_column unique_value)
              end)
             "Row values provided does not contain a unique identifier"
       end
     else ret (-1)%Z) (fun row_index =>
  (if decide (row_index = (-1)%Z) then
     df <- deref (data m) ;;
     r <- alloc (pd.concat_row df row) ;;
     set_editor_data f' r
   else
     for_each row (fun kv => loc_assign (data m) row_index kv.1 kv.2)) ;;;
  m <- the_editor f' ;;
  set_entry_metadata f (data m)) s.
Proof using Hf Hval Hed.
  unfold append. rewrite (bind_Ret _ _ _ _ _ (require_loaded_ok _ loaded_of_entry)).
  rewrite (bind_Ret _ _ _ _ _ get_metadata_ok). done.
Qed.


Lemma append_new_run row :
  let r := fresh (dom (heap s)) in
  ((if decide ((-1)%Z = (-1)%Z) then
     df <- deref (data m) ;;
     r <- alloc (pd.concat_row df row) ;;
     set_editor_data f' r
   else
     for_each row (fun kv => loc_assign (data m) (-1)%Z kv.1 kv.2)) ;;;
  m <- the_editor f' ;;
  set_entry_metadata f (data m)) s
  = Ret tt (with_dataset <[f := Tabular p r]>
              (with_metadata <[f' := mkMetadata (metadata_file m) r (metadata_path m)]>
                 (with_heap <[r := pd.concat_row df row]> s))).
Proof using Hf Hed Hdf.
  intros r. rewrite decide_True by done.
  erewrite bind_Ret.
  2: { rewrite (bind_Ret _ _ _ _ _ (deref_ok _ _ _ Hdf)).
       unfold bind at 1. unfold alloc at 1. apply set_editor_data_ok. exact Hed. }
  erewrite bind_Ret; [|apply the_editor_ok; simpl; apply lookup_insert_eq].
  erewrite set_entry_metadata_ok; [done|exact Hf].
Qed.
End append_spec.

Section concat_facts.
Lemma relabel_snd (rows : list (gmap string pyval)) : (pd.relabel rows).*2 = rows.
Proof.
  apply list_eq. intros i. unfold pd.relabel.
  rewrite list_lookup_fmap, list_lookup_imap. by destruct (rows !! i).
Qed.


Lemma elem_of_foldl_add_column (c : string) (ks cols : list string) :
  c ∈ foldl (fun cols k => pd.add_column k cols) cols ks <-> c ∈ cols \/ c ∈ ks.
Proof.
  revert cols. induction ks as [|k ks IH]; intros cols; simpl.
  - rewrite elem_of_nil. tauto.
  - rewrite IH. unfold pd.add_column. destruct (decide (k ∈ cols)) as [Hk|Hk].
    + rewrite elem_of_cons. split; [tauto|]. intros [?|[->|?]]; tauto.
    + rewrite elem_of_app, list_elem_of_singleton, elem_of_cons. tauto.
Qed.

End concat_facts.

Section append_theorem.

Lemma filter_none {A} (P : A -> Prop) `{forall x, Decision (P x)} (l : list A) :
  Forall (fun x => ¬ P x) l -> filter P l = [].
Proof.
  induction 1 as [|x l Hx _ IH]; [done|].
  rewrite filter_cons, decide_False by done. exact IH.
Qed.

End append_theorem.



(** ** Relations that calls keep *)

Section keeping.
Context {R : State -> State -> Prop} `{!PreOrder R}.

Lemma keeps_ret {A} (a : A) s : keeps R (ret a) s.
Proof. unfold keeps. simpl. reflexivity. Qed.

Lemma keeps_raise {A} e s : keeps R (@raise A e) s.
Proof. unfold keeps. simpl. reflexivity. Qed.

Lemma keeps_bind {A B} (m : M A) (k : A -> M B) s :
  keeps R m s ->
  (forall a s1, m s = Ret a s1 -> keeps R (k a) s1) ->
  keeps R (bind m k) s.
Proof.
  unfold keeps, bind. intros Hm Hk. destruct (m s) as [a s1|e s1] eqn:E; [|done].
  etrans; [exact Hm|]. by apply Hk.
Qed.


Lemma keeps_for_each {X} (xs : list X) (body : X -> M unit) :
  (forall x s, keeps R (body x) s) -> forall s, keeps R (for_each xs body) s.
Proof.
  intros Hb. induction xs as [|x xs IH]; intros s.
  - apply keeps_ret.
  - cbn [for_each]. apply keeps_bind; [apply Hb|]. intros _ s1 _. apply IH.
Qed.

Lemma keeps_bind_reads {A B} (m : M A) (k : A -> M B) s :
  reads m ->
  (forall a, m s = Ret a s -> keeps R (k a) s) ->
  keeps R (bind m k) s.
Proof.
  intros Hr Hk. unfold keeps, bind.
  destruct (Hr s) as [[a E]|[e E]]; rewrite E.
  - by apply Hk.
  - simpl. reflexivity.
Qed.

End keeping.

(** ** The frame of the deletions *)

Section frame.

Lemma manifest_only_refl s : manifest_only s s.
Proof.
  split; try done. exists []. by rewrite app_nil_r.
Qed.

Lemma manifest_only_trans s1 s2 s3 :
  manifest_only s1 s2 -> manifest_only s2 s3 -> manifest_only s1 s3.
Proof.
  intros [Hv1 Hp1 Hd1 Hm1 Hs1 Hi1 Hj1 Hh1 (e1 & E1 & Ht1)]
         [Hv2 Hp2 Hd2 Hm2 Hs2 Hi2 Hj2 Hh2 (e2 & E2 & Ht2)].
  assert (manifest_frame s2 = manifest_frame s1) as Hf
    by (unfold manifest_frame; congruence).
  assert (manifest_document s2 = manifest_document s1) as Hd
    by (unfold manifest_document; congruence).
  split; try congruence.
  - intros a Ha. rewrite Hh2 by (by rewrite Hf). by apply Hh1.
  - exists (e1 ++ e2). split; [by rewrite E2, E1, app_assoc|].
    apply Forall_app. split; [done|]. by rewrite <- Hd.
Qed.

Global Instance manifest_only_preorder : PreOrder manifest_only.
Proof. split; [exact manifest_only_refl|exact manifest_only_trans]. Qed.

Lemma keeps_on_disk_frame f s : keeps manifest_only (on_disk f) s.
Proof.
  unfold keeps, on_disk. destruct (f (disk s)); simpl.
  - apply manifest_only_refl.
  - split; try done. exists []. by rewrite app_nil_r.
Qed.

Lemma reads_get : reads get.
Proof. intros s. left. by eexists. Qed.
Lemma reads_os_exists p : reads (os_exists p).
Proof. intros s. left. by eexists. Qed.
Lemma reads_os_isdir p : reads (os_isdir p).
Proof. intros s. left. by eexists. Qed.
Lemma reads_os_isfile p : reads (os_isfile p).
Proof. intros s. left. by eexists. Qed.
Lemma reads_lift {A} (r : exn + A) : reads (lift r).
Proof. intros s. destruct r; [right|left]; by eexists. Qed.
Lemma reads_os_listdir p : reads (os_listdir p).
Proof. intros s. unfold os_listdir. apply reads_lift. Qed.
Lemma reads_deref r : reads (deref r).
Proof. intros s. unfold deref. destruct (heap s !! r); [left|right]; by eexists. Qed.
Lemma reads_the_editor n : reads (the_editor n).
Proof.
  intros s. unfold the_editor, bind, get.
  destruct (_metadata s !! n); [left|right]; by eexists.
Qed.

Lemma the_editor_Ret n s m s' :
  the_editor n s = Ret m s' -> _metadata s !! n = Some m.
Proof. unfold the_editor, bind, get. destruct (_metadata s !! n); by inversion 1. Qed.

Lemma keeps_frame__delete_data p s : keeps manifest_only (_delete_data p) s.
Proof.
  unfold _delete_data. apply keeps_bind_reads; [apply reads_os_exists|].
  intros e _. destruct e; [|apply keeps_ret].
  apply keeps_bind_reads; [apply reads_os_isfile|].
  intros isf _. destruct isf.
  - apply keeps_bind; [apply keeps_on_disk_frame|]. intros. apply keeps_ret.
  - apply keeps_bind; [apply keeps_on_disk_frame|]. intros. apply keeps_ret.
Qed.

Lemma keeps_frame_store_manifest m df s :
  _metadata s !! "manifest" = Some m -> keeps manifest_only (store (data m) df) s.
Proof.
  intros Hm. unfold keeps, store, modify. simpl.
  split; try done.
  - intros a Ha. simpl. apply lookup_insert_ne. intros <-. apply Ha.
    unfold manifest_frame. by rewrite Hm.
  - exists []. by rewrite app_nil_r.
Qed.

Lemma keeps_frame_remove_row m key s :
  _metadata s !! "manifest" = Some m -> keeps manifest_only (editor.remove_row m key) s.
Proof.
  intros Hm. unfold editor.remove_row.
  apply keeps_bind_reads; [apply reads_get|].
  intros s0 _. destruct (editor.key_column _ _); [|apply keeps_ret].
  apply keeps_bind_reads; [apply reads_deref|]. intros df _.
  apply keeps_bind_reads; [apply reads_lift|]. intros mask _.
  by apply keeps_frame_store_manifest.
Qed.

Lemma keeps_frame_save m s :
  _metadata s !! "manifest" = Some m -> keeps manifest_only (editor.save m) s.
Proof.
  intros Hm. unfold editor.save.
  apply keeps_bind_reads; [apply reads_deref|]. intros df _.
  unfold to_excel. apply keeps_bind; [apply keeps_on_disk_frame|].
  intros [] s1 Hw.
  assert (_metadata s1 = _metadata s) as Hms.
  { unfold on_disk in Hw. destruct (fs.write _ _ _); by inversion Hw. }
  unfold keeps, modify. simpl. split; try done.
  exists [Wrote (ospath.Path (editor.file_path m))]. split; [done|].
  apply Forall_singleton. eexists. split; [|done].
  unfold manifest_document. by rewrite Hms, Hm.
Qed.

Lemma keeps_frame_delete_data p s : keeps manifest_only (delete_data p) s.
Proof.
  unfold delete_data. apply keeps_bind_reads; [apply reads_os_exists|].
  intros e _. destruct e; cbn [negb]; [|apply keeps_raise].
  apply keeps_bind; [apply keeps_frame__delete_data|].
  intros flag s2 _. destruct flag; [|apply keeps_ret].
  apply keeps_bind_reads; [apply reads_get|]. intros s0 _.
  apply keeps_bind_reads; [apply reads_the_editor|].
  intros m Hm%the_editor_Ret.
  apply keeps_bind; [by apply keeps_frame_remove_row|].
  intros [] s3 Hr. apply keeps_frame_save.
  pose proof (keeps_frame_remove_row m (deleted_filename (_dataset_path s0) p) s2 Hm) as Hk.
  unfold keeps in Hk. rewrite Hr in Hk. simpl in Hk.
  by rewrite (mo_metadata _ _ Hk).
Qed.

Lemma keeps_frame_delete_sample dest data_type s :
  data_type ≠ "primary" -> keeps manifest_only (delete_sample dest data_type) s.
Proof.
  intros Hdt. unfold delete_sample.
  destruct dest; try apply keeps_raise.
  apply keeps_bind_reads; [apply reads_os_exists|].
  intros e _. destruct e; cbn [negb]; [|apply keeps_raise].
  apply keeps_bind_reads; [apply reads_os_isdir|].
  intros d _. destruct d; cbn [negb]; [|apply keeps_raise].
  apply keeps_bind_reads; [apply reads_get|]. intros st _.
  apply keeps_bind_reads; [apply reads_os_listdir|]. intros items _.
  apply keeps_bind.
  { apply keeps_for_each. intros. apply keeps_frame_delete_data. }
  intros _ s5 _.
  apply keeps_bind; [apply keeps_on_disk_frame|].
  intros _ s6 _. rewrite decide_False by done. apply keeps_ret.
Qed.

Lemma keeps_frame_delete_subject dest data_type s :
  data_type ≠ "primary" -> keeps manifest_only (delete_subject dest data_type) s.
Proof.
  intros Hdt. unfold delete_subject.
  destruct dest; try apply keeps_raise.
  apply keeps_bind_reads; [apply reads_os_exists|].
  intros e _. destruct e; cbn [negb]; [|apply keeps_raise].
  apply keeps_bind_reads; [apply reads_os_isdir|].
  intros d _. destruct d; cbn [negb]; [|apply keeps_raise].
  apply keeps_bind_reads; [apply reads_get|]. intros st _.
  apply keeps_bind_reads; [apply reads_os_listdir|]. intros items _.
  apply keeps_bind.
  { apply keeps_for_each. intros item s5.
    apply keeps_bind_reads; [apply reads_os_isdir|].
    intros d _. destruct d; [|apply keeps_ret].
    by apply keeps_frame_delete_sample. }
  intros _ s5 _.
  apply keeps_bind; [apply keeps_on_disk_frame|].
  intros _ s6 _. rewrite decide_False by done. apply keeps_ret.
Qed.

(** C10. Whatever the outcome of [delete_sample] or [delete_subject]
    with a data type other than "primary", the state reached differs
    from the first one in the file tree and the manifest at most: the
    dataset object's fields (the registry of editors and entries
    among them) are as before, every frame object but the manifest
    editor's is as before, and the only table file written is the
    manifest's document. So the table of any other registered editor,
    the subjects, samples and dataset_description ones among them, is
    unchanged, and its document is not written by the call. *)
Theorem non_primary_delete_frame (s : State) (dest : pyval) (data_type : string)
    (Hdt : data_type ≠ "primary") :
  forall s',
    s' = state_of (delete_sample dest data_type s)
    \/ s' = state_of (delete_subject dest data_type s) ->
    manifest_only s s'
    /\ (forall name m,
           _metadata s !! name = Some m ->
           manifest_frame s ≠ Some (data m) ->
           _metadata s' !! name = Some m
           /\ _dataset s' !! name = _dataset s !! name
           /\ heap s' !! data m = heap s !! data m)
    /\ (forall name m,
           _metadata s !! name = Some m ->
           manifest_document s ≠ Some (ospath.Path (editor.file_path m)) ->
           exists evs,
             trace s' = trace s ++ evs
             /\ Wrote (ospath.Path (editor.file_path m)) ∉ evs).
Proof.
  intros s' Hs'.
  assert (manifest_only s s') as Hmo.
  { destruct Hs' as [-> | ->].
    - by apply keeps_frame_delete_sample.
    - by apply keeps_frame_delete_subject. }
  split; [exact Hmo|]. split.
  - intros name m Hm Hne. rewrite (mo_metadata _ _ Hmo), (mo_dataset _ _ Hmo).
    split; [done|]. split; [done|]. by apply (mo_heap _ _ Hmo).
  - intros name m Hm Hne. destruct (mo_trace _ _ Hmo) as (evs & Hevs & Hall).
    exists evs. split; [done|]. intros Hin.
    rewrite Forall_forall in Hall. destruct (Hall _ Hin) as (doc & Hdoc & [= Heq]).
    apply Hne. by rewrite Hdoc, Heq.
Qed.

End frame.

(** The theorem at the example dataset: the sample folder
    /ds/primary/sub-1/sam-1 deleted as "derivative" data. The subjects
    and dataset_description tables are the ones of before. *)
Lemma non_primary_delete_frame_witness :
  let s' := state_of (delete_sample (PStr "/ds/primary/sub-1/sam-1") "derivative"
                        example.state) in
  manifest_only example.state s'
  /\ heap s' !! 1%nat = Some example.subjects
  /\ heap s' !! 2%nat = Some example.description
  /\ fs.exists_ (disk s') "/ds/primary/sub-1/sam-1" = false.
Proof.
  intros s'.
  destruct (non_primary_delete_frame example.state (PStr "/ds/primary/sub-1/sam-1")
              "derivative" ltac:(discriminate) s' (or_introl eq_refl))
    as (Hmo & Htab & _).
  split; [exact Hmo|].
  split; [|split].
  - destruct (Htab "subjects" (mkMetadata "subjects" 1 "/ds") eq_refl ltac:(discriminate))
      as (_ & _ & H). exact H.
  - destruct (Htab "dataset_description" (mkMetadata "dataset_description" 2 "/ds")
                eq_refl ltac:(discriminate)) as (_ & _ & H). exact H.
  - vm_compute. reflexivity.
Defined.

(** ** The file tree *)

Section file_tree.
Implicit Types (es : list (string * fs.node)) (n root : fs.node) (p q : list string).

Lemma assoc_replace_entry_eq k n es : fs.assoc k (fs.replace_entry k n es) = Some n.
Proof.
  induction es as [|[k' n'] es IH]; simpl.
  - by rewrite decide_True.
  - destruct (decide (k' = k)) as [->|Hne]; simpl.
    + by rewrite decide_True.
    + by rewrite decide_False.
Qed.

Lemma assoc_replace_entry_ne k k' n es :
  k ≠ k' -> fs.assoc k' (fs.replace_entry k n es) = fs.assoc k' es.
Proof.
  intros Hne. induction es as [|[k0 n0] es IH]; simpl.
  - by rewrite decide_False.
  - destruct (decide (k0 = k)) as [->|Hne0]; simpl.
    + by rewrite !decide_False.
    + destruct (decide (k0 = k')); [done|]. exact IH.
Qed.

Lemma assoc_remove_eq k es : fs.assoc k (filter (fun e => e.1 ≠ k) es) = None.
Proof.
  induction es as [|[k' n'] es IH]; [done|].
  rewrite filter_cons. simpl. destruct (decide (k' ≠ k)) as [Hne|Heq]; simpl; [|done].
  by rewrite decide_False.
Qed.

Lemma assoc_remove_ne k k' es :
  k ≠ k' -> fs.assoc k' (filter (fun e => e.1 ≠ k) es) = fs.assoc k' es.
Proof.
  intros Hne. induction es as [|[k0 n0] es IH]; [done|].
  rewrite filter_cons. simpl. destruct (decide (k0 ≠ k)) as [Hne0|Heq]; simpl.
  - destruct (decide (k0 = k')); [done|]. exact IH.
  - apply dec_stable in Heq as ->. by rewrite decide_False.
Qed.

Lemma assoc_set_entry_eq k o es : fs.assoc k (fs.set_entry k o es) = o.
Proof. destruct o; [apply assoc_replace_entry_eq|apply assoc_remove_eq]. Qed.

Lemma assoc_set_entry_ne k k' o es :
  k ≠ k' -> fs.assoc k' (fs.set_entry k o es) = fs.assoc k' es.
Proof. destruct o; [apply assoc_replace_entry_ne|apply assoc_remove_ne]. Qed.

Lemma lookup_cons c p es :
  fs.lookup (c :: p) (fs.Dir es)
  = match fs.assoc c es with Some ch => fs.lookup p ch | None => None end.
Proof. done. Qed.

Lemma put_last c o es : fs.put [c] o (fs.Dir es) = Some (fs.Dir (fs.set_entry c o es)).
Proof. done. Qed.

Lemma put_cons c p o es :
  p ≠ [] ->
  fs.put (c :: p) o (fs.Dir es)
  = match fs.assoc c es with
    | Some ch =>
        match fs.put p o ch with
        | Some ch' => Some (fs.Dir (fs.set_entry c (Some ch') es))
        | None => None
        end
    | None => None
    end.
Proof. by destruct p. Qed.

Lemma put_file p o c : fs.put p o (fs.File c) = None.
Proof. by destruct p. Qed.

(** What was put is what is found. *)
Lemma lookup_put_eq p o root root' :
  fs.put p o root = Some root' -> fs.lookup p root' = o.
Proof.
  revert root root'. induction p as [|c p IH]; intros root root' H; [done|].
  destruct root as [|es]; [by rewrite put_file in H|].
  destruct (decide (p = [])) as [->|Hp].
  - rewrite put_last in H. apply (inj Some) in H; subst root'.
    rewrite lookup_cons, assoc_set_entry_eq. by destruct o.
  - rewrite put_cons in H by done.
    destruct (fs.assoc c es) as [ch|]; [|done].
    destruct (fs.put p o ch) as [ch'|] eqn:E; [|done].
    apply (inj Some) in H; subst root'. rewrite lookup_cons, assoc_set_entry_eq.
    by apply (IH ch).
Qed.

(** A put goes through when the folder of the path is a directory. *)
Lemma put_is_Some p o root :
  p ≠ [] -> fs.is_dir_node (fs.lookup (removelast p) root) = true ->
  is_Some (fs.put p o root).
Proof.
  revert root. induction p as [|c p IH]; intros root Hp Hd; [done|].
  destruct (decide (p = [])) as [->|Hp'].
  - simpl in Hd. destruct root as [|es]; [done|]. rewrite put_last. by eexists.
  - assert (removelast (c :: p) = c :: removelast p) as Hrl by (by destruct p).
    rewrite Hrl in Hd. destruct root as [|es]; [done|].
    rewrite lookup_cons in Hd. rewrite put_cons by done.
    destruct (fs.assoc c es) as [ch|]; [|done].
    destruct (IH ch) as [ch' ->]; [done|done|]. by eexists.
Qed.



(** A file written where none of its folders is missing is read back,
    and the write goes through. *)
Lemma write_writable root (path : string) (c : fs.content) :
  fs.writable root path = true ->
  exists root', fs.write root path c = inr root' /\ fs.read root' path = inr c.
Proof.
  unfold fs.writable, fs.write, fs.read.
  rewrite !andb_true_iff, negb_true_iff, bool_decide_eq_true.
  intros [[Hnd Hd] Hne].
  destruct (put_is_Some (ospath.resolve path) (Some (fs.File c)) root Hne Hd) as [root' Hput].
  exists root'. rewrite Hput, (lookup_put_eq _ _ _ _ Hput).
  split; [|done].
  destruct (fs.lookup (ospath.resolve path) root) as [[?|?]|]; done.
Qed.

End file_tree.

(** ** The count recompute *)

Section counts.

Lemma loc_set_mask_body df (P : Z * gmap string pyval -> bool) c v :
  pd.body (pd.loc_set_mask df (P <$> pd.body df) c v)
  = (fun lr => if P lr then (lr.1, pd.set_in_row c v lr.2) else lr) <$> pd.body df.
Proof.
  unfold pd.loc_set_mask. simpl. induction (pd.body df) as [|lr b IH]; [done|].
  cbn [fmap list_fmap zip zip_with]. simpl. f_equal. exact IH.
Qed.

Lemma cell_eqb_str (c : option pyval) (e : string) :
  pd.cell_eqb c (PStr e) = true <-> c = Some (PStr e).
Proof.
  destruct c as [[| | |t| |]|]; simpl; try (split; [done|by intros [=]]).
  rewrite bool_decide_eq_true. split; [by intros ->|by intros [= ->]].
Qed.

Lemma get_sub_folder_paths_in_folder_run folder s :
  fs.isdir (disk s) folder = true ->
  utils.get_sub_folder_paths_in_folder folder s = Ret (sub_folders (disk s) folder) s.
Proof.
  unfold fs.isdir, utils.get_sub_folder_paths_in_folder, sub_folders, os_listdir, fs.listdir.
  intros Hd. destruct (fs.lookup (ospath.resolve folder) (disk s)) as [[|es]|] eqn:E; try done.
  unfold bind, lift, ret, get. rewrite E. done.
Qed.

Lemma sub_folders_isdir d folder sub :
  sub ∈ sub_folders d folder -> fs.isdir d sub = true.
Proof.
  unfold sub_folders. destruct (fs.listdir d folder); [by intros ?%elem_of_nil|].
  by intros [? _]%list_elem_of_filter.
Qed.

Lemma collect_sample_folders_run subs : forall acc s,
  Forall (fun sub => fs.isdir (disk s) sub = true) subs ->
  collect_sample_folders subs acc s
  = Ret (acc ++ mjoin (sub_folders (disk s) <$> subs)) s.
Proof.
  induction subs as [|sub subs IH]; intros acc s Hall.
  - simpl. by rewrite app_nil_r.
  - apply Forall_cons in Hall as [Hsub Hall]. cbn [collect_sample_folders].
    unfold bind at 1. unfold os_isdir at 1. rewrite Hsub.
    rewrite (bind_Ret _ _ _ _ _ (get_sub_folder_paths_in_folder_run sub s Hsub)).
    rewrite IH by done. simpl. by rewrite app_assoc.
Qed.

Lemma length_mjoin {A} (ls : list (list A)) :
  length (mjoin ls) = sum_list (length <$> ls).
Proof.
  induction ls as [|l ls IH]; [done|]. simpl. by rewrite length_app, IH.
Qed.

Lemma set_values_run m element v s df :
  heap s !! data m = Some df ->
  "Metadata element" ∈ pd.columns df ->
  editor.set_values m element v s
  = Ret tt (with_heap <[data m :=
      pd.loc_set_mask df
        ((fun lr => pd.cell_eqb (lr.2 !! "Metadata element") (PStr element)) <$> pd.body df)
        "Value" v]> s).
Proof.
  intros Hdf Hcol. unfold editor.set_values, bind, deref, lift, pd.eq_mask.
  rewrite Hdf. rewrite decide_True by done. done.
Qed.

Lemma save_run m s df :
  heap s !! data m = Some df ->
  fs.writable (disk s) (editor.file_path m) = true ->
  exists d,
    fs.write (disk s) (editor.file_path m) (fs.Sheet (pd.columns df) (pd.body df).*2) = inr d
    /\ fs.read d (editor.file_path m) = inr (fs.Sheet (pd.columns df) (pd.body df).*2)
    /\ editor.save m s
       = Ret tt (with_event (Wrote (ospath.Path (editor.file_path m))) (with_disk d s)).
Proof.
  intros Hdf Hw.
  destruct (write_writable _ _ (fs.Sheet (pd.columns df) (pd.body df).*2) Hw) as (d & Hd & Hr).
  exists d. split; [done|]. split; [done|].
  unfold editor.save, bind, deref, to_excel, bind, on_disk. rewrite Hdf, Hd. done.
Qed.

End counts.

Section count_theorem.

Lemma elem_of_add_column c c' cols : c ∈ cols -> c ∈ pd.add_column c' cols.
Proof.
  unfold pd.add_column. destruct (decide _); [done|]. intros. apply elem_of_app. by left.
Qed.

Lemma set_in_row_int c z (r : gmap string pyval) :
  pd.set_in_row c (PInt z) r = <[c := PInt z]> r.
Proof. done. Qed.

(** C5. From a state whose primary folder is a directory, with a
    dataset_description editor whose table has the element-name column
    and whose document can be written, the count recompute returns; in
    the editor's table every row named exactly "Number of subjects" then
    holds the number of immediate subdirectories of the primary folder,
    every row named exactly "Number of samples" the sum over those
    subdirectories of the numbers of their own immediate
    subdirectories, the other rows are as before, and the table is
    written to the editor's document. *)
Theorem count_recompute (s : State) (primary_folder : string) (m : Metadata)
    (df : pd.DataFrame)
    (Hprimary : fs.isdir (disk s) primary_folder = true)
    (Hed : _metadata s !! "dataset_description" = Some m)
    (Hdf : heap s !! data m = Some df)
    (Hcol : "Metadata element" ∈ pd.columns df)
    (Hw : fs.writable (disk s) (editor.file_path m) = true) :
  let n_sub := count_subjects (disk s) primary_folder in
  let n_sam := count_samples (disk s) primary_folder in
  exists s' df',
    _update_sub_sam_nums_in_dataset_description primary_folder s = Ret tt s'
    /\ heap s' = <[data m := df']> (heap s)
    /\ _metadata s' = _metadata s
    /\ pd.body df' = count_row n_sub n_sam <$> pd.body df
    /\ (forall l r, (l, r) ∈ pd.body df' ->
          r !! "Metadata element" = Some (PStr "Number of subjects") ->
          r !! "Value" = Some (PInt (Z.of_nat n_sub)))
    /\ (forall l r, (l, r) ∈ pd.body df' ->
          r !! "Metadata element" = Some (PStr "Number of samples") ->
          r !! "Value" = Some (PInt (Z.of_nat n_sam)))
    /\ fs.read (disk s') (editor.file_path m)
       = inr (fs.Sheet (pd.columns df') (pd.body df').*2)
    /\ trace s' = trace s ++ [Wrote (ospath.Path (editor.file_path m))].
Proof.
  intros n_sub n_sam.
  set (P1 := fun lr : Z * gmap string pyval =>
               pd.cell_eqb (lr.2 !! "Metadata element") (PStr "Number of subjects")).
  set (P2 := fun lr : Z * gmap string pyval =>
               pd.cell_eqb (lr.2 !! "Metadata element") (PStr "Number of samples")).
  set (df1 := pd.loc_set_mask df (P1 <$> pd.body df) "Value" (PInt (Z.of_nat n_sub))).
  set (df2 := pd.loc_set_mask df1 (P2 <$> pd.body df1) "Value" (PInt (Z.of_nat n_sam))).
  assert (pd.body df2 = count_row n_sub n_sam <$> pd.body df) as Hbody.
  { unfold df2. rewrite loc_set_mask_body. unfold df1. rewrite loc_set_mask_body.
    rewrite <- list_fmap_compose. apply list_fmap_ext. intros _ [l r] _.
    unfold count_row, P1, P2, compose. simpl.
    destruct (pd.cell_eqb (r !! "Metadata element") (PStr "Number of subjects")) eqn:E1; simpl.
    - rewrite !set_in_row_int, lookup_insert_ne by done.
      apply cell_eqb_str in E1. rewrite E1. done.
    - by rewrite set_in_row_int. }
  set (s1 := with_heap <[data m := df1]> s).
  set (s2 := with_heap <[data m := df2]> s1).
  assert (fs.writable (disk s2) (editor.file_path m) = true) as Hw2 by done.
  destruct (save_run m s2 df2 ltac:(apply lookup_insert_eq) Hw2) as (d & Hwr & Hrd & Hsave).
  exists (with_event (Wrote (ospath.Path (editor.file_path m))) (with_disk d s2)), df2.
  split.
  { unfold _update_sub_sam_nums_in_dataset_description.
    rewrite (bind_Ret _ _ _ _ _ (get_sub_folder_paths_in_folder_run _ _ Hprimary)).
    rewrite (bind_Ret _ _ _ _ _ (collect_sample_folders_run _ [] s
               ltac:(apply Forall_forall; intros ?; apply sub_folders_isdir))).
    rewrite (bind_Ret _ _ _ _ _ (the_editor_ok _ _ _ Hed)).
    rewrite (bind_Ret _ _ _ _ _ (set_values_run m _ _ s df Hdf Hcol)).
    fold n_sub P1 df1 s1.
    erewrite bind_Ret.
    2: { apply (set_values_run m _ _ s1 df1).
         - apply lookup_insert_eq.
         - by apply elem_of_add_column. }
    simpl app. rewrite length_mjoin, <- list_fmap_compose.
    fold P2. change (sum_list _) with n_sam. fold df2 s2. exact Hsave. }
  split.
  { simpl. by rewrite insert_insert_eq. }
  split; [done|]. split; [exact Hbody|].
  split; [|split; [|split; [exact Hrd|done]]].
  - intros l r Hin Hname. rewrite Hbody in Hin.
    apply list_elem_of_fmap in Hin as ([l0 r0] & Heq & _).
    unfold count_row in Heq. simpl in Heq.
    destruct (pd.cell_eqb (r0 !! "Metadata element") (PStr "Number of subjects")) eqn:E1.
    + inversion Heq; subst. apply lookup_insert_eq.
    + destruct (pd.cell_eqb (r0 !! "Metadata element") (PStr "Number of samples")) eqn:E2.
      * inversion Heq; subst. rewrite lookup_insert_ne in Hname by done.
        apply cell_eqb_str in E2. congruence.
      * inversion Heq; subst. apply cell_eqb_str in Hname. congruence.
  - intros l r Hin Hname. rewrite Hbody in Hin.
    apply list_elem_of_fmap in Hin as ([l0 r0] & Heq & _).
    unfold count_row in Heq. simpl in Heq.
    destruct (pd.cell_eqb (r0 !! "Metadata element") (PStr "Number of subjects")) eqn:E1.
    + inversion Heq; subst. rewrite lookup_insert_ne in Hname by done.
      apply cell_eqb_str in E1. congruence.
    + destruct (pd.cell_eqb (r0 !! "Metadata element") (PStr "Number of samples")) eqn:E2.
      * inversion Heq; subst. apply lookup_insert_eq.
      * inversion Heq; subst. apply cell_eqb_str in Hname. congruence.
Qed.

End count_theorem.

(** The theorem at the example dataset, whose primary tree is
    sub-1: sam-1, sam-2 and sub-2: sam-1: the counts are 2 and 3. *)
Lemma count_recompute_witness :
  count_subjects example.tree "/ds/primary" = 2%nat
  /\ count_samples example.tree "/ds/primary" = 3%nat
  /\ exists s' df',
      _update_sub_sam_nums_in_dataset_description "/ds/primary" example.state = Ret tt s'
      /\ heap s' !! 2%nat = Some df'
      /\ pd.column_cells df' "Value" = [Some (PInt 2); Some (PInt 3); None; None]
      /\ fs.read (disk s') "/ds/dataset_description.xlsx"
         = inr (fs.Sheet (pd.columns df') (pd.body df').*2).
Proof.
  split; [vm_compute; reflexivity|]. split; [vm_compute; reflexivity|].
  destruct (count_recompute example.state "/ds/primary"
              (mkMetadata "dataset_description" 2 "/ds") example.description
              eq_refl eq_refl eq_refl ltac:(by_compute) eq_refl)
    as (s' & df' & Hrun & Hheap & _ & Hbody & _ & _ & Hread & _).
  exists s', df'. split; [exact Hrun|]. split.
  { rewrite Hheap. apply lookup_insert_eq. }
  split; [|exact Hread].
  unfold pd.column_cells. rewrite Hbody. vm_compute. reflexivity.
Defined.

(** ** The nested-directory guard *)

Section nested_guard.

Global Instance same_dirs_preorder : PreOrder same_dirs.
Proof.
  split.
  - by intros s q.
  - intros s1 s2 s3 H12 H23 q. by rewrite H23, H12.
Qed.



















Global Instance disk_only_preorder : PreOrder disk_only.
Proof.
  split.
  - intros s. unfold disk_only. by destruct s.
  - intros s1 s2 s3 H12 H23. unfold disk_only in *.
    rewrite H23 at 1. rewrite H12. reflexivity.
Qed.







End nested_guard.


(** ** Paths of entries *)

Section entry_paths.

Lemma split_nonempty (sep : ascii) (a : string) : ospath.split sep a ≠ [].
Proof.
  destruct a as [|c a]; simpl; [done|].
  destruct (decide _); [done|]. by destruct (ospath.split sep a).
Qed.

Lemma split_app_sep (sep : ascii) (a b : string) :
  ospath.split sep (a +:+ String sep b) = ospath.split sep a ++ ospath.split sep b.
Proof.
  induction a as [|c a IH]; simpl.
  - by rewrite decide_True.
  - change (String c a +:+ String sep b) with (String c (a +:+ String sep b)).
    cbn [ospath.split]. rewrite IH.
    destruct (decide (c = sep)); [done|].
    pose proof (split_nonempty sep a).
    by destruct (ospath.split sep a) as [|w ws].
Qed.

Lemma split_no_sep (b : string) :
  pystr.contains "/" b = false -> ospath.split "/" b = [b].
Proof.
  induction b as [|c b IH]; [done|].
  cbn [pystr.contains pystr.startswith]. intros H.
  apply orb_false_iff in H as [H1 H2].
  cbn [ospath.split]. destruct (decide (c = "/"%char)) as [->|Hne].
  - by rewrite decide_True in H1.
  - by rewrite IH.
Qed.

Lemma last_char_sep (a : string) (c : ascii) :
  ospath.last_char a = Some c -> exists a', a = a' +:+ String c EmptyString.
Proof.
  induction a as [|x a IH]; [done|]. simpl. destruct a as [|y a].
  - intros [= ->]. by exists EmptyString.
  - intros H. destruct (IH H) as [a' ->]. by exists (String x a').
Qed.

Lemma is_name_spec w :
  ospath.is_name w = true ->
  w ≠ "" /\ w ≠ "." /\ w ≠ ".." /\ pystr.contains "/" w = false.
Proof.
  unfold ospath.is_name. rewrite andb_true_iff, bool_decide_eq_true, negb_true_iff.
  tauto.
Qed.

Lemma parts_app_sep a b :
  ospath.parts (a +:+ String "/" b) = ospath.parts a ++ ospath.parts b.
Proof. unfold ospath.parts. by rewrite split_app_sep, filter_app. Qed.

Lemma parts_name w : ospath.is_name w = true -> ospath.parts w = [w].
Proof.
  intros (H1 & H2 & _ & H4)%is_name_spec. unfold ospath.parts.
  rewrite split_no_sep by done. rewrite filter_cons, decide_True by done. done.
Qed.

Lemma append_sep_assoc (a w : string) :
  (a +:+ String "/" EmptyString) +:+ w = a +:+ String "/" w.
Proof.
  induction a as [|c a IH]; [done|].
  change (String c ((a +:+ String "/" EmptyString) +:+ w) = String c (a +:+ String "/" w)).
  by rewrite IH.
Qed.

Lemma parts_join a w :
  ospath.is_name w = true -> ospath.parts (ospath.join a w) = ospath.parts a ++ [w].
Proof.
  intros Hw. pose proof (is_name_spec _ Hw) as (H1 & H2 & H3 & H4).
  unfold ospath.join.
  assert (pystr.startswith "/" w = false) as ->.
  { destruct w as [|c w]; [done|]. cbn [pystr.contains pystr.startswith] in H4.
    apply orb_false_iff in H4 as [H4 _]. exact H4. }
  destruct (decide (a = "" ∨ ospath.last_char a = Some "/"%char)) as [[->|Hl]|Hn].
  - simpl. by apply parts_name.
  - destruct (last_char_sep _ _ Hl) as [a' ->].
    rewrite append_sep_assoc.
    rewrite !parts_app_sep. rewrite (parts_name w Hw).
    change (ospath.parts EmptyString) with (@nil string). by rewrite app_nil_r.
  - change (a +:+ "/" +:+ w) with (a +:+ String "/" w).
    by rewrite parts_app_sep, (parts_name w Hw).
Qed.

(** The entry [w] of the folder [a] is one step below it. *)
Lemma resolve_join a w :
  ospath.is_name w = true ->
  ospath.resolve (ospath.join a w) = ospath.resolve a ++ [w].
Proof.
  intros Hw. pose proof (is_name_spec _ Hw) as (H1 & H2 & H3 & H4).
  unfold ospath.resolve. rewrite parts_join by done.
  rewrite foldl_app. simpl. by rewrite decide_False.
Qed.

End entry_paths.

(** ** Writing into a folder *)

Section folder_writes.
Implicit Types (es : list (string * fs.node)) (n root : fs.node) (p q : list string).

Lemma replace_entry_names c n es x :
  fs.assoc c es = Some x -> (fs.replace_entry c n es).*1 = es.*1.
Proof.
  induction es as [|[k y] es IH]; [done|]. cbn [fs.assoc fs.replace_entry].
  destruct (decide (k = c)) as [->|Hne]; [done|].
  intros H. rewrite !fmap_cons. f_equal. by apply IH.
Qed.

Lemma replace_entry_new c n es :
  c ∉ es.*1 -> fs.replace_entry c n es = es ++ [(c, n)].
Proof.
  induction es as [|[k y] es IH]; [done|]. rewrite fmap_cons. cbn [fs.replace_entry].
  intros [Hne Hnin]%not_elem_of_cons. simpl in Hne.
  rewrite decide_False by done. by rewrite IH.
Qed.

Lemma listing_lookup_file q c c' :
  fs.listing (fs.lookup q (fs.File c)) = fs.listing (fs.lookup q (fs.File c')).
Proof. by destruct q. Qed.

(** A file written over a file changes no listing. *)
Lemma listing_put_over_file p c0 c root root' q :
  fs.lookup p root = Some (fs.File c0) ->
  fs.put p (Some (fs.File c)) root = Some root' ->
  fs.listing (fs.lookup q root') = fs.listing (fs.lookup q root).
Proof.
  revert root root' q. induction p as [|k p IH]; intros root root' q Hl Hp; [done|].
  destruct root as [|es]; [by rewrite put_file in Hp|].
  rewrite lookup_cons in Hl.
  destruct (fs.assoc k es) as [ch|] eqn:E; [|done].
  destruct (decide (p = [])) as [->|Hne].
  - simpl in Hl. apply (inj Some) in Hl. subst ch.
    rewrite put_last in Hp. apply (inj Some) in Hp. subst root'.
    destruct q as [|k2 q].
    + simpl. by rewrite (replace_entry_names _ _ _ _ E).
    + rewrite !lookup_cons. destruct (decide (k = k2)) as [<-|Hk].
      * rewrite assoc_set_entry_eq, E. apply listing_lookup_file.
      * by rewrite assoc_set_entry_ne.
  - rewrite put_cons, E in Hp by done.
    destruct (fs.put p (Some (fs.File c)) ch) as [ch'|] eqn:E'; [|done].
    apply (inj Some) in Hp. subst root'.
    destruct q as [|k2 q].
    + simpl. by rewrite (replace_entry_names _ _ _ _ E).
    + rewrite !lookup_cons. destruct (decide (k = k2)) as [<-|Hk].
      * rewrite assoc_set_entry_eq, E. by apply (IH ch).
      * by rewrite assoc_set_entry_ne.
Qed.

(** An entry set in a directory of the tree. *)
Lemma put_app_last q name o root es :
  fs.lookup q root = Some (fs.Dir es) ->
  exists root',
    fs.put (q ++ [name]) o root = Some root'
    /\ fs.lookup q root' = Some (fs.Dir (fs.set_entry name o es)).
Proof.
  revert root. induction q as [|k q IH]; intros root Hl.
  - simpl in Hl. apply (inj Some) in Hl. subst root. eexists. split; [apply put_last|done].
  - destruct root as [|es0]; [done|]. rewrite lookup_cons in Hl.
    destruct (fs.assoc k es0) as [ch|] eqn:E; [|done].
    destruct (IH ch Hl) as (ch' & Hput & Hlook).
    exists (fs.Dir (fs.set_entry k (Some ch') es0)). split.
    + change ((k :: q) ++ [name]) with (k :: (q ++ [name])).
      rewrite put_cons by (by destruct q). by rewrite E, Hput.
    + by rewrite lookup_cons, assoc_set_entry_eq.
Qed.

(** A file written over the file at [path]: the listings stay and the
    file reads as written. *)
Lemma write_over_file root path c0 c root' :
  fs.read root path = inr c0 ->
  fs.write root path c = inr root' ->
  (forall x, fs.listdir root' x = fs.listdir root x)
  /\ fs.read root' path = inr c.
Proof.
  unfold fs.read, fs.write, fs.listdir. intros Hr Hw.
  destruct (fs.lookup (ospath.resolve path) root) as [[c1|]|] eqn:El; try done.
  destruct (fs.put (ospath.resolve path) (Some (fs.File c)) root) as [r|] eqn:Ep; [|done].
  apply (inj inr) in Hw. subst r. split.
  - intros x. by apply (listing_put_over_file _ _ _ _ _ _ El Ep).
  - by rewrite (lookup_put_eq _ _ _ _ Ep).
Qed.

(** A file written under a new name in a folder: the name is last in
    the folder's listing and the file reads as written. *)
Lemma write_new_entry root folder files name c root' :
  fs.listdir root folder = inr files ->
  ospath.is_name name = true ->
  name ∉ files ->
  fs.write root (ospath.join folder name) c = inr root' ->
  fs.listdir root' folder = inr (files ++ [name])
  /\ fs.read root' (ospath.join folder name) = inr c.
Proof.
  unfold fs.listdir, fs.write, fs.read. intros Hl Hname Hnew Hw.
  rewrite (resolve_join _ _ Hname) in *.
  destruct (fs.lookup (ospath.resolve folder) root) as [[|es]|] eqn:El; try done.
  simpl in Hl. apply (inj inr) in Hl. subst files.
  destruct (put_app_last _ name (Some (fs.File c)) _ _ El) as (r & Hput & Hlook).
  rewrite Hput in Hw.
  destruct (fs.lookup (ospath.resolve folder ++ [name]) root) as [[|]|]; try done.
  all: apply (inj inr) in Hw; subst r.
  all: rewrite Hlook, (lookup_put_eq _ _ _ _ Hput); simpl.
  all: by rewrite (replace_entry_new _ _ _ Hnew), fmap_app.
Qed.

End folder_writes.

(** ** The manifest upsert *)

Section upsert_facts.
Implicit Types (df : pd.DataFrame).

Lemma filenames_snd df : filenames df = omap (fun r => r !! "filename") (pd.body df).*2.
Proof.
  unfold filenames. induction (pd.body df) as [|[l r] b IH]; [done|].
  rewrite fmap_cons. cbn [omap list_omap snd]. by rewrite <- IH.
Qed.

Lemma any_fmap {A} (P : A -> bool) (l : list A) :
  pd.any (P <$> l) = true <-> exists x, x ∈ l /\ P x = true.
Proof.
  unfold pd.any. induction l as [|x l IH]; simpl.
  - split; [done|]. by intros (x & ?%elem_of_nil & _).
  - rewrite orb_true_iff, IH. unfold id. split.
    + intros [H|(y & Hy & HP)]; [exists x|exists y]; split; try done.
      * by left.
      * by right.
    + intros (y & [->|Hy]%elem_of_cons & HP); [by left|right; by exists y].
Qed.

Lemma upsert_found df row key now :
  "filename" ∈ pd.columns df ->
  (exists lr, lr ∈ pd.body df /\ lr.2 !! "filename" = Some (PStr key)) ->
  exists df',
    upsert df row key now = inr df'
    /\ pd.body df' = restamp key now <$> pd.body df
    /\ pd.columns df' = pd.add_column "timestamp" (pd.columns df).
Proof.
  intros Hcol (lr & Hin & Hlr). unfold upsert, pd.eq_mask. rewrite decide_True by done.
  assert (pd.any ((fun lr => pd.cell_eqb (lr.2 !! "filename") (PStr key)) <$> pd.body df)
          = true) as ->.
  { apply any_fmap. exists lr. split; [done|]. by apply cell_eqb_str. }
  eexists. split; [done|]. split; [|done].
  by rewrite loc_set_mask_body.
Qed.

Lemma upsert_new df row key now :
  "filename" ∈ pd.columns df ->
  (forall lr, lr ∈ pd.body df -> lr.2 !! "filename" ≠ Some (PStr key)) ->
  upsert df row key now = inr (pd.concat_row df row).
Proof.
  intros Hcol Hno. unfold upsert, pd.eq_mask. rewrite decide_True by done.
  destruct (pd.any _) eqn:E; [|done].
  apply any_fmap in E as (lr & Hin & HP). apply cell_eqb_str in HP.
  by destruct (Hno lr Hin).
Qed.

Lemma restamp_filename key now lr : (restamp key now lr).2 !! "filename" = lr.2 !! "filename".
Proof.
  unfold restamp. destruct (pd.cell_eqb _ _); [|done]. simpl. by rewrite lookup_insert_ne.
Qed.

Lemma restamp_other key now lr c :
  c ≠ "timestamp" -> (restamp key now lr).2 !! c = lr.2 !! c.
Proof.
  intros Hc. unfold restamp. destruct (pd.cell_eqb _ _); [|done]. simpl.
  by rewrite lookup_insert_ne.
Qed.

Lemma restamp_label key now lr : (restamp key now lr).1 = lr.1.
Proof. unfold restamp. by destruct (pd.cell_eqb _ _). Qed.

Lemma filenames_restamp key now (b : list (Z * gmap string pyval)) :
  omap (fun lr => lr.2 !! "filename") (restamp key now <$> b)
  = omap (fun lr => lr.2 !! "filename") b.
Proof.
  induction b as [|lr b IH]; [done|]. rewrite fmap_cons. cbn [omap list_omap].
  by rewrite restamp_filename, <- IH.
Qed.

Lemma manifest_row_cells key now description fname :
  pd.row_cells (manifest_row key now description fname)
  = {[ "filename" := PStr key; "timestamp" := PStr now;
       "description" := PStr description; "file type" := PStr (file_type fname) ]}.
Proof.
  unfold pd.row_cells, pd.update_cells, manifest_row. simpl.
  unfold pd.set_in_row. simpl. apply map_eq. intros k.
  destruct (decide (k = "filename")) as [->|H1]; [by vm_compute|].
  destruct (decide (k = "timestamp")) as [->|H2]; [by vm_compute|].
  destruct (decide (k = "description")) as [->|H3]; [by vm_compute|].
  destruct (decide (k = "file type")) as [->|H4].
  { rewrite lookup_insert_eq. rewrite !lookup_insert_ne by done.
    by rewrite lookup_singleton_eq. }
  rewrite !lookup_insert_ne by done. rewrite lookup_empty.
  rewrite lookup_singleton_ne by done. done.
Qed.

(** The upsert keeps the invariant. *)
Lemma upsert_unique df key now description fname df' :
  upsert df (manifest_row key now description fname) key now = inr df' ->
  unique_filenames df -> unique_filenames df'.
Proof.
  unfold upsert, pd.eq_mask. destruct (decide _) as [Hcol|]; [|done].
  destruct (pd.any _) eqn:E; intros [= <-] Hu.
  - unfold unique_filenames, filenames. rewrite loc_set_mask_body.
    change (fun lr => if pd.cell_eqb (lr.2 !! "filename") (PStr key)
                      then (lr.1, pd.set_in_row "timestamp" (PStr now) lr.2) else lr)
      with (restamp key now).
    by rewrite filenames_restamp.
  - unfold unique_filenames. rewrite filenames_snd. unfold pd.concat_row. simpl.
    rewrite relabel_snd, omap_app, <- filenames_snd. simpl.
    rewrite manifest_row_cells.
    assert (({[ "filename" := PStr key; "timestamp" := PStr now;
                "description" := PStr description; "file type" := PStr (file_type fname) ]}
             : gmap string pyval) !! "filename" = Some (PStr key)) as -> by done.
    simpl. apply NoDup_app. split; [done|]. split; [|apply NoDup_singleton].
    intros x Hx ->%list_elem_of_singleton.
    unfold filenames in Hx. apply list_elem_of_omap in Hx as (lr & Hin & Hlr).
    assert (pd.any ((fun lr => pd.cell_eqb (lr.2 !! "filename") (PStr key)) <$> pd.body df)
            = true) as Hany.
    { apply any_fmap. exists lr. split; [done|]. by apply cell_eqb_str. }
    congruence.
Qed.

End upsert_facts.

(** ** The manifest synchroniser *)

Section synchroniser.

Lemma read_table_Ret path s df s' :
  read_table path s = Ret df s' ->
  s' = s /\ exists cols rows,
    fs.read (disk s) path = inr (fs.Sheet cols rows) /\ df = pd.mkDF cols (pd.relabel rows).
Proof.
  unfold read_table. destruct (fs.read (disk s) path) as [|[cols rows|]]; try done.
  intros [= <- <-]. split; [done|]. by eexists _, _.
Qed.

Lemma find_manifest_Ret folder s path ext df s' :
  find_manifest folder s = Ret (path, ext, df) s' ->
  s' = s /\ found_manifest (disk s) folder path ext df.
Proof.
  unfold find_manifest, bind at 1, os_listdir at 1.
  destruct (fs.listdir (disk s) folder) as [|files] eqn:El; [done|]. simpl.
  destruct (filter _ files) as [|f rest] eqn:Ef.
  { intros [= <- <- <- <-]. split; [done|]. by eapply found_none. }
  set (p := ospath.join folder f). set (e := pystr.lower (ospath.splitext p).2).
  assert (forall (rd : string -> M pd.DataFrame),
             rd = read_table ->
             e ∈ [".xlsx"; ".csv"; ".json"] ->
             (df <- rd p ;; ret (p, e, df)) s = Ret (path, ext, df) s' ->
             s' = s /\ found_manifest (disk s) folder path ext df) as Hread.
  { intros rd -> He. unfold bind.
    destruct (read_table p s) as [df0 s0|] eqn:Er; [|done].
    intros [= <- <- <- <-]. apply read_table_Ret in Er as (-> & cols & rows & Hr & ->).
    split; [done|]. by eapply found_file. }
  destruct (decide (e = ".xlsx")) as [He|].
  { apply Hread; [done|]. rewrite He. by_compute. }
  destruct (decide (e = ".csv")) as [He|].
  { apply Hread; [done|]. rewrite He. by_compute. }
  destruct (decide (e = ".json")) as [He|]; [|done].
  apply Hread; [done|]. rewrite He. by_compute.
Qed.

Lemma modify_manifest_run fname folder dest description s path ext df df' m p0 r0 :
  find_manifest folder s = Ret (path, ext, df) s ->
  upsert df
    (manifest_row (manifest_filename folder dest fname) (clock s (ticks s)) description fname)
    (manifest_filename folder dest fname) (clock s (ticks s)) = inr df' ->
  _metadata s !! "manifest" = Some m ->
  _dataset s !! "manifest" = Some (Tabular p0 r0) ->
  _modify_manifest fname folder dest description s
  = save_manifest df' path ext (registered s m p0 df').
Proof.
  intros Hfind Hup Hm Hd. unfold _modify_manifest.
  rewrite (bind_Ret _ _ _ _ _ Hfind).
  unfold bind at 1. unfold utc_now at 1. rewrite Hup. simpl lift.
  unfold bind at 1. unfold ret at 1.
  unfold bind at 1. unfold alloc at 1.
  erewrite bind_Ret; [reflexivity|].
  unfold _update_dataset_by_df.
  erewrite bind_Ret; [|by apply the_editor_ok].
  erewrite bind_Ret; [|by apply set_editor_data_ok].
  erewrite set_entry_metadata_ok; [done|exact Hd].
Qed.


Lemma reads_read_table path : reads (read_table path).
Proof.
  intros s. unfold read_table. destruct (fs.read (disk s) path) as [|[|]];
    [right|left|right]; by eexists.
Qed.

Lemma reads_bind {A B} (m : M A) (k : A -> M B) :
  reads m -> (forall a, reads (k a)) -> reads (bind m k).
Proof.
  intros Hm Hk s. unfold bind. destruct (Hm s) as [[a ->]|[e ->]]; [apply Hk|].
  right. by eexists.
Qed.

Lemma reads_ret {A} (a : A) : reads (ret a).
Proof. intros s. left. by eexists. Qed.

Lemma reads_raise {A} e : reads (@raise A e).
Proof. intros s. right. by eexists. Qed.

Lemma reads_find_manifest folder : reads (find_manifest folder).
Proof.
  unfold find_manifest. apply reads_bind; [apply reads_os_listdir|]. intros files.
  destruct (filter _ files) as [|f rest]; [apply reads_ret|].
  repeat (destruct (decide _);
          [apply reads_bind; [apply reads_read_table|intros; apply reads_ret]|]).
  apply reads_raise.
Qed.

Lemma find_manifest_Raise folder s e s' :
  find_manifest folder s = Raise e s' -> s' = s.
Proof.
  destruct (reads_find_manifest folder s) as [[a ->]|[e0 ->]]; [done|]. by intros [= _ <-].
Qed.

Lemma lookup_parent_dir p root x :
  fs.lookup p root = Some x -> p ≠ [] ->
  fs.is_dir_node (fs.lookup (removelast p) root) = true.
Proof.
  revert root. induction p as [|c p IH]; intros root Hl Hp; [done|].
  destruct root as [|es]; [done|].
  destruct (decide (p = [])) as [->|Hne]; [done|].
  assert (removelast (c :: p) = c :: removelast p) as -> by (by destruct p).
  rewrite lookup_cons in *. destruct (fs.assoc c es) as [ch|]; [|done].
  by apply IH.
Qed.

Lemma listing_root_dir q root l :
  fs.listing (fs.lookup q root) = inr l -> exists es, root = fs.Dir es.
Proof.
  destruct root as [c|es]; [|by eexists]. by destruct q.
Qed.

(** The spreadsheet of a manifest that was found can be written. *)
Lemma manifest_write_succeeds d folder path ext df c :
  found_manifest d folder path ext df ->
  exists d', fs.write d path c = inr d'.
Proof.
  intros Hf.
  inversion Hf as [files f rest cols rows Hl Hfl He Hr Hp Hext Hdf
                  |files Hl Hfl Hp Hext Hdf]; subst.
  - unfold fs.write, fs.read in *.
    destruct (fs.lookup (ospath.resolve (ospath.join folder f)) d) as [[c0|]|] eqn:El;
      try done.
    destruct (listing_root_dir _ _ _ Hl) as [es ->].
    assert (ospath.resolve (ospath.join folder f) ≠ []) as Hne.
    { intros Heq. by rewrite Heq in El. }
    destruct (put_is_Some _ (Some (fs.File c)) _ Hne (lookup_parent_dir _ _ _ El Hne))
      as [d' ->].
    by eexists.
  - unfold fs.write, fs.listdir in *.
    rewrite (resolve_join folder "manifest.xlsx" eq_refl).
    destruct (fs.lookup (ospath.resolve folder) d) as [[|es]|] eqn:El; try done.
    destruct (put_app_last _ "manifest.xlsx" (Some (fs.File c)) _ _ El) as (r & -> & _).
    assert (fs.lookup (ospath.resolve folder ++ ["manifest.xlsx"]) d = None) as ->;
      [|by eexists].
    simpl in Hl. apply (inj inr) in Hl. subst files.
    assert (forall q root es0 name, fs.lookup q root = Some (fs.Dir es0) ->
              fs.lookup (q ++ [name]) root = fs.assoc name es0) as Hstep.
    { clear. induction q as [|k q IH]; intros root es0 name H.
      - simpl in H. apply (inj Some) in H. subst root. simpl. by destruct (fs.assoc _ _).
      - destruct root as [|es1]; [done|]. change ((k :: q) ++ [name]) with (k :: (q ++ [name])).
        rewrite lookup_cons in *. destruct (fs.assoc k es1); [|done]. by apply IH. }
    rewrite (Hstep _ _ _ _ El).
    destruct (fs.assoc "manifest.xlsx" es) as [x|] eqn:Ea; [|done].
    exfalso.
    assert ("manifest.xlsx" ∈ filter (fun f => pystr.contains "manifest" f = true) es.*1)
      as Hin.
    { apply list_elem_of_filter. split; [done|].
      clear -Ea. induction es as [|[k y] es IH]; [done|]. simpl in Ea. rewrite fmap_cons.
      destruct (decide (k = "manifest.xlsx")) as [->|]; [by left|]. right. by apply IH. }
    rewrite Hfl in Hin. by apply elem_of_nil in Hin.
Qed.


(** What saving does to the state. *)
Lemma save_manifest_state df' path ext s :
  let s' := state_of (save_manifest df' path ext s) in
  heap s' = heap s /\ _metadata s' = _metadata s /\ _dataset s' = _dataset s
  /\ (disk s' = disk s
      \/ ext = ".xlsx"
         /\ fs.write (disk s) path (fs.Sheet (pd.columns df') (pd.body df').*2)
            = inr (disk s')).
Proof.
  unfold save_manifest. destruct (decide (ext = ".xlsx")) as [->|].
  { unfold to_excel, bind, on_disk. cbv beta.
    destruct (fs.write (disk s) path _) as [e|d'] eqn:Ew; simpl; [by auto|].
    repeat split; try done. by right. }
  destruct (decide _); [simpl; by auto|].
  destruct (decide _); [|simpl; by auto].
  unfold bind. destruct (reads_read_table path s) as [[a E]|[e0 E]];
    unfold read_json; rewrite E; simpl; by auto.
Qed.

(** The state a bind ends in. *)
Lemma state_of_bind {A B} (m : M A) (k : A -> M B) s :
  state_of (bind m k s)
  = match m s with
    | Ret a s' => state_of (k a s')
    | Raise _ s' => s'
    end.
Proof. unfold bind. by destruct (m s). Qed.

End synchroniser.

Section file_types.

Lemma lower_char_not_upper c : pystr.is_upper (pystr.lower_char c) = false.
Proof. destruct c as [[|] [|] [|] [|] [|] [|] [|] [|]]; reflexivity. Qed.

Lemma lower_char_dot c :
  bool_decide ("."%char = pystr.lower_char c) = bool_decide ("."%char = c).
Proof. destruct c as [[|] [|] [|] [|] [|] [|] [|] [|]]; reflexivity. Qed.

Lemma contains_dot_cons c s :
  pystr.contains "." (String c s) = bool_decide ("."%char = c) || pystr.contains "." s.
Proof.
  cbn [pystr.contains pystr.startswith].
  destruct (decide ("."%char = c)) as [H|H].
  - rewrite (bool_decide_eq_true_2 _ H). by destruct s.
  - by rewrite (bool_decide_eq_false_2 _ H).
Qed.

Lemma contains_dot_lower s : pystr.contains "." (pystr.lower s) = pystr.contains "." s.
Proof.
  induction s as [|c s IH]; [done|]. cbn [pystr.lower].
  by rewrite !contains_dot_cons, lower_char_dot, IH.
Qed.

Lemma lower_no_upper s :
  pystr.all_chars (fun c => negb (pystr.is_upper c)) (pystr.lower s) = true.
Proof.
  induction s as [|c s IH]; [done|]. cbn [pystr.lower pystr.all_chars].
  by rewrite lower_char_not_upper, IH.
Qed.

Lemma rsplit_dot_None s :
  ospath.rsplit_dot s = None <-> pystr.contains "." s = false.
Proof.
  induction s as [|c s IH]; [done|]. rewrite contains_dot_cons. cbn [ospath.rsplit_dot].
  destruct (ospath.rsplit_dot s) as [[a b]|].
  - split; [done|]. intros [_ H]%orb_false_iff. apply IH in H. done.
  - rewrite (proj1 IH eq_refl), orb_false_r.
    destruct (decide (c = "."%char)) as [->|H]; [done|].
    split; [|done]. intros _. apply bool_decide_eq_false_2. congruence.
Qed.

(** The extension [rsplit_dot] finds is a dot and a text with no
    dot. *)
Lemma rsplit_dot_Some s a b :
  ospath.rsplit_dot s = Some (a, b) ->
  exists e, b = String "." e /\ pystr.contains "." e = false /\ s = a +:+ b.
Proof.
  revert a b. induction s as [|c s IH]; intros a b; [done|]. cbn [ospath.rsplit_dot].
  destruct (ospath.rsplit_dot s) as [[a' b']|] eqn:E.
  - intros [= <- <-]. destruct (IH _ _ eq_refl) as (e & -> & He & ->). by exists e.
  - destruct (decide (c = "."%char)) as [->|]; [|done]. intros [= <- <-].
    exists s. split; [done|]. split; [|done]. by apply rsplit_dot_None.
Qed.

Lemma rsplit_dot_app a e :
  pystr.contains "." e = false ->
  ospath.rsplit_dot (a +:+ String "." e) = Some (a, String "." e).
Proof.
  intros He. induction a as [|c a IH].
  - change ("" +:+ String "." e) with (String "." e). cbn [ospath.rsplit_dot].
    by rewrite (proj2 (rsplit_dot_None e) He).
  - change (String c a +:+ String "." e) with (String c (a +:+ String "." e)).
    cbn [ospath.rsplit_dot]. by rewrite IH.
Qed.

Lemma rsplit_sep_no_sep s :
  pystr.contains "/" s = false -> ospath.rsplit_sep s = (EmptyString, s).
Proof.
  destruct s as [|c s]; [done|]. intros H. cbn [ospath.rsplit_sep].
  destruct (ospath.rsplit_sep s). by rewrite H.
Qed.

Lemma span_dots_no_dot c s :
  c ≠ "."%char -> ospath.span_dots (String c s) = (EmptyString, String c s).
Proof.
  intros Hc. destruct c as [[|] [|] [|] [|] [|] [|] [|] [|]]; try reflexivity. by destruct Hc.
Qed.

End file_types.

Section upsert_theorem.

Lemma upsert_total df row key now :
  "filename" ∈ pd.columns df -> exists df', upsert df row key now = inr df'.
Proof.
  intros Hcol. unfold upsert, pd.eq_mask. rewrite decide_True by done.
  destruct (pd.any _); by eexists.
Qed.

Lemma restamp_hit key now lr :
  lr.2 !! "filename" = Some (PStr key) ->
  (restamp key now lr).2 !! "timestamp" = Some (PStr now).
Proof.
  intros H. unfold restamp. rewrite (proj2 (cell_eqb_str _ _) H). simpl.
  by rewrite lookup_insert_eq.
Qed.

Lemma restamp_miss key now lr :
  lr.2 !! "filename" ≠ Some (PStr key) -> restamp key now lr = lr.
Proof.
  intros H. unfold restamp. destruct (pd.cell_eqb _ _) eqn:E; [|done].
  by apply cell_eqb_str in E.
Qed.

End upsert_theorem.

(** ** [delete_data]: claim C7 *)

Section deleting.

Lemma isfile_exists d p : fs.isfile d p = true -> fs.exists_ d p = true.
Proof.
  unfold fs.isfile, fs.exists_. by destruct (fs.lookup _ d) as [[|]|].
Qed.

(** C7. [delete_data] raises [FileNotFoundError] for a path that does
    not exist; it removes an existing directory with what is in it and
    changes nothing but the file tree; it unlinks an existing file and
    then removes the manifest row whose file name is
    [deleted_filename], and saves the manifest. That key is the text of
    the path with every occurrence of the text of the dataset path
    taken out, not only the leading one: in the dataset /data the file
    /data/primary/sub-1/sam-1/data.csv has the key
    primary/sub-1/sam-1.csv. The call deletes the file and returns,
    and the row of primary/sub-1/sam-1/data.csv is still in the table
    of the manifest editor and in the manifest file it saved. *)
Theorem delete_data_key_drops_every_occurrence :
  (forall s p,
      fs.exists_ (disk s) (ospath.Path p) = false ->
      delete_data p s = Raise FileNotFoundError s)
  /\ (forall s p d',
         fs.exists_ (disk s) (ospath.Path p) = true ->
         fs.isfile (disk s) (ospath.Path p) = false ->
         fs.rmtree (disk s) (ospath.Path p) = inr d' ->
         delete_data p s = Ret tt (with_disk d' s))
  /\ (forall s p d',
         fs.isfile (disk s) (ospath.Path p) = true ->
         fs.unlink (disk s) (ospath.Path p) = inr d' ->
         delete_data p s
         = (manifest <- the_editor "manifest" ;;
            editor.remove_row manifest (deleted_filename (_dataset_path s) p) ;;;
            editor.save manifest) (with_disk d' s))
  /\ fs.isfile example.data_tree "/data/primary/sub-1/sam-1/data.csv" = true
  /\ (df ← heap example.data_state !! 0%nat; Some (pd.column_cells df "filename"))
     = Some [Some (PStr "primary/sub-1/sam-1/data.csv")]
  /\ deleted_filename "/data" "/data/primary/sub-1/sam-1/data.csv"
     = "primary/sub-1/sam-1.csv"
  /\ (exists s',
         delete_data "/data/primary/sub-1/sam-1/data.csv" example.data_state = Ret tt s'
         /\ fs.exists_ (disk s') "/data/primary/sub-1/sam-1/data.csv" = false
         /\ (df ← heap s' !! 0%nat; Some (pd.column_cells df "filename"))
            = Some [Some (PStr "primary/sub-1/sam-1/data.csv")]
         /\ fs.read (disk s') "/data/manifest.xlsx"
            = inr (fs.Sheet manifest_columns [example.data_record])
         /\ trace s' = [Wrote "/data/manifest.xlsx"]).
Proof.
  split; [|split; [|split]].
  - intros s p He. unfold delete_data, bind, os_exists. by rewrite He.
  - intros s p d' He Hf Hrm. unfold delete_data, _delete_data, bind, os_exists, os_isfile.
    rewrite He. cbn [negb]. rewrite He, Hf. unfold on_disk. by rewrite Hrm.
  - intros s p d' Hf Hu. pose proof (isfile_exists _ _ Hf) as He.
    unfold delete_data, _delete_data, os_exists, os_isfile.
    unfold bind at 1. rewrite He. cbn [negb].
    unfold bind at 1. unfold bind at 1. rewrite He.
    unfold bind at 1. rewrite Hf.
    unfold bind at 1. unfold on_disk. rewrite Hu. unfold ret at 1.
    unfold bind at 1. unfold get at 1. reflexivity.
  - split; [by vm_compute|]. split; [by vm_compute|]. split; [by vm_compute|].
    eexists. split; [vm_compute; reflexivity|]. by vm_compute.
Qed.

End deleting.

(** ** What the synchroniser saves *)

Section saving.

(** A manifest that is not a spreadsheet is not written: on a loaded
    dataset, a call that finds a manifest [df] with its [filename]
    column in a .csv file registers the new table and ends in the
    [AttributeError] of [pd.to_csv]; for a .json file it registers the
    new table and returns. In both cases the file tree is the one of
    before the call. *)
Theorem modify_manifest_csv_json_not_saved
    (fname folder dest description : string) (s : State) (path ext : string)
    (df : pd.DataFrame) (m : Metadata) (p0 : string) (r0 : nat)
    (Hfind : find_manifest folder s = Ret (path, ext, df) s)
    (Hcol : "filename" ∈ pd.columns df)
    (Hm : _metadata s !! "manifest" = Some m)
    (Hd : _dataset s !! "manifest" = Some (Tabular p0 r0)) :
  exists df',
    upsert df
      (manifest_row (manifest_filename folder dest fname) (clock s (ticks s))
         description fname)
      (manifest_filename folder dest fname) (clock s (ticks s)) = inr df'
    /\ disk (registered s m p0 df') = disk s
    /\ (ext = ".csv" ->
        _modify_manifest fname folder dest description s
        = Raise AttributeError (registered s m p0 df'))
    /\ (ext = ".json" ->
        _modify_manifest fname folder dest description s
        = Ret tt (registered s m p0 df')).
Proof.
  destruct (upsert_total df
              (manifest_row (manifest_filename folder dest fname) (clock s (ticks s))
                 description fname)
              (manifest_filename folder dest fname) (clock s (ticks s)) Hcol) as [df' Hup].
  exists df'. split; [exact Hup|]. split; [done|].
  rewrite (modify_manifest_run fname folder dest description s path ext df df' m p0 r0
             Hfind Hup Hm Hd).
  split.
  - intros ->. unfold save_manifest. rewrite decide_False by done.
    by rewrite decide_True.
  - intros ->. unfold save_manifest. rewrite !decide_False by done.
    rewrite decide_True by done.
    destruct (find_manifest_Ret _ _ _ _ _ _ Hfind) as [_ Hfound].
    inversion Hfound as [files f rest cols rows Hl Hfl He Hr Hp Hext Hdf|]; subst.
    unfold bind, read_json, read_table.
    change (disk (registered s m p0 df')) with (disk s). by rewrite Hr.
Qed.

End saving.

(** The theorem at a dataset whose manifest is manifest.csv. *)
Lemma modify_manifest_csv_json_not_saved_witness :
  exists df',
    disk (registered example.csv_state (mkMetadata "manifest" 0 "/c") "/c/manifest.csv" df')
    = example.csv_tree
    /\ _modify_manifest "a.txt" "/c" "/c/primary" "a file" example.csv_state
       = Raise AttributeError
           (registered example.csv_state (mkMetadata "manifest" 0 "/c") "/c/manifest.csv" df').
Proof.
  destruct (modify_manifest_csv_json_not_saved "a.txt" "/c" "/c/primary" "a file"
              example.csv_state "/c/manifest.csv" ".csv" (pd.empty manifest_columns)
              (mkMetadata "manifest" 0 "/c") "/c/manifest.csv" 0%nat
              eq_refl ltac:(by_compute) eq_refl eq_refl)
    as (df' & _ & Hdisk & Hcsv & _).
  exists df'. split; [exact Hdisk|exact (Hcsv eq_refl)].
Defined.

(** ** Normal paths *)

Section normal_paths.

Lemma contains_sep_cons c w :
  pystr.contains "/" (String c w) = bool_decide ("/"%char = c) || pystr.contains "/" w.
Proof.
  cbn [pystr.contains pystr.startswith].
  destruct (decide ("/"%char = c)) as [H|H].
  - rewrite (bool_decide_eq_true_2 _ H). by destruct w.
  - by rewrite (bool_decide_eq_false_2 _ H).
Qed.

Lemma split_elems (s : string) :
  Forall (fun w => pystr.contains "/" w = false) (ospath.split "/" s).
Proof.
  induction s as [|c s IH]; [by repeat constructor|].
  cbn [ospath.split]. destruct (decide (c = "/"%char)) as [->|Hc].
  - by constructor.
  - destruct (ospath.split "/" s) as [|w ws]; constructor.
    + rewrite contains_sep_cons. by rewrite bool_decide_eq_false_2.
    + constructor.
    + apply Forall_cons in IH as [Hw _]. rewrite contains_sep_cons, Hw.
      by rewrite bool_decide_eq_false_2.
    + by apply Forall_cons in IH as [_ Hws].
Qed.

Lemma join_cons (w : string) (l : list string) :
  l ≠ [] -> py.join "/" (w :: l) = w +:+ String "/" (py.join "/" l).
Proof. by destruct l. Qed.

Lemma split_join (l : list string) :
  l ≠ [] -> Forall (fun w => pystr.contains "/" w = false) l ->
  ospath.split "/" (py.join "/" l) = l.
Proof.
  induction l as [|w l IH]; [done|]. intros _ [Hw Hl]%Forall_cons.
  destruct (decide (l = [])) as [->|Hne].
  - simpl. by apply split_no_sep.
  - rewrite join_cons by done. rewrite split_app_sep, split_no_sep by done.
    by rewrite IH.
Qed.

Lemma parts_elems (p : string) :
  Forall (fun w => pystr.contains "/" w = false /\ w ≠ "" /\ w ≠ ".") (ospath.parts p).
Proof.
  unfold ospath.parts. apply Forall_forall. intros w [Hw Hin]%list_elem_of_filter.
  split; [|done]. pose proof (split_elems p) as H. rewrite Forall_forall in H. by apply H.
Qed.

Lemma filter_all {A} (P : A -> Prop) `{forall x, Decision (P x)} (l : list A) :
  Forall P l -> filter P l = l.
Proof.
  induction 1 as [|x l Hx _ IH]; [done|]. by rewrite filter_cons, decide_True, IH.
Qed.

Lemma parts_join_parts (p : string) :
  ospath.parts (py.join "/" (ospath.parts p)) = ospath.parts p.
Proof.
  pose proof (parts_elems p) as H. set (l := ospath.parts p) in *.
  destruct (decide (l = [])) as [->|Hne]; [done|].
  unfold ospath.parts at 1. rewrite split_join; [|done|].
  - apply filter_all. eapply Forall_impl; [exact H|]. by intros w (_ & ? & ?).
  - eapply Forall_impl; [exact H|]. by intros w (? & _).
Qed.

Lemma join_parts_empty (p : string) :
  py.join "/" (ospath.parts p) = "" -> ospath.parts p = [].
Proof.
  pose proof (parts_elems p) as H. destruct (ospath.parts p) as [|w l]; [done|].
  apply Forall_cons in H as [(_ & Hw & _) _]. destruct l as [|w' l]; simpl.
  - done.
  - intros Heq. destruct w; [done|]. discriminate Heq.
Qed.

(** A path and its normal text have the same parts. *)
Lemma parts_Path (p : string) : ospath.parts (ospath.Path p) = ospath.parts p.
Proof.
  unfold ospath.Path. set (J := py.join "/" (ospath.parts p)).
  assert (ospath.parts J = ospath.parts p) as HJ by apply parts_join_parts.
  assert (ospath.anchor p = "" \/ ospath.anchor p = "/" \/ ospath.anchor p = "//") as Ha.
  { unfold ospath.anchor. repeat destruct (pystr.startswith _ p); auto. }
  destruct Ha as [-> | [-> | ->]].
  - change ("" +:+ J) with J. destruct (decide (J = "")) as [HE|HE]; [|done].
    by rewrite (join_parts_empty p HE).
  - change ("/" +:+ J) with ("" +:+ String "/" J). rewrite decide_False.
    + by rewrite parts_app_sep, HJ.
    + done.
  - change ("//" +:+ J) with ("" +:+ String "/" (String "/" J)). rewrite decide_False.
    + rewrite parts_app_sep. change (String "/" J) with ("" +:+ String "/" J).
      by rewrite parts_app_sep, HJ.
    + done.
Qed.

Lemma resolve_Path (p : string) : ospath.resolve (ospath.Path p) = ospath.resolve p.
Proof. unfold ospath.resolve. by rewrite parts_Path. Qed.

End normal_paths.

(** ** Setting the version *)

Section versions.

Lemma map_chars_cons f v a rest :
  pystr.map_chars f v = String a rest ->
  exists c v', v = String c v' /\ f c = a /\ pystr.map_chars f v' = rest.
Proof. destruct v as [|c v']; [done|]. simpl. intros [= <- <-]. by eexists _, _. Qed.

Lemma map_chars_nil f v : pystr.map_chars f v = EmptyString -> v = EmptyString.
Proof. by destruct v. Qed.

Lemma dot_to_underscore_inv c a :
  dot_to_underscore c = a ->
  (a = "_"%char /\ (c = "."%char \/ c = "_"%char)) \/ (a ≠ "_"%char /\ c = a).
Proof.
  unfold dot_to_underscore. destruct (decide (c = "."%char)) as [->|Hc]; intros <-.
  - left. by split; [|left].
  - destruct (decide (c = "_"%char)) as [->|]; [left|right]; by auto.
Qed.

(** One character of a text taken off an equation on its image. *)
Ltac peel H :=
  let c := fresh "c" in
  let v := fresh "v" in
  let Hc := fresh "Hc" in
  apply map_chars_cons in H as (c & v & -> & Hc & H);
  let Ha := fresh "Ha" in
  apply dot_to_underscore_inv in Hc as [[Ha [-> | ->]] | [Ha ->]];
  try congruence; clear Ha.

Lemma normal_form_2_0_0 v :
  _convert_version_format v = "2_0_0"
  <-> v ∈ ["2.0.0"; "2.0_0"; "2_0.0"; "2_0_0"; "2"].
Proof.
  split.
  - rewrite convert_version_format_unfold. cbv zeta.
    destruct (pystr.contains "_" _) eqn:Hu.
    + intros H. clear Hu. do 5 peel H; apply map_chars_nil in H as ->; by_compute.
    + destruct (pystr.map_chars dot_to_underscore v) as [|a [|b m]] eqn:Hm; intros H.
      * done.
      * injection H as ->. peel Hm. apply map_chars_nil in Hm as ->. by_compute.
      * injection H as -> -> _. by vm_compute in Hu.
  - intros H. repeat (apply elem_of_cons in H as [-> | H]; [by vm_compute|]).
    by apply elem_of_nil in H.
Qed.

Lemma normal_form_1_2_3 v :
  _convert_version_format v = "1_2_3"
  <-> v ∈ ["1.2.3"; "1.2_3"; "1_2.3"; "1_2_3"].
Proof.
  split.
  - rewrite convert_version_format_unfold. cbv zeta.
    destruct (pystr.contains "_" _) eqn:Hu.
    + intros H. clear Hu. do 5 peel H; apply map_chars_nil in H as ->; by_compute.
    + destruct (pystr.map_chars dot_to_underscore v) as [|a [|b m]] eqn:Hm; intros H.
      * done.
      * done.
      * injection H as -> -> _. by vm_compute in Hu.
  - intros H. repeat (apply elem_of_cons in H as [-> | H]; [by vm_compute|]).
    by apply elem_of_nil in H.
Qed.

(** [set_version] takes the versions whose normal form is 2_0_0 or
    1_2_3, nine texts in all, and sets the two identifier columns for
    them. For any other text it raises the [ValueError] of an
    unsupported version, and the dataset is left with that version and
    with the identifier columns of the version before. *)
Theorem set_version_supported (v : string) (s : State) :
  (v ∈ ["2.0.0"; "2.0_0"; "2_0.0"; "2_0_0"; "2"] ->
   set_version v s
   = Ret tt (with_id_fields (Some "subject id") (Some "sample id") (with_version "2_0_0" s)))
  /\ (v ∈ ["1.2.3"; "1.2_3"; "1_2.3"; "1_2_3"] ->
      set_version v s
      = Ret tt (with_id_fields (Some "subject_id") (Some "sample_id")
                  (with_version "1_2_3" s)))
  /\ (v ∉ ["2.0.0"; "2.0_0"; "2_0.0"; "2_0_0"; "2"; "1.2.3"; "1.2_3"; "1_2.3"; "1_2_3"] ->
      exists s',
        set_version v s
        = Raise (ValueError ("Unsupported version " +:+ _convert_version_format v)) s'
        /\ _version s' = _convert_version_format v
        /\ _subject_id_field s' = _subject_id_field s
        /\ _sample_id_field s' = _sample_id_field s
        /\ s' = with_version (_convert_version_format v) s).
Proof.
  unfold set_version, bind, modify, _set_version_specific_variables.
  split; [|split].
  - intros H%normal_form_2_0_0. rewrite H. by rewrite decide_True.
  - intros H%normal_form_1_2_3. rewrite H. rewrite decide_False by done.
    by rewrite decide_True.
  - intros H. rewrite !decide_False.
    + eexists. split; [reflexivity|]. done.
    + rewrite normal_form_1_2_3. intros Hin. apply H.
      rewrite !elem_of_cons in Hin. rewrite !elem_of_cons. tauto.
    + rewrite normal_form_2_0_0. intros Hin. apply H.
      rewrite !elem_of_cons in Hin. rewrite !elem_of_cons. tauto.
Qed.

End versions.

(** The theorem at the example dataset: the version 3.0 is refused
    and stays. *)
Lemma set_version_supported_witness :
  set_version "2" example.state
  = Ret tt (with_id_fields (Some "subject id") (Some "sample id")
              (with_version "2_0_0" example.state))
  /\ exists s',
       set_version "3.0" example.state = Raise (ValueError "Unsupported version 3_0") s'
       /\ _version s' = "3_0"
       /\ _subject_id_field s' = Some "subject id".
Proof.
  destruct (set_version_supported "2" example.state) as (H2 & _ & _).
  destruct (set_version_supported "3.0" example.state) as (_ & _ & H3).
  split; [apply H2; by_compute|].
  destruct H3 as (s' & Hr & Hv & Hsub & _); [by_compute|].
  exists s'. split; [exact Hr|]. split; [exact Hv|exact Hsub].
Defined.

(** ** Cells set by row *)

Section cells.
Implicit Types (df : pd.DataFrame) (s : State).

Lemma with_dataset_id s f e :
  _dataset s !! f = Some e -> with_dataset <[f := e]> s = s.
Proof. intros H. destruct s; unfold with_dataset; simpl in *. by rewrite insert_id. Qed.

Lemma entry_loaded s f e : _dataset s !! f = Some e -> _dataset s ≠ ∅.
Proof. intros H Heq. by rewrite Heq, lookup_empty in H. Qed.

Lemma entry_metadata_ok s f p r :
  _dataset s !! f = Some (Tabular p r) -> entry_metadata f s = Ret r s.
Proof. unfold entry_metadata, bind, get. by intros ->. Qed.

Lemma set_field_run s f p r df k header value :
  _dataset s !! f = Some (Tabular p r) ->
  heap s !! r = Some df ->
  py.is_scalar value = true ->
  set_field f (PInt k) header value s
  = Ret tt (with_heap <[r := pd.assign df (k - 2) header value]> s).
Proof.
  intros Hf Hdf Hv. unfold set_field.
  rewrite (bind_Ret _ _ _ _ _ (require_loaded_ok _ (entry_loaded _ _ _ Hf))).
  rewrite (bind_Ret _ _ _ _ _ (entry_metadata_ok _ _ _ _ Hf)).
  cbn [py.as_int].
  assert (reraise_ValueError (loc_assign r (k - 2) header value)
            "Value error. row does not exists." s
          = Ret tt (with_heap <[r := pd.assign df (k - 2) header value]> s)) as Hstep.
  { unfold reraise_ValueError, loc_assign, bind, deref, lift, pd.loc_set.
    by rewrite Hdf, Hv. }
  rewrite (bind_Ret _ _ _ _ _ Hstep).
  erewrite set_entry_metadata_ok by exact Hf.
  by rewrite with_dataset_id.
Qed.

(** [set_field] with an [int] row index whose label [row_index - 2]
    is a 64-bit integer, the labels an integer index holds, does not
    report a missing row. On a loaded table [df] and for a scalar value
    it returns with the table changed in place: when the label is in
    the index, the rows of that label get the value in the cell of the
    header and nothing else changes, so the number of rows is the
    same; when the label is not in the index, the table grows by a last
    row of that label that holds the value and nothing else. In both
    cases a header that is not a column becomes the last column. *)
Theorem set_field_cell_or_new_row s f p r df (row_index : Z) (header : string)
    (value : pyval)
    (Hf : _dataset s !! f = Some (Tabular p r))
    (Hdf : heap s !! r = Some df)
    (Hv : py.is_scalar value = true)
    (Hlabel : (- 2 ^ 63 <= row_index - 2 < 2 ^ 63)%Z) :
  exists df',
    set_field f (PInt row_index) header value s = Ret tt (with_heap <[r := df']> s)
    /\ pd.columns df' = pd.add_column header (pd.columns df)
    /\ ((row_index - 2)%Z ∈ pd.index df ->
        length (pd.body df') = length (pd.body df)
        /\ pd.index df' = pd.index df
        /\ pd.body df'
           = (fun lr => if decide (lr.1 = (row_index - 2)%Z)
                        then (lr.1, pd.set_in_row header value lr.2) else lr) <$> pd.body df)
    /\ ((row_index - 2)%Z ∉ pd.index df ->
        pd.body df' = pd.body df ++ [((row_index - 2)%Z, pd.set_in_row header value ∅)]).
Proof.
  exists (pd.assign df (row_index - 2) header value).
  split; [by eapply set_field_run|]. split; [done|]. split.
  - intros Hin. split; [|split].
    + unfold pd.assign. cbn [pd.body]. rewrite decide_True by done. by rewrite length_fmap.
    + by apply index_assign_in.
    + unfold pd.assign. cbn [pd.body]. by rewrite decide_True.
  - intros Hout. unfold pd.assign. cbn [pd.body]. by rewrite decide_False.
Qed.

Lemma filter_fmap_fst_in (P : Z * gmap string pyval -> Prop) `{forall x, Decision (P x)}
    (b : list (Z * gmap string pyval)) i ri :
  (i, ri) ∈ filter P b -> i ∈ b.*1.
Proof.
  intros [_ Hin]%list_elem_of_filter. by apply (list_elem_of_fmap_2 fst _ (i, ri)).
Qed.

(** [set_field_using_row_name] on a loaded table [df] with a first
    column: the rows whose first-column cell is the name are looked up.
    With none, or with more than one, the method raises its
    [ValueError] and nothing is changed. With exactly one, labelled
    [i], the value goes to the cell of the header in the rows labelled
    [i], in place; no row is added, whatever the label is. *)
Theorem set_field_using_row_name_one_row s f p r df (c0 : string) (cols : list string)
    (row_name header : string) (value : pyval)
    (Hf : _dataset s !! f = Some (Tabular p r))
    (Hdf : heap s !! r = Some df)
    (Hcols : pd.columns df = c0 :: cols)
    (Hv : py.is_scalar value = true) :
  let hits := filter (fun lr => pd.cell_eqb (lr.2 !! c0) (PStr row_name) = true) (pd.body df) in
  (hits = [] ->
   set_field_using_row_name f (PStr row_name) header value s
   = Raise (ValueError ("No row with given unique name, " +:+ row_name
                          +:+ ", was found in the unique column " +:+ c0)) s)
  /\ (forall i ri,
         hits = [(i, ri)] ->
         exists df',
           set_field_using_row_name f (PStr row_name) header value s
           = Ret tt (with_heap <[r := df']> s)
           /\ pd.index df' = pd.index df
           /\ pd.body df'
              = (fun lr => if decide (lr.1 = i)
                           then (lr.1, pd.set_in_row header value lr.2) else lr)
                  <$> pd.body df)
  /\ ((2 <= length hits)%nat ->
      set_field_using_row_name f (PStr row_name) header value s
      = Raise (ValueError ("More than one row with given unique name, " +:+ row_name
                             +:+ ", was found in the unique column " +:+ c0)) s).
Proof.
  intros hits.
  assert (set_field_using_row_name f (PStr row_name) header value s
            = match hits.*1 with
            | [] =>
                   raise (ValueError ("No row with given unique name, " +:+ row_name
                            +:+ ", was found in the unique column " +:+ c0)) s
               | [i] => set_field f (PInt (i + 2)) header value s
               | _ :: _ :: _ =>
                   raise (ValueError ("More than one row with given unique name, "
                            +:+ row_name +:+ ", was found in the unique column " +:+ c0)) s
               end) as Hrun.
  { unfold set_field_using_row_name.
    rewrite (bind_Ret _ _ _ _ _ (require_loaded_ok _ (entry_loaded _ _ _ Hf))).
    rewrite (bind_Ret _ _ _ _ _ (entry_metadata_ok _ _ _ _ Hf)).
    rewrite (bind_Ret _ _ _ _ _ (deref_ok _ _ _ Hdf)). rewrite Hcols.
    unfold pd.eq_mask. rewrite decide_True by (rewrite Hcols; by left).
    cbn [lift]. unfold bind at 1, ret at 1.
    rewrite index_where_mask. fold hits.
    by destruct (hits.*1) as [|i [|j l]]. }
  split; [|split].
  - intros H0. by rewrite Hrun, H0.
  - intros i ri H1. rewrite Hrun, H1. cbn [fmap list_fmap fst].
    assert (i ∈ pd.index df) as Hin.
    { apply (filter_fmap_fst_in
               (fun lr => pd.cell_eqb (lr.2 !! c0) (PStr row_name) = true) (pd.body df) i ri).
      fold hits. rewrite H1. by left. }
    exists (pd.assign df i header value). split.
    + rewrite (set_field_run s f p r df (i + 2) header value Hf Hdf Hv).
      by replace (i + 2 - 2)%Z with i by lia.
    + split; [by apply index_assign_in|].
      unfold pd.assign. cbn [pd.body]. by rewrite decide_True.
  - intros H2. rewrite Hrun. destruct hits as [|h1 [|h2 l]]; simpl in H2; try lia. done.
Qed.


Lemma lookup_fresh_heap s : heap s !! fresh (dom (heap s)) = None.
Proof. apply not_elem_of_dom. apply is_fresh. Qed.

(** [add_element] on a loaded table [df]. For a document that is
    column based, a new table, [df] with one more row that holds the
    element in "Metadata element", becomes the table of the dataset
    entry; the table [df] itself is not changed, so an editor on it
    does not see the element. For any other document the table is
    changed in place: the element is a column (the last one when it is
    new) and no row has a value in it, also when the column was there
    with values; the other cells stay. *)
Theorem add_element_row_or_column s f p r df (element : string)
    (Hf : _dataset s !! f = Some (Tabular p r))
    (Hdf : heap s !! r = Some df) :
  (f ∈ column_based ->
   exists r' df',
     add_element f element s
     = Ret tt (with_dataset <[f := Tabular p r']> (with_heap <[r' := df']> s))
     /\ heap s !! r' = None
     /\ pd.columns df' = pd.add_column "Metadata element" (pd.columns df)
     /\ (pd.body df').*2
        = (pd.body df).*2 ++ [{[ "Metadata element" := PStr element ]}])
  /\ (f ∉ column_based ->
      exists df',
        add_element f element s = Ret tt (with_heap <[r := df']> s)
        /\ pd.columns df' = pd.add_column element (pd.columns df)
        /\ pd.index df' = pd.index df
        /\ (forall lr, lr ∈ pd.body df' -> lr.2 !! element = None)
        /\ (forall c, c ≠ element ->
                      pd.column_cells df' c = pd.column_cells df c)).
Proof.
  split; intros Hcb; unfold add_element;
    rewrite (bind_Ret _ _ _ _ _ (entry_metadata_ok _ _ _ _ Hf)).
  - rewrite decide_True by done.
    rewrite (bind_Ret _ _ _ _ _ (deref_ok _ _ _ Hdf)).
    unfold bind at 1, alloc at 1.
    eexists _, _. split; [by erewrite set_entry_metadata_ok by exact Hf|].
    split; [apply lookup_fresh_heap|]. split; [done|].
    unfold pd.concat_row. cbn [pd.body]. by rewrite relabel_snd.
  - rewrite decide_False by done.
    rewrite (bind_Ret _ _ _ _ _ (deref_ok _ _ _ Hdf)).
    unfold bind at 1, store at 1, modify at 1.
    eexists. split.
    { erewrite set_entry_metadata_ok by exact Hf. by rewrite with_dataset_id. }
    split; [done|]. split; [|split].
    + unfold pd.set_column_none, pd.index. cbn [pd.body].
      rewrite <- list_fmap_compose. by apply list_fmap_ext.
    + intros lr (lr0 & -> & _)%list_elem_of_fmap. simpl. apply lookup_delete_eq.
    + intros c Hc. unfold pd.column_cells, pd.set_column_none. cbn [pd.body].
      rewrite <- list_fmap_compose. apply list_fmap_ext. intros _ lr _. simpl.
      by rewrite lookup_delete_ne.
Qed.

(** An element added to a column-based document is lost by the next
    [append]: [append] works on the table of the editor, which
    [add_element] left as it was, and makes its outcome the table of
    the dataset entry. After the two calls the entry's table is the
    first table with the appended row and without the element. *)
Theorem add_element_lost_by_append
    (validate : string -> string -> exn + string)
    s f f' p (m : Metadata) df (element : string) (row : list (string * pyval))
    (Hcb : f ∈ column_based)
    (Hf : _dataset s !! f = Some (Tabular p (data m)))
    (Hval : validate f (_version s) = inr f')
    (Hed : _metadata s !! f' = Some m)
    (Hdf : heap s !! data m = Some df) :
  exists s1 r1 s2 r2,
    add_element f element s = Ret tt s1
    /\ _dataset s1 !! f = Some (Tabular p r1)
    /\ heap s1 !! r1 = Some (pd.concat_row df [("Metadata element", PStr element)])
    /\ append validate f row false None s1 = Ret tt s2
    /\ _dataset s2 !! f = Some (Tabular p r2)
    /\ heap s2 !! r2 = Some (pd.concat_row df row).
Proof.
  set (r1 := fresh (dom (heap s))).
  set (df1 := pd.concat_row df [("Metadata element", PStr element)]).
  set (s1 := with_dataset <[f := Tabular p r1]> (with_heap <[r1 := df1]> s)).
  assert (add_element f element s = Ret tt s1) as Hadd.
  { unfold add_element. rewrite (bind_Ret _ _ _ _ _ (entry_metadata_ok _ _ _ _ Hf)).
    rewrite decide_True by done.
    rewrite (bind_Ret _ _ _ _ _ (deref_ok _ _ _ Hdf)).
    unfold bind at 1, alloc at 1. by erewrite set_entry_metadata_ok by exact Hf. }
  assert (data m ≠ r1) as Hne.
  { intros Heq. pose proof (lookup_fresh_heap s) as Hfr. fold r1 in Hfr.
    rewrite <- Heq in Hfr. congruence. }
  assert (_dataset s1 !! f = Some (Tabular p r1)) as Hf1 by apply lookup_insert_eq.
  assert (heap s1 !! data m = Some df) as Hdf1.
  { unfold s1. simpl. by rewrite lookup_insert_ne. }
  exists s1, r1. eexists _, (fresh (dom (heap s1))).
  split; [exact Hadd|]. split; [exact Hf1|].
  split; [apply lookup_insert_eq|].
  split.
  { rewrite (append_prefix validate s1 f f' p m r1 Hf1 Hval Hed).
    unfold bind at 1, ret at 1.
    apply (append_new_run s1 f f' p m df r1 Hf1 Hed Hdf1). }
  split; simpl; apply lookup_insert_eq.
Qed.

End cells.

(** The theorem at the example dataset: row index 7 of the subjects
    table, which has the one row labelled 0. *)
Lemma set_field_cell_or_new_row_witness :
  exists df',
    set_field "subjects" (PInt 7) "age" (PStr "v") example.state
    = Ret tt (with_heap <[1%nat := df']> example.state)
    /\ pd.body df' = pd.body example.subjects ++ [(5%Z, pd.set_in_row "age" (PStr "v") ∅)].
Proof.
  destruct (set_field_cell_or_new_row example.state "subjects" "/ds/subjects.xlsx" 1%nat
              example.subjects 7 "age" (PStr "v") eq_refl eq_refl eq_refl ltac:(lia))
    as (df' & Hrun & _ & _ & Hnew).
  exists df'. split; [exact Hrun|]. apply Hnew. by_compute.
Defined.

(** The theorem at the example dataset: the subject sub-1 by its
    name. *)
Lemma set_field_using_row_name_one_row_witness :
  exists df',
    set_field_using_row_name "subjects" (PStr "sub-1") "age" (PStr "31") example.state
    = Ret tt (with_heap <[1%nat := df']> example.state)
    /\ pd.index df' = [0%Z].
Proof.
  destruct (set_field_using_row_name_one_row example.state "subjects" "/ds/subjects.xlsx"
              1%nat example.subjects "subject id" ["age"] "sub-1" "age" (PStr "31")
              eq_refl eq_refl eq_refl eq_refl)
    as (_ & Hone & _).
  destruct (Hone 0%Z {[ "subject id" := PStr "sub-1"; "age" := PStr "30" ]} eq_refl)
    as (df' & Hrun & Hidx & _).
  exists df'. split; [exact Hrun|exact Hidx].
Defined.

(** The theorem at the example dataset: an element of the
    dataset_description document and a column of the subjects
    document. *)
Lemma add_element_row_or_column_witness :
  (exists r' df',
      add_element "dataset_description" "Title" example.state
      = Ret tt (with_dataset <["dataset_description"
                                 := Tabular "/ds/dataset_description.xlsx" r']>
                  (with_heap <[r' := df']> example.state))
      /\ heap example.state !! r' = None)
  /\ (exists df',
         add_element "subjects" "age" example.state
         = Ret tt (with_heap <[1%nat := df']> example.state)
         /\ forall lr, lr ∈ pd.body df' -> lr.2 !! "age" = None).
Proof.
  split.
  - destruct (add_element_row_or_column example.state "dataset_description"
                "/ds/dataset_description.xlsx" 2%nat example.description "Title"
                eq_refl eq_refl) as [Hrow _].
    destruct Hrow as (r' & df' & Hrun & Hnew & _); [by_compute|].
    exists r', df'. split; [exact Hrun|exact Hnew].
  - destruct (add_element_row_or_column example.state "subjects" "/ds/subjects.xlsx"
                1%nat example.subjects "age" eq_refl eq_refl) as [_ Hcol].
    destruct Hcol as (df' & Hrun & _ & _ & Hnone & _); [by_compute|].
    exists df'. split; [exact Hrun|exact Hnone].
Defined.

(** The theorem at the example dataset. *)
Lemma add_element_lost_by_append_witness :
  exists s1 r1 s2 r2,
    add_element "dataset_description" "Title" example.state = Ret tt s1
    /\ _dataset s1 !! "dataset_description"
       = Some (Tabular "/ds/dataset_description.xlsx" r1)
    /\ heap s1 !! r1
       = Some (pd.concat_row example.description [("Metadata element", PStr "Title")])
    /\ append example.validate "dataset_description" [("Value", PStr "v")] false None s1
       = Ret tt s2
    /\ _dataset s2 !! "dataset_description"
       = Some (Tabular "/ds/dataset_description.xlsx" r2)
    /\ heap s2 !! r2 = Some (pd.concat_row example.description [("Value", PStr "v")]).
Proof.
  exact (add_element_lost_by_append example.validate example.state
           "dataset_description" "dataset_description" "/ds/dataset_description.xlsx"
           (mkMetadata "dataset_description" 2 "/ds") example.description "Title"
           [("Value", PStr "v")] ltac:(by_compute) eq_refl eq_refl eq_refl eq_refl).
Defined.

(** ** Loading a directory *)

Section loading.
Implicit Types (df : pd.DataFrame) (s : State).

(** What [_load] keeps of a spreadsheet: the columns whose name does
    not start with "Unnamed"; the rows that have a value in some column
    of the sheet, each under the label it had, with its cells in the
    columns kept. So a row keeps the number it has in the sheet, and a
    blank row leaves a gap in the labels. *)
Theorem cleaned_keeps_labels df :
  pd.columns (cleaned df)
  = filter (fun c => pystr.startswith "Unnamed" c = false) (pd.columns df)
  /\ pd.index (cleaned df)
     = (filter (fun lr => pd.has_value (pd.columns df) lr.2 = true) (pd.body df)).*1
  /\ (forall i r',
         (i, r') ∈ pd.body (cleaned df)
         <-> exists r,
             (i, r) ∈ pd.body df
             /\ (exists c, c ∈ pd.columns df /\ is_Some (r !! c))
             /\ r' = filter (fun kv => pystr.startswith "Unnamed" kv.1 = false) r)
  /\ (forall i r' c,
         (i, r') ∈ pd.body (cleaned df) ->
         pystr.startswith "Unnamed" c = true -> r' !! c = None).
Proof.
  assert (forall c, negb (pystr.startswith "Unnamed" c) = true
                    <-> pystr.startswith "Unnamed" c = false) as Hneg.
  { intros c. by destruct (pystr.startswith _ _). }
  assert (forall r : gmap string pyval,
             filter (fun kv => negb (pystr.startswith "Unnamed" kv.1) = true) r
             = filter (fun kv => pystr.startswith "Unnamed" kv.1 = false) r) as Hmap.
  { intros r. apply map_filter_ext. intros k v _. apply Hneg. }
  assert (forall i r',
             (i, r') ∈ pd.body (cleaned df)
             <-> exists r,
                 (i, r) ∈ pd.body df
                 /\ (exists c, c ∈ pd.columns df /\ is_Some (r !! c))
                 /\ r' = filter (fun kv => pystr.startswith "Unnamed" kv.1 = false) r)
    as Hrows.
  { intros i r'. unfold cleaned, pd.select_columns, pd.dropna_all. cbn [pd.body pd.columns].
    rewrite list_elem_of_fmap. split.
    - intros ([i0 r] & [= -> ->] & [Hv Hin]%list_elem_of_filter). exists r.
      split; [done|]. split; [|by rewrite Hmap].
      unfold pd.has_value in Hv. apply existsb_exists in Hv as (c & Hc & Hs).
      exists c. split; [by apply list_elem_of_In|]. by apply bool_decide_eq_true in Hs.
    - intros (r & Hin & (c & Hc & Hs) & ->). exists (i, r). split; [by rewrite Hmap|].
      apply list_elem_of_filter. split; [|done]. simpl.
      unfold pd.has_value. apply existsb_exists. exists c.
      split; [by apply list_elem_of_In|]. by apply bool_decide_eq_true. }
  split; [|split; [|split; [exact Hrows|]]].
  - unfold cleaned, pd.select_columns, pd.dropna_all. cbn [pd.columns].
    apply list_filter_iff. intros c. apply Hneg.
  - unfold cleaned, pd.select_columns, pd.dropna_all, pd.index. cbn [pd.body pd.columns].
    rewrite <- list_fmap_compose. by apply list_fmap_ext.
  - intros i r' c (r & _ & _ & ->)%Hrows Hc.
    apply map_lookup_filter_None. right. intros v _. cbn [fst]. congruence.
Qed.


(** The key [_load] files the entry [n] of the directory under. *)
Local Abbreviation load_key dir n :=
  (if decide (ospath.suffix (ospath.joinpath dir n) ∈ metadata_extensions)
   then ospath.stem (ospath.joinpath dir n)
   else ospath.name (ospath.joinpath dir n)).

Lemma load_entries_run dir : forall names dataset s,
  (forall n, n ∈ names ->
             ospath.suffix (ospath.joinpath dir n) ∈ metadata_extensions ->
             exists cols rows,
               fs.read (disk s) (ospath.joinpath dir n) = inr (fs.Sheet cols rows)) ->
  exists dataset' s',
    load_entries dir names dataset s = Ret dataset' s'
    /\ s' = with_heap (fun _ => heap s') s
    /\ heap s ⊆ heap s'
    /\ (forall k, (forall n, n ∈ names -> load_key dir n ≠ k) ->
                  dataset' !! k = dataset !! k)
    /\ (forall pre n post,
           names = pre ++ n :: post ->
           (forall n', n' ∈ post -> load_key dir n' ≠ load_key dir n) ->
           (ospath.suffix (ospath.joinpath dir n) ∈ metadata_extensions ->
            exists r cols rows,
              dataset' !! ospath.stem (ospath.joinpath dir n)
              = Some (Tabular (ospath.joinpath dir n) r)
              /\ fs.read (disk s) (ospath.joinpath dir n) = inr (fs.Sheet cols rows)
              /\ heap s' !! r = Some (cleaned (pd.mkDF cols (pd.relabel rows)))
              /\ heap s !! r = None)
           /\ (ospath.suffix (ospath.joinpath dir n) ∉ metadata_extensions ->
               dataset' !! ospath.name (ospath.joinpath dir n)
               = Some (Opaque (ospath.joinpath dir n)))).
Proof.
  induction names as [|n0 names IH]; intros dataset s Hsheets.
  { exists dataset, s. split; [done|]. split; [by destruct s|]. split; [done|].
    split; [done|]. intros pre n post Heq. by destruct pre. }
  cbn [load_entries].
  destruct (decide (ospath.suffix (ospath.joinpath dir n0) ∈ metadata_extensions))
    as [Hx|Hx].
  - destruct (Hsheets n0 ltac:(by left) Hx) as (cols & rows & Hread).
    set (df := cleaned (pd.mkDF cols (pd.relabel rows))).
    set (r := fresh (dom (heap s))).
    set (s1 := with_heap <[r := df]> s).
    set (dataset1 := <[ospath.stem (ospath.joinpath dir n0)
                        := Tabular (ospath.joinpath dir n0) r]> dataset).
    destruct (IH dataset1 s1) as (dataset' & s' & Hrun & Hs' & Hsub & Hout & Hin).
    { intros n Hn Hsuf. apply Hsheets; [by right|done]. }
    assert (heap s !! r = None) as Hfresh by (apply not_elem_of_dom, is_fresh).
    assert (heap s ⊆ heap s1) as Hsub1 by (by apply insert_subseteq).
    exists dataset', s'. split.
    { unfold bind at 1, read_excel, read_table. rewrite Hread.
      unfold bind at 1, alloc at 1. exact Hrun. }
    split; [by rewrite Hs'|]. split; [by etrans|]. split.
    { intros k Hk. rewrite Hout by (intros n Hn; apply Hk; by right).
      unfold dataset1. apply lookup_insert_ne.
      specialize (Hk n0 ltac:(by left)). by rewrite decide_True in Hk. }
    intros pre n post Heq Hlast. destruct pre as [|n1 pre].
    + injection Heq as <- <-. split; [|done]. intros _.
      exists r, cols, rows. split; [|split; [done|split; [|done]]].
      * rewrite Hout.
        -- apply lookup_insert_eq.
        -- intros n' Hn'. specialize (Hlast n' Hn'). by rewrite (decide_True _ _ Hx) in Hlast.
      * apply (lookup_weaken (heap s1)); [apply lookup_insert_eq|done].
    + injection Heq as <- ->. destruct (Hin pre n post eq_refl Hlast) as [Ht Ho].
      split; [|exact Ho]. intros Hsuf.
      destruct (Ht Hsuf) as (r' & cols' & rows' & Hd & Hrd & Hh & Hnone).
      exists r', cols', rows'. split; [done|]. split; [done|]. split; [done|].
      by apply (lookup_weaken_None (heap s) (heap s1)).
  - set (dataset1 := <[ospath.name (ospath.joinpath dir n0)
                        := Opaque (ospath.joinpath dir n0)]> dataset).
    destruct (IH dataset1 s) as (dataset' & s' & Hrun & Hs' & Hsub & Hout & Hin).
    { intros n Hn Hsuf. apply Hsheets; [by right|done]. }
    exists dataset', s'. split; [exact Hrun|]. split; [done|]. split; [done|]. split.
    { intros k Hk. rewrite Hout by (intros n Hn; apply Hk; by right).
      unfold dataset1. apply lookup_insert_ne.
      specialize (Hk n0 ltac:(by left)). by rewrite decide_False in Hk. }
    intros pre n post Heq Hlast. destruct pre as [|n1 pre].
    + injection Heq as <- <-. split; [done|]. intros _.
      rewrite Hout.
      * apply lookup_insert_eq.
      * intros n' Hn'. specialize (Hlast n' Hn'). by rewrite (decide_False _ _ Hx) in Hlast.
    + injection Heq as <- ->. apply (Hin pre n post eq_refl Hlast).
Qed.


(** [_load] on a directory whose spreadsheets can be read returns a
    dict and changes nothing but the frame objects, of which it makes
    new ones. Every key of the dict is the key of an entry of the
    directory: the stem of the name for a name that ends in .xlsx, the
    name itself for any other. The entry that is listed last under a
    key is the one the dict has: a spreadsheet with its path and a new
    frame that holds the cleaned table of the file, anything else with
    its path alone. *)
Theorem load_directory s (dir : string) (names : list string)
    (Hl : fs.listdir (disk s) (ospath.Path dir) = inr names)
    (Hsheets : forall n,
        n ∈ names ->
        ospath.suffix (ospath.joinpath (ospath.Path dir) n) ∈ metadata_extensions ->
        exists cols rows,
          fs.read (disk s) (ospath.joinpath (ospath.Path dir) n)
          = inr (fs.Sheet cols rows)) :
  exists dataset s',
    _load dir s = Ret dataset s'
    /\ s' = with_heap (fun _ => heap s') s
    /\ heap s ⊆ heap s'
    /\ (forall k, is_Some (dataset !! k) ->
                  exists n, n ∈ names /\ load_key (ospath.Path dir) n = k)
    /\ (forall pre n post,
           names = pre ++ n :: post ->
           (forall n', n' ∈ post ->
                       load_key (ospath.Path dir) n' ≠ load_key (ospath.Path dir) n) ->
           (ospath.suffix (ospath.joinpath (ospath.Path dir) n) ∈ metadata_extensions ->
            exists r cols rows,
              dataset !! ospath.stem (ospath.joinpath (ospath.Path dir) n)
              = Some (Tabular (ospath.joinpath (ospath.Path dir) n) r)
              /\ fs.read (disk s) (ospath.joinpath (ospath.Path dir) n)
                 = inr (fs.Sheet cols rows)
              /\ heap s' !! r = Some (cleaned (pd.mkDF cols (pd.relabel rows)))
              /\ heap s !! r = None)
           /\ (ospath.suffix (ospath.joinpath (ospath.Path dir) n) ∉ metadata_extensions ->
               dataset !! ospath.name (ospath.joinpath (ospath.Path dir) n)
               = Some (Opaque (ospath.joinpath (ospath.Path dir) n)))).
Proof.
  destruct (load_entries_run (ospath.Path dir) names ∅ s Hsheets)
    as (dataset & s' & Hrun & Hs' & Hsub & Hout & Hin).
  exists dataset, s'. split.
  { unfold _load, bind, os_listdir. rewrite Hl. exact Hrun. }
  split; [exact Hs'|]. split; [exact Hsub|]. split; [|exact Hin].
  intros k Hk.
  destruct (decide (Exists (fun n => load_key (ospath.Path dir) n = k) names)) as [Hex|Hno].
  - apply Exists_exists in Hex as (n & Hn & Hkey). by exists n.
  - exfalso. rewrite Hout in Hk.
    + rewrite lookup_empty in Hk. by destruct Hk.
    + intros n Hn Hkey. apply Hno. apply Exists_exists. by exists n.
Qed.

(** [load_metadata] files the table of a spreadsheet, as it is read,
    under the stem of its name in the dataset dict; the editors are
    not told. The next [append] to that document still works on the
    editor's table and makes its outcome the entry's table: the table
    that was loaded is dropped. *)
Theorem load_metadata_lost_by_append
    (validate : string -> string -> exn + string)
    s (path f f' : string) (m : Metadata) df cols rows (row : list (string * pyval))
    (Hread : fs.read (disk s) (ospath.Path path) = inr (fs.Sheet cols rows))
    (Hstem : ospath.stem (ospath.Path path) = f)
    (Hval : validate f (_version s) = inr f')
    (Hed : _metadata s !! f' = Some m)
    (Hdf : heap s !! data m = Some df) :
  exists r1 s1 s2 r2,
    load_metadata path s = Ret r1 s1
    /\ _dataset s1 !! f = Some (Tabular (ospath.Path path) r1)
    /\ heap s1 !! r1 = Some (pd.mkDF cols (pd.relabel rows))
    /\ _metadata s1 = _metadata s
    /\ append validate f row false None s1 = Ret tt s2
    /\ _dataset s2 !! f = Some (Tabular (ospath.Path path) r2)
    /\ heap s2 !! r2 = Some (pd.concat_row df row).
Proof.
  set (r1 := fresh (dom (heap s))).
  set (s1 := with_dataset <[f := Tabular (ospath.Path path) r1]>
               (with_heap <[r1 := pd.mkDF cols (pd.relabel rows)]> s)).
  assert (load_metadata path s = Ret r1 s1) as Hload.
  { unfold load_metadata, bind at 1, read_excel, read_table. rewrite Hread.
    unfold bind at 1, alloc at 1. by rewrite Hstem. }
  assert (data m ≠ r1) as Hne.
  { intros Heq. assert (heap s !! r1 = None) as Hfr by (apply not_elem_of_dom, is_fresh).
    rewrite <- Heq in Hfr. congruence. }
  assert (_dataset s1 !! f = Some (Tabular (ospath.Path path) r1)) as Hf1
      by apply lookup_insert_eq.
  assert (heap s1 !! data m = Some df) as Hdf1.
  { unfold s1. simpl. by rewrite lookup_insert_ne. }
  exists r1, s1. eexists _, (fresh (dom (heap s1))).
  split; [exact Hload|]. split; [exact Hf1|].
  split; [apply lookup_insert_eq|]. split; [done|].
  split.
  { rewrite (append_prefix validate s1 f f' (ospath.Path path) m r1 Hf1 Hval Hed).
    unfold bind at 1, ret at 1.
    apply (append_new_run s1 f f' (ospath.Path path) m df r1 Hf1 Hed Hdf1). }
  split; simpl; apply lookup_insert_eq.
Qed.

End loading.

(** The theorem at the dataset /data of the examples: the manifest is
    read and cleaned, the primary folder is kept by its path. *)
Lemma load_directory_witness :
  exists dataset s' r,
    _load "/data" example.data_state = Ret dataset s'
    /\ dataset !! "manifest" = Some (Tabular "/data/manifest.xlsx" r)
    /\ heap s' !! r
       = Some (cleaned (pd.mkDF manifest_columns (pd.relabel [example.data_record])))
    /\ dataset !! "primary" = Some (Opaque "/data/primary").
Proof.
  destruct (load_directory example.data_state "/data" ["manifest.xlsx"; "primary"] eq_refl)
    as (dataset & s' & Hrun & _ & _ & _ & Hin).
  { intros n [->|[->|Hn]%elem_of_cons]%elem_of_cons Hsuf.
    - by eexists _, _.
    - exfalso. revert Hsuf. by_compute.
    - by apply elem_of_nil in Hn. }
  destruct (Hin [] "manifest.xlsx" ["primary"] eq_refl) as [Hm _].
  { intros n' ->%list_elem_of_singleton. by_compute. }
  destruct (Hin ["manifest.xlsx"] "primary" [] eq_refl) as [_ Hp].
  { intros n' Hn'. by apply elem_of_nil in Hn'. }
  destruct Hm as (r & cols & rows & Hd & Hrd & Hh & _); [by_compute|].
  exists dataset, s', r. split; [exact Hrun|]. split; [exact Hd|].
  split; [|apply Hp; by_compute].
  rewrite Hh. vm_compute in Hrd. by injection Hrd as <- <-.
Defined.

(** The theorem at the example dataset, for the manifest. *)
Lemma load_metadata_lost_by_append_witness :
  exists r1 s1 s2 r2,
    load_metadata "/ds/manifest.xlsx" example.state = Ret r1 s1
    /\ _dataset s1 !! "manifest" = Some (Tabular "/ds/manifest.xlsx" r1)
    /\ heap s1 !! r1 = Some (pd.mkDF manifest_columns (pd.relabel []))
    /\ _metadata s1 = _metadata example.state
    /\ append example.validate "manifest" [("filename", PStr "x")] false None s1 = Ret tt s2
    /\ _dataset s2 !! "manifest" = Some (Tabular "/ds/manifest.xlsx" r2)
    /\ heap s2 !! r2
       = Some (pd.concat_row (pd.empty manifest_columns) [("filename", PStr "x")]).
Proof.
  exact (load_metadata_lost_by_append example.validate example.state
           "/ds/manifest.xlsx" "manifest" "manifest" (mkMetadata "manifest" 0 "/ds")
           (pd.empty manifest_columns) manifest_columns [] [("filename", PStr "x")]
           eq_refl eq_refl eq_refl eq_refl eq_refl).
Defined.

(** ** The thumbnail *)

Section thumbnail.
Implicit Types (root : fs.node) (p q : list string) (s : State).

Lemma lookup_app_None q w root :
  fs.lookup q root = None -> fs.lookup (q ++ [w]) root = None.
Proof.
  revert root. induction q as [|c q IH]; intros root H; [done|].
  destruct root as [|es]; [done|]. change ((c :: q) ++ [w]) with (c :: (q ++ [w])).
  rewrite lookup_cons in *. destruct (fs.assoc c es); [by apply IH|done].
Qed.

(** Nothing can be put in a folder that is not there. *)
Lemma put_missing_parent q w o root :
  fs.lookup q root = None -> fs.put (q ++ [w]) o root = None.
Proof.
  revert root. induction q as [|c q IH]; intros root H; [done|].
  destruct root as [|es]; [apply put_file|].
  change ((c :: q) ++ [w]) with (c :: (q ++ [w])).
  rewrite put_cons by (by destruct q). rewrite lookup_cons in H.
  destruct (fs.assoc c es) as [ch|]; [|done]. by rewrite (IH ch H).
Qed.

(** Taking an entry out brings nothing in. *)
Lemma lookup_after_remove p q root root' :
  fs.put p None root = Some root' -> fs.lookup q root = None -> fs.lookup q root' = None.
Proof.
  revert q root root'. induction p as [|c p IH]; intros q root root' H Hq; [done|].
  destruct root as [|es]; [by rewrite put_file in H|].
  destruct q as [|c2 q]; [done|]. rewrite lookup_cons in Hq.
  destruct (decide (p = [])) as [->|Hp].
  - rewrite put_last in H. apply (inj Some) in H; subst root'. rewrite lookup_cons.
    destruct (decide (c = c2)) as [<-|Hne].
    + by rewrite assoc_set_entry_eq.
    + by rewrite assoc_set_entry_ne.
  - rewrite put_cons in H by done.
    destruct (fs.assoc c es) as [ch|] eqn:E; [|done].
    destruct (fs.put p None ch) as [ch'|] eqn:E'; [|done].
    apply (inj Some) in H; subst root'. rewrite lookup_cons.
    destruct (decide (c = c2)) as [<-|Hne].
    + rewrite assoc_set_entry_eq. rewrite E in Hq. by apply (IH q ch).
    + by rewrite assoc_set_entry_ne.
Qed.

Lemma exists_false_lookup root (path : string) :
  fs.exists_ root path = false <-> fs.lookup (ospath.resolve path) root = None.
Proof.
  unfold fs.exists_. rewrite bool_decide_eq_false, eq_None_not_Some. done.
Qed.

(** A move into a folder that is not there fails. *)
Lemma move_into_missing root (src dest w : string) :
  ospath.is_name w = true ->
  fs.lookup (ospath.resolve dest) root = None ->
  exists e, fs.move root src (ospath.join dest w) = inl e.
Proof.
  intros Hw Hd. unfold fs.move.
  destruct (fs.lookup (ospath.resolve src) root) as [n|]; [|by eexists].
  assert (fs.lookup (ospath.resolve (ospath.join dest w)) root = None) as Hdst.
  { rewrite resolve_join by done. by apply lookup_app_None. }
  unfold fs.isdir. rewrite Hdst. cbn [fs.is_dir_node andb].
  assert (exists e,
             match fs.put (ospath.resolve src) None root with
             | Some root1 =>
                 match fs.put (ospath.resolve (ospath.join dest w)) (Some n) root1 with
                 | Some root2 => inr root2
                 | None => inl FileNotFoundError
                 end
             | None => inl OSError
             end = inl e) as [e He].
  { destruct (fs.put (ospath.resolve src) None root) as [root1|] eqn:E; [|by eexists].
    rewrite resolve_join by done.
    rewrite (put_missing_parent _ w (Some n) root1); [by eexists|].
    by apply (lookup_after_remove _ _ _ _ E). }
  exists e. rewrite Hdst. by destruct n.
Qed.

(** What [_delete_data] leaves of a path that is there and is not the
    root: nothing. *)
Lemma delete_data_removes (path : string) s :
  fs.exists_ (disk s) path = true ->
  ospath.resolve path ≠ [] ->
  exists b d',
    _delete_data path s = Ret b (with_disk d' s)
    /\ fs.lookup (ospath.resolve path) d' = None.
Proof.
  intros He Hne. unfold _delete_data.
  assert (fs.exists_ (disk s) (ospath.Path path) = true) as He'.
  { unfold fs.exists_ in *. by rewrite resolve_Path. }
  unfold bind at 1, os_exists at 1. rewrite He'.
  unfold bind at 1, os_isfile at 1.
  unfold fs.exists_ in He. apply bool_decide_eq_true in He as [n Hn].
  assert (exists d', fs.remove (disk s) (ospath.Path path) = inr d'
                     /\ fs.lookup (ospath.resolve path) d' = None) as (d' & Hrm & Hgone).
  { unfold fs.remove. rewrite resolve_Path.
    destruct (put_is_Some (ospath.resolve path) None (disk s) Hne
                (lookup_parent_dir _ _ _ Hn Hne)) as [d' Hput].
    exists d'. rewrite Hput. split; [done|]. by apply (lookup_put_eq _ _ _ _ Hput). }
  unfold fs.isfile. rewrite resolve_Path, Hn.
  destruct n as [c|es]; cbn [fs.is_file_node].
  - exists true, d'. split; [|done].
    unfold bind, on_disk, fs.unlink. by rewrite resolve_Path, Hn, Hrm.
  - exists false, d'. split; [|done].
    unfold bind, on_disk, fs.rmtree. by rewrite resolve_Path, Hn, Hrm.
Qed.

(** [add_thumbnail] with [copy=False] never returns. For a source that
    ends in a file name the method raises whatever the state: the
    target of the move is the destination path with the file name
    joined to it once more, inside a folder that is not there. With
    [overwrite] a thumbnail that was in place is deleted before the
    move fails. *)
Theorem add_thumbnail_move_never_returns s (source_path : string) (overwrite : bool)
    (Hname : ospath.is_name (ospath.name (ospath.Path source_path)) = true) :
  let destination_path :=
    ospath.Path (ospath.join (ospath.join (_dataset_path s) "docs")
                   (ospath.name (ospath.Path source_path))) in
  exists e s',
    add_thumbnail source_path false overwrite s = Raise e s'
    /\ s' = with_disk (disk s') s
    /\ (fs.isfile (disk s) (ospath.Path source_path) = true ->
        overwrite = true ->
        fs.exists_ (disk s') destination_path = false).
Proof.
  intros dest. unfold add_thumbnail.
  unfold bind at 1, os_isfile at 1.
  destruct (fs.isfile (disk s) (ospath.Path source_path)) eqn:Hsrc; cbn [negb].
  2: { eexists _, s. split; [reflexivity|]. split; [by destruct s|done]. }
  unfold bind at 1, get at 1. cbv beta zeta. fold dest.
  unfold bind at 1, os_exists at 1.
  assert (ospath.resolve dest
          = ospath.resolve (ospath.join (_dataset_path s) "docs")
              ++ [ospath.name (ospath.Path source_path)]) as Hres.
  { unfold dest. by rewrite resolve_Path, resolve_join. }
  assert (forall s1,
             s1 = with_disk (disk s1) s ->
             fs.lookup (ospath.resolve dest) (disk s1) = None ->
             exists e,
               (_move_single_file source_path dest (ospath.name (ospath.Path source_path))
                  false ;;;
                _modify_manifest (ospath.name (ospath.Path source_path)) (_dataset_path s)
                  (ospath.parent dest) "This is a thumbnail file") s1
               = Raise e s1) as Hmove.
  { intros s1 _ Hgone.
    destruct (move_into_missing (disk s1) source_path dest _ Hname Hgone) as [e He].
    exists e. unfold bind, _move_single_file, on_disk. by rewrite He. }
  destruct (fs.exists_ (disk s) dest) eqn:He.
  - destruct overwrite.
    + destruct (delete_data_removes dest s He) as (b & d' & Hdel & Hgone).
      { rewrite Hres. intros Heq. by apply app_eq_nil in Heq as [_ ?]. }
      unfold bind at 1. unfold bind at 1. rewrite Hdel. unfold ret at 1.
      destruct (Hmove (with_disk d' s) eq_refl Hgone) as [e Hrun].
      exists e, (with_disk d' s). split; [exact Hrun|]. split; [done|].
      intros _ _. by apply exists_false_lookup.
    + eexists _, s. split; [reflexivity|]. split; [by destruct s|done].
  - assert (fs.lookup (ospath.resolve dest) (disk s) = None) as Hgone
        by (by apply exists_false_lookup).
    unfold bind at 1, ret at 1.
    destruct (Hmove s ltac:(by destruct s) Hgone) as [e Hrun].
    exists e, s. split; [exact Hrun|]. split; [by destruct s|].
    intros _ _. exact He.
Qed.


End thumbnail.

(** The theorem at the example dataset: the file /in/a.TXT moved in as
    the thumbnail. *)
Lemma add_thumbnail_move_never_returns_witness :
  exists e s', add_thumbnail "/in/a.TXT" false true example.state = Raise e s'.
Proof.
  destruct (add_thumbnail_move_never_returns example.state "/in/a.TXT" true eq_refl)
    as (e & s' & H & _).
  by exists e, s'.
Defined.


(** ** The relative names of the manifest *)

Section relative_names.

Lemma startswith_app (a t : string) : pystr.startswith a (a +:+ t) = true.
Proof.
  induction a as [|c a IH]; [done|].
  change (String c a +:+ t) with (String c (a +:+ t)). cbn [pystr.startswith].
  by rewrite decide_True.
Qed.

(** The scan skips what is left of the occurrence it found. *)
Lemma replace_go_skip (old new u t : string) :
  pystr.replace_go old new (String.length u) (u +:+ t) = pystr.replace_go old new 0 t.
Proof.
  induction u as [|c u IH]; [by destruct t|].
  change (String c u +:+ t) with (String c (u +:+ t)). cbn [String.length pystr.replace_go].
  exact IH.
Qed.

Lemma replace_go_prefix (c : ascii) (old new t : string) :
  pystr.replace_go (String c old) new 0 (String c old +:+ t)
  = new +:+ pystr.replace_go (String c old) new 0 t.
Proof.
  change (String c old +:+ t) with (String c (old +:+ t)).
  cbn [pystr.replace_go].
  change (String c (old +:+ t)) with (String c old +:+ t). rewrite startswith_app.
  replace (String.length (String c old) - 1) with (String.length old)
    by (cbn [String.length]; lia).
  by rewrite replace_go_skip.
Qed.

Lemma replace_go_absent (old new t : string) :
  pystr.contains old t = false -> pystr.replace_go old new 0 t = t.
Proof.
  induction t as [|c t IH]; [done|].
  cbn [pystr.contains]. intros [H1 H2]%orb_false_iff.
  cbn [pystr.replace_go]. rewrite H1. by rewrite IH.
Qed.

(** A text that starts with [old] and has no other occurrence of it
    loses that start. *)
Lemma replace_leading (old t : string) :
  old ≠ "" -> pystr.contains old t = false ->
  pystr.replace (old +:+ t) old "" = t.
Proof.
  intros Hne Ht. destruct old as [|c old]; [done|]. unfold pystr.replace.
  rewrite replace_go_prefix. by rewrite replace_go_absent.
Qed.


(** The names of the manifest are relative to the folder when the text
    of the folder occurs in the path of the file as its start and
    nowhere else. For a file whose path is the folder's text, a slash
    and [t], the synchroniser records [t] as a path, and [delete_data]
    looks for [t] as a path. When the folder of the manifest is the
    dataset path and both paths are in their normal form, [delete_data]
    looks for the very name the synchroniser recorded, relative or
    not. *)
Theorem manifest_names_relative :
  (forall folder dest fname t : string,
      folder ≠ "" ->
      ospath.join dest fname = folder +:+ String "/" t ->
      pystr.contains folder (String "/" t) = false ->
      manifest_filename folder dest fname = ospath.Path t)
  /\ (forall dataset_path path t : string,
         ospath.Path path = ospath.Path dataset_path +:+ String "/" t ->
         pystr.contains (ospath.Path dataset_path) (String "/" t) = false ->
         deleted_filename dataset_path path = ospath.Path t)
  /\ (forall dataset_path dest fname : string,
         ospath.Path dataset_path = dataset_path ->
         ospath.Path (ospath.join dest fname) = ospath.join dest fname ->
         deleted_filename dataset_path (ospath.join dest fname)
         = manifest_filename dataset_path dest fname).
Proof.
  split; [|split].
  - intros folder dest fname t Hne Hjoin Hno. unfold manifest_filename.
    by rewrite Hjoin, replace_leading.
  - intros dataset_path path t Hpath Hno. unfold deleted_filename.
    rewrite Hpath, replace_leading; [done| |done].
    intros Heq. rewrite Heq in Hno. by vm_compute in Hno.
  - intros dataset_path dest fname Hd Hp. unfold deleted_filename, manifest_filename.
    by rewrite Hd, Hp.
Qed.

End relative_names.

(** The theorem at the example dataset: the file a.TXT of the sample
    folder /ds/primary/sub-1/sam-1. *)
Lemma manifest_names_relative_witness :
  manifest_filename "/ds" "/ds/primary/sub-1/sam-1" "a.TXT" = "primary/sub-1/sam-1/a.TXT"
  /\ deleted_filename "/ds" "/ds/primary/sub-1/sam-1/a.TXT" = "primary/sub-1/sam-1/a.TXT".
Proof.
  destruct manifest_names_relative as (Hadd & Hdel & _). split.
  - apply (Hadd "/ds" "/ds/primary/sub-1/sam-1" "a.TXT" "primary/sub-1/sam-1/a.TXT");
      [done|reflexivity|reflexivity].
  - apply (Hdel "/ds" "/ds/primary/sub-1/sam-1/a.TXT" "primary/sub-1/sam-1/a.TXT");
      reflexivity.
Defined.

(** ** The manifest kept in a .json file: claim C1 *)

Section recorded_twice.
Implicit Types (df : pd.DataFrame) (s : State).

Lemma contains_sep_app (a t : string) :
  pystr.contains "/" (a +:+ String "/" t) = true.
Proof.
  induction a as [|c a IH]; [done|].
  change (String c a +:+ String "/" t) with (String c (a +:+ String "/" t)).
  cbn [pystr.contains]. rewrite IH. apply orb_true_r.
Qed.

Lemma rsplit_sep_app (a name : string) :
  pystr.contains "/" name = false ->
  ospath.rsplit_sep (a +:+ String "/" name) = (a +:+ "/", name).
Proof.
  intros Hn. induction a as [|c a IH].
  - change ("" +:+ String "/" name) with (String "/" name). cbn [ospath.rsplit_sep].
    rewrite (rsplit_sep_no_sep _ Hn).
    change (String "/" name) with ("" +:+ String "/" name). by rewrite contains_sep_app.
  - change (String c a +:+ String "/" name) with (String c (a +:+ String "/" name)).
    cbn [ospath.rsplit_sep]. rewrite IH.
    change (String c (a +:+ String "/" name)) with (String c a +:+ String "/" name).
    by rewrite contains_sep_app.
Qed.

Lemma join_name_cases (folder name : string) :
  pystr.startswith "/" name = false ->
  ospath.join folder name = name
  \/ exists a, ospath.join folder name = a +:+ String "/" name.
Proof.
  intros Hn. unfold ospath.join. rewrite Hn.
  destruct (decide (folder = "" ∨ ospath.last_char folder = Some "/"%char)) as [[->|Hl]|_].
  - by left.
  - right. destruct (last_char_sep _ _ Hl) as [a ->]. exists a. apply append_sep_assoc.
  - right. by exists folder.
Qed.

(** The manifest the synchroniser makes is a spreadsheet by its
    name. *)
Lemma splitext_new_manifest (folder : string) :
  pystr.lower (ospath.splitext (ospath.join folder "manifest.xlsx")).2 = ".xlsx".
Proof.
  destruct (join_name_cases folder "manifest.xlsx" eq_refl) as [->|[a ->]]; [done|].
  unfold ospath.splitext. by rewrite rsplit_sep_app.
Qed.

(** What is found in the tree is what [find_manifest] returns. *)
Lemma find_manifest_of_found folder s path ext df :
  found_manifest (disk s) folder path ext df ->
  find_manifest folder s = Ret (path, ext, df) s.
Proof.
  intros [files f rest cols rows Hl Hf He Hr|files Hl Hf];
    unfold find_manifest, bind at 1, os_listdir at 1; rewrite Hl; cbn [lift ret];
    rewrite Hf; [|done].
  assert (bind (read_table (ospath.join folder f))
            (fun df0 => ret (ospath.join folder f,
                             pystr.lower (ospath.splitext (ospath.join folder f)).2, df0)) s
          = Ret (ospath.join folder f,
                 pystr.lower (ospath.splitext (ospath.join folder f)).2,
                 pd.mkDF cols (pd.relabel rows)) s) as Hrun.
  { unfold bind, read_table. by rewrite Hr. }
  unfold read_excel, read_csv, read_json.
  repeat (destruct (decide _); [exact Hrun|]).
  exfalso. repeat (apply elem_of_cons in He as [He|He]; [done|]).
  by apply elem_of_nil in He.
Qed.

Lemma upsert_columns df row key now df' c :
  upsert df row key now = inr df' -> c ∈ pd.columns df -> c ∈ pd.columns df'.
Proof.
  unfold upsert, pd.eq_mask. destruct (decide _); [|done].
  destruct (pd.any _); intros [= <-] Hc; simpl.
  - by apply elem_of_add_column.
  - apply elem_of_foldl_add_column. by left.
Qed.


(** A call finds the same manifest in a state with the same file
    tree. *)
Lemma find_manifest_same_disk folder s s' x :
  disk s' = disk s ->
  find_manifest folder s = Ret x s -> find_manifest folder s' = Ret x s'.
Proof.
  destruct x as [[path ext] df]. intros Hd H.
  apply find_manifest_Ret in H as [_ H]. rewrite <- Hd in H.
  by apply find_manifest_of_found.
Qed.

(** A call on a JSON manifest without a row of the file's name: the
    table of the file and one more row is registered, nothing is
    written. *)
Lemma modify_manifest_json fname folder dest description s path df m p0 r0 :
  find_manifest folder s = Ret (path, ".json", df) s ->
  "filename" ∈ pd.columns df ->
  (forall lr, lr ∈ pd.body df ->
     lr.2 !! "filename" ≠ Some (PStr (manifest_filename folder dest fname))) ->
  _metadata s !! "manifest" = Some m ->
  _dataset s !! "manifest" = Some (Tabular p0 r0) ->
  _modify_manifest fname folder dest description s
  = Ret tt (registered s m p0
              (pd.concat_row df
                 (manifest_row (manifest_filename folder dest fname) (clock s (ticks s))
                    description fname))).
Proof.
  intros Hfind Hcol Hno Hm Hd.
  rewrite (modify_manifest_run fname folder dest description s path ".json" df _ m p0 r0
             Hfind (upsert_new _ _ _ _ Hcol Hno) Hm Hd).
  unfold save_manifest. rewrite !decide_False by done. rewrite decide_True by done.
  destruct (find_manifest_Ret _ _ _ _ _ _ Hfind) as [_ Hfound].
  inversion Hfound as [files f rest cols rows Hl Hfl He Hr Hp Hext Hdf|]; subst.
  unfold bind, read_json, read_table.
  change (disk (registered s m p0 _)) with (disk s). by rewrite Hr.
Qed.

(** C1. A manifest kept in a .json file is never written: where the
    source says it saves the edited manifest, the .json branch reads
    the file again. Each call therefore starts from the rows of the
    unchanged file. On a loaded dataset whose manifest is found in a
    .json file, with its [filename] column and no row of the file's
    name: the first call registers the rows of the file and a row of
    that name with the first description, and returns; the second call
    for the same name, although the manifest table of the dataset now
    has a row of that name, does not restamp it: it registers the rows
    of the file and a new row with the second description and the
    second time. The row of the first call, with its description, is
    gone, and the file is as it was. So in the dataset /j, whose
    manifest.json records primary/readme.txt: after a.txt of
    /j/primary is recorded with "first" and then with "second", the
    manifest table has the description "second" for primary/a.txt. *)
Theorem modify_manifest_json_forgets_row :
  (forall fname folder dest description1 description2 s path df m p0 r0,
      find_manifest folder s = Ret (path, ".json", df) s ->
      "filename" ∈ pd.columns df ->
      (forall lr, lr ∈ pd.body df ->
         lr.2 !! "filename" ≠ Some (PStr (manifest_filename folder dest fname))) ->
      _metadata s !! "manifest" = Some m ->
      _dataset s !! "manifest" = Some (Tabular p0 r0) ->
      exists s1 s2 m1 m2 df1 df2,
        _modify_manifest fname folder dest description1 s = Ret tt s1
        /\ _metadata s1 !! "manifest" = Some m1
        /\ heap s1 !! data m1 = Some df1
        /\ (pd.body df1).*2
           = (pd.body df).*2
             ++ [{[ "filename" := PStr (manifest_filename folder dest fname);
                    "timestamp" := PStr (clock s (ticks s));
                    "description" := PStr description1;
                    "file type" := PStr (file_type fname) ]}]
        /\ _modify_manifest fname folder dest description2 s1 = Ret tt s2
        /\ _metadata s2 !! "manifest" = Some m2
        /\ heap s2 !! data m2 = Some df2
        /\ (pd.body df2).*2
           = (pd.body df).*2
             ++ [{[ "filename" := PStr (manifest_filename folder dest fname);
                    "timestamp" := PStr (clock s (S (ticks s)));
                    "description" := PStr description2;
                    "file type" := PStr (file_type fname) ]}]
        /\ disk s2 = disk s)
  /\ (let s1 :=
        state_of (_modify_manifest "a.txt" "/j" "/j/primary" "first" example.json_state) in
      let s2 := state_of (_modify_manifest "a.txt" "/j" "/j/primary" "second" s1) in
      _modify_manifest "a.txt" "/j" "/j/primary" "first" example.json_state = Ret tt s1
      /\ (m ← _metadata s1 !! "manifest"; df ← heap s1 !! data m;
          Some (pd.column_cells df "filename", pd.column_cells df "description"))
         = Some ([Some (PStr "primary/readme.txt"); Some (PStr "primary/a.txt")],
                 [Some (PStr "notes"); Some (PStr "first")])
      /\ _modify_manifest "a.txt" "/j" "/j/primary" "second" s1 = Ret tt s2
      /\ (m ← _metadata s2 !! "manifest"; df ← heap s2 !! data m;
          Some (pd.column_cells df "filename", pd.column_cells df "description",
                pd.column_cells df "timestamp"))
         = Some ([Some (PStr "primary/readme.txt"); Some (PStr "primary/a.txt")],
                 [Some (PStr "notes"); Some (PStr "second")],
                 [Some (PStr "2023-12-31 00:00:00"); Some (PStr "2024-01-04 00:00:01")])
      /\ fs.read (disk s2) "/j/manifest.json"
         = inr (fs.Sheet manifest_columns [example.json_record])
      /\ trace s2 = []).
Proof.
  split.
  - intros fname folder dest d1 d2 s path df m p0 r0 Hfind Hcol Hno Hm Hd.
    set (key := manifest_filename folder dest fname) in *.
    pose proof (modify_manifest_json fname folder dest d1 s path df m p0 r0
                  Hfind Hcol Hno Hm Hd) as H1.
    fold key in H1.
    set (df1 := pd.concat_row df (manifest_row key (clock s (ticks s)) d1 fname)) in *.
    set (s1 := registered s m p0 df1) in *.
    assert (find_manifest folder s1 = Ret (path, ".json", df) s1) as Hfind1
        by (by apply (find_manifest_same_disk folder s s1)).
    pose proof (modify_manifest_json fname folder dest d2 s1 path df
                  (with_data m (fresh (dom (heap s)))) p0 (fresh (dom (heap s)))
                  Hfind1 Hcol Hno (lookup_insert_eq _ _ _) (lookup_insert_eq _ _ _)) as H2.
    fold key in H2.
    change (clock s1 (ticks s1)) with (clock s (S (ticks s))) in H2.
    set (df2 := pd.concat_row df (manifest_row key (clock s (S (ticks s))) d2 fname)) in *.
    exists s1, (registered s1 (with_data m (fresh (dom (heap s)))) p0 df2).
    eexists _, _. exists df1, df2.
    split; [exact H1|]. split; [apply lookup_insert_eq|]. split; [apply lookup_insert_eq|].
    split; [unfold df1, pd.concat_row; cbn [pd.body]; by rewrite relabel_snd, manifest_row_cells|].
    split; [exact H2|]. split; [apply lookup_insert_eq|]. split; [apply lookup_insert_eq|].
    split; [unfold df2, pd.concat_row; cbn [pd.body]; by rewrite relabel_snd, manifest_row_cells|].
    done.
  - intros s1 s2.
    split; [apply returns_state_of; vm_compute; reflexivity|].
    split; [vm_compute; reflexivity|].
    split; [apply returns_state_of; vm_compute; reflexivity|].
    split; [vm_compute; reflexivity|]. split; vm_compute; reflexivity.
Qed.

End recorded_twice.

(** ** One call of the synchroniser *)

Section one_call.
Implicit Types (s : State) (df : pd.DataFrame).

(** One call of [_modify_manifest], on the table it reads. On a loaded
    dataset, a call that finds the manifest table [df] of the folder,
    with its [filename] column, works out a table [df'], registers it
    with the manifest editor at a new address and goes on to save it:
    whatever the saving ends with, [df'] is the table of the manifest
    editor afterwards. When [df] has rows of the file's manifest name,
    [df'] has the rows of [df] under their labels, each with its cells
    but [timestamp], which is the time of the call in the rows of that
    name: the description of the call is not recorded. When [df] has
    no row of that name, [df'] has the rows of [df] and one more, with
    the name, the time, the description and the file type, labelled
    from 0. A table with one row per file name at most is still
    one. *)
Theorem modify_manifest_one_call
    (fname folder dest description : string) s (path ext : string) df
    (m : Metadata) (p0 : string) (r0 : nat)
    (Hfind : find_manifest folder s = Ret (path, ext, df) s)
    (Hcol : "filename" ∈ pd.columns df)
    (Hm : _metadata s !! "manifest" = Some m)
    (Hd : _dataset s !! "manifest" = Some (Tabular p0 r0)) :
  let key := manifest_filename folder dest fname in
  let now := clock s (ticks s) in
  let s' := state_of (_modify_manifest fname folder dest description s) in
  exists df',
    _modify_manifest fname folder dest description s
    = save_manifest df' path ext (registered s m p0 df')
    /\ _metadata s' !! "manifest" = Some (with_data m (fresh (dom (heap s))))
    /\ heap s !! fresh (dom (heap s)) = None
    /\ heap s' !! fresh (dom (heap s)) = Some df'
    /\ ((exists lr, lr ∈ pd.body df /\ lr.2 !! "filename" = Some (PStr key)) ->
        pd.body df' = restamp key now <$> pd.body df
        /\ length (pd.body df') = length (pd.body df)
        /\ (forall i lr lr',
               pd.body df !! i = Some lr -> pd.body df' !! i = Some lr' ->
               lr'.1 = lr.1
               /\ (forall c, c ≠ "timestamp" -> lr'.2 !! c = lr.2 !! c)
               /\ (lr.2 !! "filename" = Some (PStr key) ->
                   lr'.2 !! "timestamp" = Some (PStr now))
               /\ (lr.2 !! "filename" ≠ Some (PStr key) -> lr' = lr)))
    /\ ((forall lr, lr ∈ pd.body df -> lr.2 !! "filename" ≠ Some (PStr key)) ->
        pd.body df'
        = pd.relabel
            ((pd.body df).*2
             ++ [{[ "filename" := PStr key;
                    "timestamp" := PStr now;
                    "description" := PStr description;
                    "file type" := PStr (file_type fname) ]}]))
    /\ (unique_filenames df -> unique_filenames df').
Proof.
  intros key now s'.
  destruct (upsert_total df (manifest_row key now description fname) key now Hcol)
    as [df' Hup].
  exists df'.
  pose proof (modify_manifest_run fname folder dest description s path ext df df' m p0 r0
                Hfind Hup Hm Hd) as Hrun.
  split; [exact Hrun|].
  destruct (save_manifest_state df' path ext (registered s m p0 df')) as (Hh & Hmm & _).
  rewrite <- Hrun in Hh, Hmm. fold s' in Hh, Hmm.
  split; [rewrite Hmm; apply lookup_insert_eq|].
  split; [apply lookup_fresh_heap|].
  split; [rewrite Hh; apply lookup_insert_eq|].
  split; [|split].
  - intros Hrow.
    destruct (upsert_found df (manifest_row key now description fname) key now Hcol Hrow)
      as (df'' & Hup' & Hbody & _).
    rewrite Hup in Hup'. injection Hup' as <-.
    split; [exact Hbody|]. split; [by rewrite Hbody, length_fmap|].
    intros i lr lr' Hi Hi'. rewrite Hbody, list_lookup_fmap, Hi in Hi'. injection Hi' as <-.
    split; [apply restamp_label|]. split; [apply restamp_other|].
    split; [apply restamp_hit|apply restamp_miss].
  - intros Hno. rewrite (upsert_new _ _ _ _ Hcol Hno) in Hup. injection Hup as <-.
    unfold pd.concat_row. cbn [pd.body]. by rewrite manifest_row_cells.
  - intros Hu. by apply (upsert_unique _ _ _ _ _ _ Hup Hu).
Qed.

End one_call.

(** The theorem at the dataset /j: readme.txt of /j/primary, which the
    manifest already records with the description "notes", is recorded
    again with another description. *)
Lemma modify_manifest_one_call_witness :
  let s' :=
    state_of (_modify_manifest "readme.txt" "/j" "/j/primary" "again" example.json_state) in
  exists df',
    heap s' !! 1%nat = Some df'
    /\ pd.body df'
       = restamp "primary/readme.txt" "2024-01-04 00:00:00" <$> [(0%Z, example.json_record)].
Proof.
  intros s'.
  destruct (modify_manifest_one_call "readme.txt" "/j" "/j/primary" "again"
              example.json_state "/j/manifest.json" ".json"
              (pd.mkDF manifest_columns [(0%Z, example.json_record)])
              (mkMetadata "manifest" 0 "/j") "/j/manifest.json" 0%nat
              ltac:(vm_compute; reflexivity) ltac:(by_compute) eq_refl eq_refl)
    as (df' & _ & _ & _ & Hheap & Hrow & _).
  exists df'. split; [exact Hheap|].
  apply Hrow. exists (0%Z, example.json_record). split; [by left|]. reflexivity.
Defined.

(** ** Loops that stop at a failure *)

Section loops.
Implicit Types (s : State).

Lemma for_each_app {X} (xs ys : list X) (body : X -> M unit) s :
  for_each (xs ++ ys) body s = (for_each xs body ;;; for_each ys body) s.
Proof.
  revert s. induction xs as [|x xs IH]; intros s; [done|].
  cbn [app for_each]. unfold bind. destruct (body x s) as [[] s1|e s1]; [|done].
  rewrite IH. done.
Qed.

(** A loop stops at the first item that raises: what the items before
    it did stays done, the items after it are not looked at. *)
Lemma for_each_stops {X} (pre post : list X) (x : X) (body : X -> M unit) s s1 e s2 :
  for_each pre body s = Ret tt s1 ->
  body x s1 = Raise e s2 ->
  for_each (pre ++ x :: post) body s = Raise e s2.
Proof.
  intros Hpre Hx. rewrite for_each_app. unfold bind at 1. rewrite Hpre.
  cbn [for_each]. unfold bind. by rewrite Hx.
Qed.

Lemma update_by_json_Ret f items s r s1 :
  update_by_json f (PDict items) s = Ret r s1 ->
  entry_metadata f s = Ret r s
  /\ for_each items (fun kv =>
       match kv.2 with
       | PDict d => nested_loop r d kv.2
       | PList _ => assign_element r kv.1 (PStr (py.str kv.2))
       | _ => assign_element r kv.1 kv.2
       end) s = Ret tt s1.
Proof.
  unfold update_by_json. unfold bind at 1.
  destruct (entry_metadata f s) as [r0 s0|] eqn:E; [|done].
  assert (s0 = s) as ->.
  { unfold entry_metadata, bind, get in E.
    destruct (_dataset s !! f) as [[p r1|p]|]; try done. by injection E. }
  unfold bind. destruct (for_each _ _ s) as [[] s'|e s'] eqn:E2; [|done].
  cbn [ret]. intros [= <- <-]. by split.
Qed.

(** [update_by_json] has no way back: a key of the document with no
    row of its name in the table ends the call in [IndexError], in the
    state the keys before it left; the keys after it are not applied. *)
Theorem update_by_json_stops_at_missing_key
    s (f : string) (pre post : list (string * pyval)) (k : string) (v : pyval)
    (r : nat) s1 (df1 : pd.DataFrame)
    (Hpre : update_by_json f (PDict pre) s = Ret r s1)
    (Hdf1 : heap s1 !! r = Some df1)
    (Hcol : "Metadata element" ∈ pd.columns df1)
    (Hno : forall lr, lr ∈ pd.body df1 -> lr.2 !! "Metadata element" ≠ Some (PStr k))
    (Hv : forall d, v ≠ PDict d) :
  update_by_json f (PDict (pre ++ (k, v) :: post)) s = Raise IndexError s1.
Proof.
  apply update_by_json_Ret in Hpre as [Hentry Hloop].
  unfold update_by_json. rewrite (bind_Ret _ _ _ _ _ Hentry).
  erewrite bind_Raise; [done|].
  eapply for_each_stops; [exact Hloop|]. cbn [fst snd].
  assert (forall v', assign_element r k v' s1 = Raise IndexError s1) as Hassign.
  { intros v'. unfold assign_element. rewrite (bind_Ret _ _ _ _ _ (deref_ok _ _ _ Hdf1)).
    unfold pd.eq_mask. rewrite decide_True by done. cbn [lift].
    unfold bind, ret. rewrite index_where_mask.
    rewrite filter_none; [done|].
    apply Forall_forall. intros lr Hlr HP. apply cell_eqb_str in HP. by apply (Hno lr). }
  destruct v; try apply Hassign. by destruct (Hv d).
Qed.

(** [delete_samples] and [delete_subjects] take a list: anything else
    is refused, by a [TypeError] in the one and a [ValueError] in the
    other, before anything is done. The folders of a list are deleted
    one after the other and the first that fails ends the call, the
    folders before it staying deleted. With a data type other than
    "primary" the calls change the file tree and the manifest at
    most, however they end. *)
Theorem delete_lists s (data_type : string) :
  (forall v, (forall l, v ≠ PList l) ->
             (exists msg, delete_samples v data_type s = Raise (TypeError msg) s)
             /\ (exists msg, delete_subjects v data_type s = Raise (ValueError msg) s))
  /\ (forall pre p post s1 e s2,
         delete_samples (PList pre) data_type s = Ret tt s1 ->
         delete_sample p data_type s1 = Raise e s2 ->
         delete_samples (PList (pre ++ p :: post)) data_type s = Raise e s2)
  /\ (forall pre p post s1 e s2,
         delete_subjects (PList pre) data_type s = Ret tt s1 ->
         delete_subject p data_type s1 = Raise e s2 ->
         delete_subjects (PList (pre ++ p :: post)) data_type s = Raise e s2)
  /\ (data_type ≠ "primary" ->
      forall l,
        manifest_only s (state_of (delete_samples (PList l) data_type s))
        /\ manifest_only s (state_of (delete_subjects (PList l) data_type s))).
Proof.
  split; [|split; [|split]].
  - intros v Hv. split; eexists; destruct v; try reflexivity; by destruct (Hv l).
  - intros pre p post s1 e s2 Hpre Hp. by eapply for_each_stops.
  - intros pre p post s1 e s2 Hpre Hp. by eapply for_each_stops.
  - intros Hdt l. split.
    + apply (keeps_for_each (R := manifest_only)). intros x s0.
      by apply keeps_frame_delete_sample.
    + apply (keeps_for_each (R := manifest_only)). intros x s0.
      by apply keeps_frame_delete_subject.
Qed.


(** [_filter] drops rows of the dataset_description document only: for
    a file name with that text in it, the rows that have a value in
    "Value" stay, in their order and under their labels, and a table
    without that column is a [KeyError]; the table of any other file
    comes back as it is. Filtering twice is filtering once. *)
Theorem filter_drops_rows_without_value (metadata : pd.DataFrame) (filename : string) :
  (pystr.contains "dataset_description" filename = false ->
   _filter metadata filename = inr metadata)
  /\ (pystr.contains "dataset_description" filename = true ->
      "Value" ∉ pd.columns metadata ->
      _filter metadata filename = inl (KeyError "Value"))
  /\ (pystr.contains "dataset_description" filename = true ->
      "Value" ∈ pd.columns metadata ->
      exists kept,
        _filter metadata filename = inr kept
        /\ pd.columns kept = pd.columns metadata
        /\ pd.body kept `sublist_of` pd.body metadata
        /\ (forall lr, lr ∈ pd.body kept
                       <-> lr ∈ pd.body metadata /\ is_Some (lr.2 !! "Value"))
        /\ _filter kept filename = inr kept).
Proof.
  unfold _filter, pd.dropna_subset. split; [|split].
  - by intros ->.
  - intros -> Hc. by rewrite decide_False.
  - intros -> Hc. rewrite decide_True by done. eexists. split; [done|].
    split; [done|]. cbn [pd.body pd.columns]. split; [apply sublist_filter|]. split.
    + intros lr. rewrite list_elem_of_filter. tauto.
    + rewrite decide_True by done. f_equal. f_equal.
      apply filter_all. apply Forall_forall. by intros lr [? _]%list_elem_of_filter.
Qed.

End loops.

(** The theorem at the example dataset: a document whose second key
    has no row in the description table. *)
Lemma update_by_json_stops_at_missing_key_witness :
  let s1 := with_heap <[2%nat := pd.assign example.description 0 "Value" (PInt 5)]>
              example.state in
  update_by_json "dataset_description" (PDict [("Number of subjects", PInt 5)])
    example.state = Ret 2%nat s1
  /\ update_by_json "dataset_description"
       (PDict [("Number of subjects", PInt 5); ("Title", PStr "t");
               ("Number of samples", PInt 7)]) example.state
     = Raise IndexError s1.
Proof.
  intros s1.
  assert (update_by_json "dataset_description" (PDict [("Number of subjects", PInt 5)])
            example.state = Ret 2%nat s1) as Hpre by reflexivity.
  split; [exact Hpre|].
  apply (update_by_json_stops_at_missing_key example.state "dataset_description"
           [("Number of subjects", PInt 5)] [("Number of samples", PInt 7)]
           "Title" (PStr "t") 2%nat s1
           (pd.assign example.description 0 "Value" (PInt 5)) Hpre).
  - reflexivity.
  - by_compute.
  - intros lr Hlr.
    assert (Forall (fun lr : Z * gmap string pyval =>
                      pd.cell_eqb (lr.2 !! "Metadata element") (PStr "Title") = false)
              (pd.body (pd.assign example.description 0 "Value" (PInt 5)))) as Hall
        by by_compute.
    rewrite Forall_forall in Hall. specialize (Hall lr Hlr).
    intros Heq. apply cell_eqb_str in Heq. congruence.
  - done.
Defined.


(** ** The derivative folder *)

Section derivative.
Implicit Types (s : State).




End derivative.


(** ** The nested-directory guard, step by step: claim C4 *)

Section guard_steps.
Implicit Types (s : State).

(** The steps of the loop print nothing. *)
Global Instance wrote_only_preorder : PreOrder wrote_only.
Proof.
  split.
  - intros s. exists []. by rewrite app_nil_r.
  - intros s1 s2 s3 (e1 & H1 & F1) (e2 & H2 & F2). exists (e1 ++ e2).
    split; [by rewrite H2, H1, app_assoc|by apply Forall_app].
Qed.








(** A loop that returns has returned at each of its items. *)
Lemma for_each_Ret_split {X} (pre1 pre2 : list X) (x : X) (body : X -> M unit) s s2 :
  for_each (pre1 ++ x :: pre2) body s = Ret tt s2 ->
  exists sa sb,
    for_each pre1 body s = Ret tt sa /\ body x sa = Ret tt sb
    /\ for_each pre2 body sb = Ret tt s2.
Proof.
  rewrite for_each_app. intros (sa & Ha & H)%bind_unit_Ret.
  cbn [for_each] in H. apply bind_unit_Ret in H as (sb & Hb & H).
  by exists sa, sb.
Qed.





End guard_steps.

Section guard_theorem.
Implicit Types (s : State).


End guard_theorem.

